(** * BrassLoom: harvester scoring / de-duplication and workbook sync

    A shallow embedding of the computational core of
    [brassloom_harvest.py] and [brassloom_sync_gsu.py], together with the
    properties of the specification that concern it.

    Modelling conventions.
    - A Python [str] is a [string]; a character is read as a code point
      below 256 (ASCII and Latin-1).  [lower], [strip], [\d], [\w] and
      [\b] are the restrictions of Python's Unicode behaviour to that
      range.
    - A Python [int] is a [Z]; [int(s)] is taken to succeed on every
      string of decimal digits.
    - JSON values and workbook cells are [pyval]s: [None], a string or an
      integer.
    - A dictionary read from JSON is a [gmap string pyval].
    - The wall clock ([datetime.utcnow()], [date.today()]) is an explicit
      argument.
    - A raised, uncaught exception is [None] in the [option] monad; an
      exception caught by the program is the value the handler yields.
    - Library routines are modelled from their behaviour in CPython 3.11:
      the ordinal arithmetic of [datetime], [datetime.fromisoformat] with
      the calendar and week dates it reads, the [strptime] directives
      [%Y], [%m], [%d], and [list.sort] as a stable sort.
    - Network fetching, the command line, the selection of the items to
      import and the reading and writing of files are outside the model:
      the functions take the fetched items, the chosen items and the rows
      of the two sheets as arguments. *)

From Stdlib Require Import ZArith Lia Ascii String List Sorted Permutation.
From stdpp Require Import base tactics option list gmap strings.

Local Open Scope Z_scope.

(** ** Characters and strings *)

Module Py.

Definition code (c : ascii) : Z := Z.of_N (N_of_ascii c).

Definition chr (z : Z) : ascii := ascii_of_N (Z.to_N z).

Definition between (lo hi : Z) (c : ascii) : bool :=
  (lo <=? code c) && (code c <=? hi).

(** [\d]: the decimal digits. *)
Definition is_digit (c : ascii) : bool := between 48 57 c.

(** [str.isspace] on one character. *)
Definition is_space (c : ascii) : bool :=
  between 9 13 c || between 28 32 c || (code c =? 133) || (code c =? 160).

(** Characters changed by [str.lower]: A-Z and the Latin-1 capitals. *)
Definition is_upper (c : ascii) : bool :=
  between 65 90 c || (between 192 222 c && negb (code c =? 215)).

Definition lower_char (c : ascii) : ascii :=
  if is_upper c then chr (code c + 32) else c.

(** [\w]: alphanumeric characters and the underscore. *)
Definition is_word (c : ascii) : bool :=
  between 48 57 c || between 65 90 c || between 97 122 c || (code c =? 95)
  || (code c =? 170) || (code c =? 178) || (code c =? 179) || (code c =? 181)
  || (code c =? 185) || (code c =? 186) || between 188 190 c
  || between 192 214 c || between 216 246 c || between 248 255 c.

(** [s.lower()] *)
Fixpoint lower (s : string) : string :=
  match s with
  | EmptyString => EmptyString
  | String c s' => String (lower_char c) (lower s')
  end.

Fixpoint lstrip (s : string) : string :=
  match s with
  | EmptyString => EmptyString
  | String c s' => if is_space c then lstrip s' else s
  end.

Fixpoint rstrip (s : string) : string :=
  match s with
  | EmptyString => EmptyString
  | String c s' =>
      match rstrip s' with
      | EmptyString => if is_space c then EmptyString else String c EmptyString
      | r => String c r
      end
  end.

(** [s.strip()] *)
Definition strip (s : string) : string := rstrip (lstrip s).

(** [s[:n]] *)
Fixpoint take (n : nat) (s : string) : string :=
  match n, s with
  | S n', String c s' => String c (take n' s')
  | _, _ => EmptyString
  end.

(** [s.startswith(p)] *)
Fixpoint startswith (p s : string) : bool :=
  match p, s with
  | EmptyString, _ => true
  | String a p', String b s' => if decide (a = b) then startswith p' s' else false
  | String _ _, EmptyString => false
  end.

(** [needle in hay] *)
Fixpoint contains (needle hay : string) : bool :=
  startswith needle hay ||
  match hay with
  | EmptyString => false
  | String _ hay' => contains needle hay'
  end.

(** [sep.join(parts)] *)
Fixpoint join (sep : string) (parts : list string) : string :=
  match parts with
  | [] => ""
  | [p] => p
  | p :: ps => p +:+ sep +:+ join sep ps
  end.

(** *** Decimal numerals *)

Definition digit_val (c : ascii) : Z := code c - 48.

Definition digit_char (d : Z) : ascii := chr (d + 48).

(** [int(s)] on a string of decimal digits, most significant first. *)
Fixpoint int_of_digits (acc : Z) (s : string) : Z :=
  match s with
  | EmptyString => acc
  | String c s' => int_of_digits (acc * 10 + digit_val c) s'
  end.

Fixpoint digits_go (fuel : nat) (n : Z) (acc : string) : string :=
  match fuel with
  | O => acc
  | S fuel' =>
      let acc' := String (digit_char (n mod 10)) acc in
      if n <? 10 then acc' else digits_go fuel' (n / 10) acc'
  end.

(** The decimal numeral of [n >= 0]; the fuel exceeds the number of
    digits. *)
Definition digits (n : Z) : string :=
  digits_go (S (Z.to_nat (Z.log2 n))) n "".

(** [str(n)] *)
Definition str_of_int (n : Z) : string :=
  if n <? 0 then "-" +:+ digits (- n) else digits n.

Fixpoint zeros (k : nat) : string :=
  match k with
  | O => ""
  | S k' => String "0" (zeros k')
  end.

(** [format(n, "0{w}d")]: zero padding is inserted after the sign. *)
Definition fmt_0d (w : nat) (n : Z) : string :=
  if n <? 0
  then "-" +:+ zeros (Nat.pred w - String.length (digits (- n))) +:+ digits (- n)
  else zeros (w - String.length (digits n)) +:+ digits n.

(** *** The regular expressions of the program *)

(** The longest prefix of decimal digits: what [(\d+)] captures. *)
Fixpoint take_digits (s : string) : string :=
  match s with
  | EmptyString => EmptyString
  | String c s' => if is_digit c then String c (take_digits s') else EmptyString
  end.

Fixpoint strip_prefix (p s : string) : option string :=
  match p, s with
  | EmptyString, _ => Some s
  | String a p', String b s' => if decide (a = b) then strip_prefix p' s' else None
  | String _ _, EmptyString => None
  end.

(** [m = re.match(prefix + r"(\d+)", s)] followed by [int(m.group(1))]. *)
Definition match_int (prefix s : string) : option Z :=
  rest ← strip_prefix prefix s;
  match take_digits rest with
  | EmptyString => None
  | ds => Some (int_of_digits 0 ds)
  end.

(** Does [w] match at the head of [s], ignoring case? *)
Fixpoint startswith_nocase (w s : string) : option string :=
  match w, s with
  | EmptyString, _ => Some s
  | String a w', String b s' =>
      if decide (lower_char a = lower_char b) then startswith_nocase w' s' else None
  | String _ _, EmptyString => None
  end.

Definition boundary_after (rest : string) : bool :=
  match rest with
  | EmptyString => true
  | String c _ => negb (is_word c)
  end.

(** [re.search(r'\b' + w + r'\b', s, re.I)] for a word [w] made of word
    characters; [prev] tells whether the character before [s] is a word
    character. *)
Fixpoint search_word_from (prev : bool) (w s : string) : bool :=
  (negb prev &&
     match startswith_nocase w s with
     | Some rest => boundary_after rest
     | None => false
     end) ||
  match s with
  | EmptyString => false
  | String c s' => search_word_from (is_word c) w s'
  end.

Definition search_word (w s : string) : bool := search_word_from false w s.

(** *** Vocabulary for the statements *)

(** [n] occurs in [h]. *)
Definition substring (n h : string) : Prop :=
  exists pre post, h = pre +:+ n +:+ post.

(** A string of decimal digits. *)
Fixpoint all_digits (s : string) : bool :=
  match s with
  | EmptyString => true
  | String c s' => is_digit c && all_digits s'
  end.

(** A string of white space. *)
Fixpoint all_space (s : string) : bool :=
  match s with
  | EmptyString => true
  | String c s' => is_space c && all_space s'
  end.

(** [s.replace(w, "")]: the text [s] with the occurrences of [w] removed,
    scanning from the left. *)
Fixpoint remove_all_go (fuel : nat) (w s : string) : string :=
  match fuel with
  | O => s
  | S fuel' =>
      match strip_prefix w s with
      | Some rest => remove_all_go fuel' w rest
      | None =>
          match s with
          | EmptyString => EmptyString
          | String c s' => String c (remove_all_go fuel' w s')
          end
      end
  end.

Definition remove_all (w s : string) : string :=
  match w with
  | EmptyString => s
  | _ => remove_all_go (S (String.length s)) w s
  end.

(** *** Splitting *)

(** [s.split(sep)] for a separator of one character: the pieces between
    the separators, at least one piece. *)
Fixpoint split_on (sep : ascii) (s : string) : list string :=
  match s with
  | EmptyString => [EmptyString]
  | String c s' =>
      if decide (c = sep) then EmptyString :: split_on sep s'
      else
        match split_on sep s' with
        | w :: ws => String c w :: ws
        | [] => [String c EmptyString]
        end
  end.

(** The characters of a string. *)
Definition chars (s : string) : list ascii := list_ascii_of_string s.

End Py.

(** ** Python values *)

Inductive pyval : Type :=
  | PNone
  | PStr (s : string)
  | PInt (n : Z).

Global Instance pyval_eq_dec : EqDecision pyval.
Proof. solve_decision. Defined.

Global Instance pyval_countable : Countable pyval.
Proof.
  refine (inj_countable'
    (λ v, match v with
          | PNone => inl ()
          | PStr s => inr (inl s)
          | PInt n => inr (inr n)
          end)
    (λ x, match x with
          | inl _ => PNone
          | inr (inl s) => PStr s
          | inr (inr n) => PInt n
          end) _).
  by intros [].
Defined.

(** Truth value of a value: [None], [""] and [0] are false. *)
Definition truthy (v : pyval) : bool :=
  match v with
  | PNone => false
  | PStr s => negb (String.eqb s "")
  | PInt n => negb (n =? 0)
  end.

(** [a or b] *)
Definition py_or (a b : pyval) : pyval := if truthy a then a else b.

(** [str(v)] *)
Definition py_str (v : pyval) : string :=
  match v with
  | PNone => "None"
  | PStr s => s
  | PInt n => Py.str_of_int n
  end.

(** The receiver of a string method; any other value raises
    [AttributeError] or [TypeError]. *)
Definition as_str (v : pyval) : option string :=
  match v with
  | PStr s => Some s
  | _ => None
  end.

(** [d.get(k)] and [d.get(k, dflt)] *)
Definition dict_get (d : gmap string pyval) (k : string) : pyval :=
  default PNone (d !! k).

Definition dict_get_or (d : gmap string pyval) (k : string) (dflt : pyval) : pyval :=
  default dflt (d !! k).

(** ** Calendar dates ([datetime.date], [datetime.datetime])

    The proleptic Gregorian ordinal arithmetic of the [datetime] module. *)

Module Date.

Record date : Type := mk { year : Z; month : Z; day : Z }.

Global Instance date_eq_dec : EqDecision date.
Proof. solve_decision. Defined.

Definition MAXORDINAL : Z := 3652059.

Definition is_leap (y : Z) : bool :=
  (y mod 4 =? 0) && (negb (y mod 100 =? 0) || (y mod 400 =? 0)).

Definition DAYS_IN_MONTH : list Z :=
  [-1; 31; 28; 31; 30; 31; 30; 31; 31; 30; 31; 30; 31].

Definition DAYS_BEFORE_MONTH : list Z :=
  [-1; 0; 31; 59; 90; 120; 151; 181; 212; 243; 273; 304; 334].

Definition table (t : list Z) (m : Z) : Z := nth (Z.to_nat m) t 0.

Definition days_before_year (y : Z) : Z :=
  let y := y - 1 in y * 365 + y / 4 - y / 100 + y / 400.

Definition days_in_month (y m : Z) : Z :=
  if (m =? 2) && is_leap y then 29 else table DAYS_IN_MONTH m.

Definition days_before_month (y m : Z) : Z :=
  table DAYS_BEFORE_MONTH m + (if (2 <? m) && is_leap y then 1 else 0).

(** [_ymd2ord(y, m, d)] *)
Definition ymd2ord (y m d : Z) : Z :=
  days_before_year y + days_before_month y m + d.

Definition DI400Y : Z := 146097.
Definition DI100Y : Z := 36524.
Definition DI4Y : Z := 1461.

(** The last step of [_ord2ymd]: month and day of the month for the
    zero-based day [n] of a year; the month is estimated by a shift and
    corrected when the estimate is too large. *)
Definition month_day (leapyear : bool) (n : Z) : Z * Z :=
  let m := Z.shiftr (n + 50) 5 in
  let preceding :=
    table DAYS_BEFORE_MONTH m + (if (2 <? m) && leapyear then 1 else 0) in
  if n <? preceding
  then
    let m := m - 1 in
    let preceding :=
      preceding
      - (table DAYS_IN_MONTH m + (if (m =? 2) && leapyear then 1 else 0)) in
    (m, n - preceding + 1)
  else (m, n - preceding + 1).

(** [_ord2ymd(n)] *)
Definition ord2ymd (n : Z) : date :=
  let n := n - 1 in
  let n400 := n / DI400Y in
  let n := n mod DI400Y in
  let y := n400 * 400 + 1 in
  let n100 := n / DI100Y in
  let n := n mod DI100Y in
  let n4 := n / DI4Y in
  let n := n mod DI4Y in
  let n1 := n / 365 in
  let n := n mod 365 in
  let y := y + n100 * 100 + n4 * 4 + n1 in
  if (n1 =? 4) || (n100 =? 4) then mk (y - 1) 12 31
  else
    let leapyear := (n1 =? 3) && (negb (n4 =? 24) || (n100 =? 3)) in
    let '(m, d) := month_day leapyear n in
    mk y m d.

(** The check that [month_day] inverts the cumulative month table on day
    [r] of a year. *)
Definition month_day_ok (leap : bool) (r : Z) : bool :=
  let '(m, d) := month_day leap r in
  (table DAYS_BEFORE_MONTH m + (if (2 <? m) && leap then 1 else 0) + d =? r + 1)
  && (1 <=? m) && (m <=? 12) && (1 <=? d).

(** The range check of the [date] constructor. *)
Definition valid (y m d : Z) : bool :=
  (1 <=? y) && (y <=? 9999) && (1 <=? m) && (m <=? 12)
  && (1 <=? d) && (d <=? days_in_month y m).

(** [date(y, m, d)]; [None] is [ValueError]. *)
Definition make (y m d : Z) : option date :=
  if valid y m d then Some (mk y m d) else None.

Definition toordinal (d : date) : Z := ymd2ord (year d) (month d) (day d).

(** [d + timedelta(days=n)]; [None] is [OverflowError]. *)
Definition add_days (d : date) (n : Z) : option date :=
  let o := toordinal d + n in
  if (0 <? o) && (o <=? MAXORDINAL) then Some (ord2ymd o) else None.

(** [d - timedelta(days=n)] *)
Definition sub_days (d : date) (n : Z) : option date := add_days d (- n).

(** [d.isoformat()] *)
Definition isoformat (d : date) : string :=
  Py.fmt_0d 4 (year d) +:+ "-" +:+ Py.fmt_0d 2 (month d) +:+ "-"
  +:+ Py.fmt_0d 2 (day d).

Definition digit_chars (cs : list ascii) : bool := forallb Py.is_digit cs.

Definition num (cs : list ascii) : Z :=
  Py.int_of_digits 0 (string_of_list_ascii cs).

(** *** [strptime] directives

    Each directive consumes a prefix of the input and returns its value
    and the remaining input. *)

Definition directive : Type := string -> option (Z * string).

(** [%Y]: [\d\d\d\d] *)
Definition dir_Y : directive := fun s =>
  match s with
  | String a (String b (String c (String d rest))) =>
      if digit_chars [a; b; c; d] then Some (num [a; b; c; d], rest) else None
  | _ => None
  end.

(** [%m]: [1[0-2]|0[1-9]|[1-9]] *)
Definition dir_m : directive := fun s =>
  match s with
  | String a rest =>
      match rest with
      | String b rest' =>
          if bool_decide (a = "1"%char) && Py.between 48 50 b
          then Some (num [a; b], rest')
          else if bool_decide (a = "0"%char) && Py.between 49 57 b
          then Some (num [a; b], rest')
          else if Py.between 49 57 a then Some (num [a], rest) else None
      | EmptyString =>
          if Py.between 49 57 a then Some (num [a], rest) else None
      end
  | EmptyString => None
  end.

(** [%d]: [3[0-1]|[1-2]\d|0[1-9]|[1-9]| [1-9]] *)
Definition dir_d : directive := fun s =>
  match s with
  | String a rest =>
      match rest with
      | String b rest' =>
          if bool_decide (a = "3"%char) && Py.between 48 49 b
          then Some (num [a; b], rest')
          else if Py.between 49 50 a && Py.is_digit b
          then Some (num [a; b], rest')
          else if bool_decide (a = "0"%char) && Py.between 49 57 b
          then Some (num [a; b], rest')
          else if Py.between 49 57 a then Some (num [a], rest)
          else if bool_decide (a = " "%char) && Py.between 49 57 b
          then Some (num [b], rest')
          else None
      | EmptyString =>
          if Py.between 49 57 a then Some (num [a], rest) else None
      end
  | EmptyString => None
  end.

(** A literal separator of the format. *)
Definition lit (c : ascii) (s : string) : option string :=
  match s with
  | String a rest => if decide (a = c) then Some rest else None
  | EmptyString => None
  end.

(** [strptime(s, f1 + sep + f2 + sep + f3)]: the three fields are read in
    turn and the whole input has to be consumed. *)
Definition strptime3 (f1 f2 f3 : directive) (sep : ascii) (s : string)
  : option (Z * Z * Z) :=
  '(a, s) ← f1 s;
  s ← lit sep s;
  '(b, s) ← f2 s;
  s ← lit sep s;
  '(c, s) ← f3 s;
  match s with
  | EmptyString => Some (a, b, c)
  | _ => None
  end.

(** *** Instants *)

(** [datetime]: a date and the microseconds elapsed since its midnight. *)
Record datetime : Type := mkdt { dt_date : date; dt_us : Z }.

Definition US_PER_DAY : Z := 86400 * 1000000.

Definition midnight (d : date) : datetime := mkdt d 0.

Definition to_us (t : datetime) : Z :=
  toordinal (dt_date t) * US_PER_DAY + dt_us t.

(** [(a - b).days]: a [timedelta] is normalised so that its seconds and
    microseconds are non-negative, hence [days] is the floor. *)
Definition delta_days (a b : datetime) : Z := (to_us a - to_us b) / US_PER_DAY.

Definition wf_datetime (t : datetime) : Prop :=
  valid (year (dt_date t)) (month (dt_date t)) (day (dt_date t)) = true
  /\ 0 <= dt_us t < US_PER_DAY.

(** *** [datetime.fromisoformat]

    From Python 3.11 on the function reads the calendar dates
    [YYYY-MM-DD] and [YYYYMMDD] and the week dates [YYYY-Www],
    [YYYY-Www-D], [YYYYWww] and [YYYYWwwD], each followed, if at all, by
    one separator character and a time.  The definitions follow
    [_datetimemodule.c]: the parser works on the UTF-8 encoding of the
    argument, a C string, so that a read past its end yields the
    terminating NUL. *)

Definition NUL : ascii := Py.chr 0.

(** The UTF-8 encoding of a character below 256. *)
Definition utf8_char (c : ascii) : list ascii :=
  if Py.code c <? 128 then [c]
  else [Py.chr (192 + Py.code c / 64); Py.chr (128 + Py.code c mod 64)].

Definition utf8 (s : string) : list ascii :=
  flat_map utf8_char (list_ascii_of_string s).

(** [dtstr[i]] *)
Definition byte_at (b : list ascii) (i : nat) : ascii := nth i b NUL.

(** [parse_digits(ptr, &var, num_digits)]: the value read on top of [acc]
    and the position after the digits. *)
Fixpoint parse_digits (b : list ascii) (p : nat) (num_digits : nat) (acc : Z)
  : option (Z * nat) :=
  match num_digits with
  | O => Some (acc, p)
  | S n =>
      if Py.is_digit (byte_at b p)
      then parse_digits b (S p) n (acc * 10 + Py.digit_val (byte_at b p))
      else None
  end.

(** The number of digits at the head of [b]. *)
Fixpoint digit_run (b : list ascii) : nat :=
  match b with
  | c :: b' => if Py.is_digit c then S (digit_run b') else O
  | [] => O
  end.

(** [_find_isoformat_datetime_separator(dtstr, len)]: where the date
    ends.  [None] stands for the result -1, after which no date is
    read. *)
Definition find_isoformat_datetime_separator (b : list ascii) : option nat :=
  let len := length b in
  if (len =? 7)%nat then Some 7%nat
  else if bool_decide (byte_at b 4 = "-"%char) then
    if bool_decide (byte_at b 5 = "W"%char) then
      if (len <? 8)%nat then None
      else if (8 <? len)%nat && bool_decide (byte_at b 8 = "-"%char) then
        if (len =? 9)%nat then None
        else if (10 <? len)%nat && Py.is_digit (byte_at b 10) then Some 8%nat
        else Some 10%nat
      else Some 8%nat
    else Some 10%nat
  else if bool_decide (byte_at b 4 = "W"%char) then
    let idx := (7 + digit_run (drop 7 b))%nat in
    if (idx <? 9)%nat then Some idx
    else if Nat.even idx then Some 7%nat else Some 8%nat
  else Some 8%nat.

(** [weekday(year, 1, 1)], Monday being 0. *)
Definition first_weekday (y : Z) : Z := (ymd2ord y 1 1 + 6) mod 7.

(** [iso_week1_monday(year)]: the ordinal of the Monday that starts ISO
    week 1 of the year. *)
Definition iso_week1_monday (y : Z) : Z :=
  let first_day := ymd2ord y 1 1 in
  let week1_monday := first_day - first_weekday y in
  if 3 <? first_weekday y then week1_monday + 7 else week1_monday.

(** [iso_to_ymd(iso_year, iso_week, iso_day, ...)]: week 53 exists in the
    years that start on a Thursday and in the leap years that start on a
    Wednesday.  The date returned is not yet range-checked: a week of the
    year 9999 can end in the year 10000, and for the year 0000, where the
    C code divides with truncation, its result and the one computed here
    are both refused by the constructor. *)
Definition iso_to_ymd (iso_year iso_week iso_day : Z) : option date :=
  if ((iso_week <=? 0) || (53 <=? iso_week))
     && negb ((iso_week =? 53)
              && ((first_weekday iso_year =? 3)
                  || ((first_weekday iso_year =? 2) && is_leap iso_year)))
  then None
  else if (iso_day <=? 0) || (8 <=? iso_day) then None
  else
    Some (ord2ymd (iso_week1_monday iso_year + (iso_week - 1) * 7 + iso_day - 1)).

(** [parse_isoformat_date(dtstr, len, ...)]: the date in the first [len]
    bytes, not yet range-checked. *)
Definition parse_isoformat_date (b : list ascii) (len : nat) : option date :=
  '(year, p) ← parse_digits b 0 4 0;
  let uses_separator := bool_decide (byte_at b p = "-"%char) in
  let p := if uses_separator then S p else p in
  if bool_decide (byte_at b p = "W"%char) then
    '(iso_week, p) ← parse_digits b (S p) 2 0;
    iso_day ←
      (if (p <? len)%nat then
         if uses_separator && negb (bool_decide (byte_at b p = "-"%char))
         then None
         else fst <$> parse_digits b (if uses_separator then S p else p) 1 0
       else Some 1);
    iso_to_ymd year iso_week iso_day
  else
    '(month, p) ← parse_digits b p 2 0;
    if uses_separator && negb (bool_decide (byte_at b p = "-"%char)) then None
    else
      '(day, _) ← parse_digits b (if uses_separator then S p else p) 2 0;
      Some (mk year month day).

(** The number of bytes of the separator character, from its first
    byte. *)
Definition separator_width (c : ascii) : nat :=
  if Py.code c <? 128 then 1%nat
  else if Z.land (Py.code c) 240 =? 224 then 3%nat
  else if Z.land (Py.code c) 240 =? 240 then 4%nat
  else 2%nat.

(** [parse_isoformat_time] on what follows the separator in an argument
    of at most ten characters: at most two characters, which leave no
    room for minutes, a fraction or an offset, so that the time read is a
    two-digit hour; nothing, one character or anything else fails. *)
Definition parse_isoformat_time (t : list ascii) : option Z :=
  match t with
  | [h1; h2] => if digit_chars [h1; h2] then Some (num [h1; h2]) else None
  | _ => None
  end.

Definition US_PER_HOUR : Z := 3600 * 1000000.

(** [datetime.fromisoformat(s)] for an argument of at most ten
    characters, which is how the program calls it; [None] is
    [ValueError].  An argument of fewer than seven characters is
    refused; the date and the hour read are range-checked by the
    constructor. *)
Definition fromisoformat (s : string) : option datetime :=
  if (String.length s <? 7)%nat then None
  else
    let b := utf8 s in
    sep ← find_isoformat_datetime_separator b;
    d ← parse_isoformat_date b sep;
    hour ←
      (if (sep <? length b)%nat
       then parse_isoformat_time (drop (sep + separator_width (byte_at b sep)) b)
       else Some 0);
    d ← make (year d) (month d) (day d);
    if hour <=? 23 then Some (mkdt d (hour * US_PER_HOUR)) else None.

End Date.

(** ** The harvester ([brassloom_harvest.py]) *)

Module Harvest.

Import Py Date.

(** [within_days(date_str, days)] at the instant [now]; [None] is the
    [TypeError] of slicing a value that is not a string. *)
Definition within_days (date_str : pyval) (days : Z) (now : datetime)
  : option bool :=
  if negb (truthy date_str) then Some true
  else
    s ← as_str date_str;
    match fromisoformat (take 10 s) with
    | None => Some true
    | Some dt => Some (delta_days now dt <=? days)
    end.

Definition TEXT_FIELDS : list string :=
  ["title"; "description"; "eligibility"; "agency"; "source"].

(** The lower-cased blob the scorer searches. *)
Definition item_text (item : gmap string pyval) : string :=
  lower (join " " ((λ k, py_str (dict_get_or item k (PStr ""))) <$> TEXT_FIELDS)).

(** The two-tier urgency boost on [days_left]. *)
Definition urgency_boost (days_left : Z) : Z :=
  if (0 <=? days_left) && (days_left <=? 30) then 10
  else if (31 <=? days_left) && (days_left <=? 60) then 5
  else 0.

(** The "time urgency boost" block of [score_item]: any exception raised
    inside the [try] is swallowed and leaves the score unchanged. *)
Definition close_date_boost (item : gmap string pyval) (now : datetime) : Z :=
  if truthy (dict_get item "close_date") then
    match as_str (dict_get item "close_date") with
    | Some s =>
        match fromisoformat (take 10 s) with
        | Some cdt => urgency_boost (delta_days cdt now)
        | None => 0
        end
    | None => 0
    end
  else 0.

(** [score_item(item, keywords)] at the instant [now]. *)
Definition score_item (item : gmap string pyval) (keywords : list string)
    (now : datetime) : Z :=
  let text := item_text item in
  let score := 0 in
  let score :=
    fold_left (λ score kw, if contains (lower kw) text then score + 10 else score)
      keywords score in
  let score := if search_word "HBCU" text then score + 20 else score in
  let score := if search_word "MSI" text then score + 15 else score in
  let score := score + close_date_boost item now in
  score.

(** The number of keywords of the list that occur in [text]. *)
Definition keyword_hits (keywords : list string) (text : string) : Z :=
  Z.of_nat (length (filter (λ kw, contains (lower kw) text = true) keywords)).

(** The scoring loop of [main]: every item receives its score. *)
Definition score_all (all_items : list (gmap string pyval))
    (keywords : list string) (now : datetime) : list (gmap string pyval) :=
  (λ itm, <["hbcu_msi_score" := PInt (score_item itm keywords now)]> itm)
    <$> all_items.

(** [i.get("url") or i.get("id")] *)
Definition dedup_key (i : gmap string pyval) : pyval :=
  py_or (dict_get i "url") (dict_get i "id").

(** The de-duplication loop of [main], with its [seen] set and its
    [deduped] list. *)
Fixpoint dedup_loop (seen : gset pyval) (deduped : list (gmap string pyval))
    (all_items : list (gmap string pyval)) : list (gmap string pyval) :=
  match all_items with
  | [] => deduped
  | i :: rest =>
      let key := dedup_key i in
      if decide (key ∈ seen) then dedup_loop seen deduped rest
      else dedup_loop ({[key]} ∪ seen) (deduped ++ [i]) rest
  end.

Definition dedup (all_items : list (gmap string pyval)) : list (gmap string pyval) :=
  dedup_loop ∅ [] all_items.

(** [x.get("hbcu_msi_score", 0)]; after the scoring loop it is an
    integer. *)
Definition sort_key (x : gmap string pyval) : Z :=
  match dict_get_or x "hbcu_msi_score" (PInt 0) with
  | PInt n => n
  | _ => 0
  end.

(** [l.sort(key=key, reverse=True)]: Python's sort is stable, and with
    [reverse=True] equal elements still keep their original order.  The
    library routine is modelled by a stable insertion sort. *)
Fixpoint insert_desc {A} (key : A -> Z) (x : A) (l : list A) : list A :=
  match l with
  | [] => [x]
  | y :: l' => if key x <? key y then y :: insert_desc key x l' else x :: y :: l'
  end.

Fixpoint sort_desc {A} (key : A -> Z) (l : list A) : list A :=
  match l with
  | [] => []
  | x :: l' => insert_desc key x (sort_desc key l')
  end.

(** What [main] writes out for the fetched items [all_items]. *)
Definition rank (all_items : list (gmap string pyval)) (keywords : list string)
    (now : datetime) : list (gmap string pyval) :=
  sort_desc sort_key (dedup (score_all all_items keywords now)).

Definition DEFAULT_KEYWORDS : list string :=
  ["HBCU"; "MSI"; "minority serving"; "Hispanic-Serving"; "HSI"; "Tribal";
   "TCU"; "Alaska Native"; "Native Hawaiian"; "Black";
   "broadening participation"; "EPSCoR"].

(** [[k.strip() for k in arg.split(",") if k.strip()]]: the keyword list
    of [main] from the [--keywords] argument. *)
Definition parse_keywords (arg : string) : list string :=
  omap (λ k, if String.eqb (strip k) "" then None else Some (strip k))
    (split_on ","%char arg).

(** [(i["title"] + " " + i["description"]).lower()]; [None] is the
    [KeyError] of a missing key or the [TypeError] of a value that is not a
    string. *)
Definition rss_text (i : gmap string pyval) : option string :=
  t ← i !! "title" ≫= as_str;
  d ← i !! "description" ≫= as_str;
  Some (lower (t +:+ " " +:+ d)).

(** [any(kw.lower() in text for kw in keywords)], where the text is
    computed anew for every keyword; with no keyword it is not computed. *)
Definition rss_matches (keywords : list string) (i : gmap string pyval)
  : option bool :=
  match keywords with
  | [] => Some false
  | _ =>
      text ← rss_text i;
      Some (existsb (λ kw, contains (lower kw) text) keywords)
  end.

(** The keyword filter that [main] applies to the items of an RSS feed. *)
Fixpoint rss_filter (keywords : list string) (items : list (gmap string pyval))
  : option (list (gmap string pyval)) :=
  match items with
  | [] => Some []
  | i :: rest =>
      b ← rss_matches keywords i;
      kept ← rss_filter keywords rest;
      Some (if (b : bool) then i :: kept else kept)
  end.

(** What an RSS block of [main] adds to [all_items]: an exception raised
    inside the [try] leaves the list as it was. *)
Definition rss_contribution (keywords : list string)
    (items : list (gmap string pyval)) : list (gmap string pyval) :=
  default [] (rss_filter keywords items).

(** [main] after the fetches: [rest] are the items of the Grants.gov
    fetch, [nih] and [nsf] the items of the two feeds (each the empty list
    when the fetch failed). *)
Definition harvest (rest nih nsf : list (gmap string pyval))
    (keywords : list string) (now : datetime) : list (gmap string pyval) :=
  rank (rest ++ rss_contribution keywords nih ++ rss_contribution keywords nsf)
    keywords now.

End Harvest.

(** ** The workbook sync ([brassloom_sync_gsu.py]) *)

Module Sync.

Import Py Date.

(** The configuration read by [load_config].  The [default_pi] entries
    are indexed directly by the program and are required; the other keys
    are read with [cfg.get] and may be absent. *)
Record config : Type := {
  default_pi_id : pyval;
  default_pi_name : pyval;
  default_pi_dept : pyval;
  default_pi_college : pyval;
  internal_deadline_offset_days : option Z;
  default_proposal_type : option pyval;
  default_status : option pyval;
  mechanism_map : option (list (string * pyval))
}.

(** [parse_date(s)]: the outer [None] is an uncaught exception, the inner
    one the value [None]. *)
Definition parse_date (s : pyval) : option (option date) :=
  if negb (truthy s) then Some None
  else
    s ← as_str s;
    let s := take 10 s in
    let try (r : option (Z * Z * Z)) (k : option date) : option date :=
      match r with
      | Some (y, m, d) =>
          match make y m d with
          | Some dt => Some dt
          | None => k
          end
      | None => k
      end in
    Some
      (try (strptime3 dir_Y dir_m dir_d "-" s)
      (try (match strptime3 dir_m dir_d dir_Y "/" s with
            | Some (m, d, y) => Some (y, m, d)
            | None => None
            end)
      (try (strptime3 dir_Y dir_m dir_d "/" s)
      None))).

(** The numeric suffixes collected by the scanning loops of [next_id] and
    [next_task_id]. *)
Definition scan_ids (prefix : string) (existing_ids : list pyval) : list Z :=
  omap (λ i, match_int prefix (py_str i)) existing_ids.

(** [max(nums)] for a non-empty list. *)
Definition list_max (x : Z) (xs : list Z) : Z := fold_left Z.max xs x.

Definition next_number (nums : list Z) : Z :=
  match nums with
  | [] => 1
  | x :: xs => list_max x xs + 1
  end.

(** [next_id(existing_ids, prefix)] *)
Definition next_id (existing_ids : list pyval) (prefix : string) : string :=
  let nums := scan_ids prefix existing_ids in
  let nxt := next_number nums in
  prefix +:+ fmt_0d 4 nxt.

(** [next_task_id(existing_ids)] returns a closure over the list [nums];
    the closure is represented by that list.  The value [nxt] that the
    function computes is not used by the closure. *)
Definition next_task_id (existing_ids : list pyval) : list Z :=
  let nums := scan_ids "TSK-" existing_ids in
  let nxt := next_number nums in
  nums.

(** One call of the closure: the identifier and the updated [nums]. *)
Definition next_task (nums : list Z) : string * list Z :=
  match last nums with
  | Some l => ("TSK-" +:+ fmt_0d 4 (l + 1), nums ++ [l + 1])
  | None => ("TSK-" +:+ fmt_0d 4 1, nums ++ [1])
  end.

Definition FEDERAL_KEYS : list string :=
  ["national science foundation"; "nih"; "health"; "grants.gov"; "nasa";
   "nsf"; "department of"; "dod"; "doe"; "usda"; "epa"; "nsf funding";
   "nih guide"].

(** [sponsor_type_from_agency(agency)] *)
Definition sponsor_type_from_agency (agency : string) : string :=
  if String.eqb agency "" then ""
  else
    let agency_low := lower agency in
    if existsb (λ k, contains k agency_low) FEDERAL_KEYS then "Federal"
    else if contains "board of regents" agency_low || contains "state" agency_low
    then "State"
    else "Nonprofit".

(** [mechanism_from_source(item, cfg)] *)
Definition mechanism_from_source (item : gmap string pyval) (cfg : config)
  : option pyval :=
  src ← strip <$>
    as_str (py_or (py_or (dict_get item "source") (dict_get item "agency")) (PStr ""));
  match
    find (λ kv : string * pyval, contains (lower kv.1) (lower src))
      (default [] (mechanism_map cfg))
  with
  | Some kv => Some kv.2
  | None =>
      url ← as_str (dict_get_or item "url" (PStr ""));
      if contains "grants.gov" (lower url) then Some (PStr "Grants.gov")
      else Some (PStr "Other")
  end.

(** A task tuple: name, due date, owner, status, notes. *)
Definition task_row : Type := string * string * string * string * string.

Definition opt_iso (d : option date) : string :=
  match d with
  | Some d => isoformat d
  | None => ""
  end.

(** [prepare_rows(item, cfg, next_pid)] on the day [today]. *)
Definition prepare_rows (item : gmap string pyval) (cfg : config)
    (next_pid : string) (today : date) : option (list pyval * list task_row) :=
  title ← strip <$> as_str (dict_get_or item "title" (PStr ""));
  sponsor ← strip <$>
    as_str (py_or (py_or (dict_get item "agency") (dict_get item "source")) (PStr ""));
  let sponsor_type := sponsor_type_from_agency sponsor in
  close_date ← parse_date (dict_get_or item "close_date" (PStr ""));
  posted ← parse_date (dict_get_or item "posted_date" (PStr ""));
  let due := match close_date with Some d => Some d | None => posted end in
  internal ←
    match due with
    | Some d => Some <$> sub_days d (default 7 (internal_deadline_offset_days cfg))
    | None => Some None
    end;
  mechanism ← mechanism_from_source item cfg;
  let props_row :=
    [ PStr next_pid; PStr title;
      default_pi_id cfg; default_pi_name cfg; default_pi_dept cfg;
      default_pi_college cfg;
      PStr ""; PStr sponsor; PStr sponsor_type;
      py_or (py_or (dict_get item "id") (dict_get item "assistance_listing")) (PStr "");
      PStr (opt_iso internal); PStr (opt_iso due);
      mechanism;
      default (PStr "New") (default_proposal_type cfg);
      default (PStr "Department Review") (default_status cfg);
      PStr ""; PStr ""; PStr "";
      PStr ""; PStr ""; PStr "";
      PStr "No"; PStr ""; PStr "";
      PStr "No"; PStr "No"; PStr "No"; PStr "Yes"; PStr "No"; PStr "No";
      PInt 0;
      PStr ("Imported by BrassLoom on " +:+ isoformat today) ] in
  due_for_tasks ←
    match due with
    | Some d => Some d
    | None => add_days today 30
    end;
  let t (n : Z) : option string := isoformat <$> sub_days due_for_tasks n in
  t10 ← t 10; t9 ← t 9; t8 ← t 8; t8' ← t 8; t7 ← t 7; t7' ← t 7; t7'' ← t 7;
  let tasks : list task_row :=
    [ ("Complete GSU Internal Routing Form", t10, "PI", "Pending",
       "Attach signed PDF");
      ("COI Disclosures for all key personnel", t9, "PI/OSP", "Pending", "");
      ("Subrecipient Commitment Form(s)", t8, "OSP", "Pending",
       "Collect UEI and F&A rate docs");
      ("Export Control & Data Security review", t8', "Compliance", "Pending",
       "If foreign collaborators or controlled data");
      ("Final Budget & Justification", t7, "OSP Pre-Award", "Pending",
       "Check salary cap and F&A base");
      ("Create application in " +:+ py_str mechanism, t7', "OSP Pre-Award",
       "Pending", "Confirm FOA & forms");
      ("Dean/Provost cost-share letter (if required)", t7'', "Dean/Provost",
       "Pending", "Upload letter") ] in
  Some (props_row, tasks).

(** The due date of a task tuple. *)
Definition task_due (t : task_row) : string := t.1.1.1.2.

(** The proposal identifier with number [n]. *)
Definition pid_of (n : Z) : string := "GSU-P-" +:+ fmt_0d 4 n.

(** The state of a run of [main]: the two sheets (data rows only), the
    bookkeeping variables, and the list captured by the task-id closure. *)
Record state : Type := mkState {
  wsP : list (list pyval);
  wsT : list (list pyval);
  existing_titles : gset string;
  existing_ids : list pyval;
  next_pid : string;
  task_nums : list Z;
  added : Z
}.

(** The inner loop of [main] appending the task rows of one proposal. *)
Fixpoint append_tasks (pid : pyval) (tasks : list task_row)
    (wsT : list (list pyval)) (nums : list Z) : list (list pyval) * list Z :=
  match tasks with
  | [] => (wsT, nums)
  | (name, due, owner, status, notes) :: tasks' =>
      let '(tid, nums) := next_task nums in
      append_tasks pid tasks'
        (wsT ++ [[PStr tid; pid; PStr name; PStr due; PStr owner; PStr status;
                  PStr notes]])
        nums
  end.

(** The body of the import loop of [main] for one chosen item. *)
Definition import_item (cfg : config) (today : date) (st : state)
    (item : gmap string pyval) : option state :=
  title ← (λ s, lower (strip s)) <$> as_str (py_or (dict_get item "title") (PStr ""));
  if String.eqb title "" || bool_decide (title ∈ existing_titles st) then Some st
  else
    '(prop_row, tasks) ← prepare_rows item cfg (next_pid st) today;
    pid ← head prop_row;
    let '(wsT', nums') := append_tasks pid tasks (wsT st) (task_nums st) in
    let nxt :=
      match match_int "GSU-P-" (next_pid st) with
      | Some n => n + 1
      | None => 1
      end in
    Some {|
      wsP := wsP st ++ [prop_row];
      wsT := wsT';
      existing_titles := {[title]} ∪ existing_titles st;
      existing_ids := existing_ids st ++ [PStr (next_pid st)];
      next_pid := "GSU-P-" +:+ fmt_0d 4 nxt;
      task_nums := nums';
      added := added st + 1
    |}.

Fixpoint import_all (cfg : config) (today : date) (st : state)
    (chosen : list (gmap string pyval)) : option state :=
  match chosen with
  | [] => Some st
  | item :: rest => st' ← import_item cfg today st item; import_all cfg today st' rest
  end.

(** [any(row)] *)
Definition any_truthy (row : list pyval) : bool := existsb truthy row.

(** The scan of the Proposals sheet at the start of [main]. *)
Fixpoint scan_proposals (rows : list (list pyval)) (ids : list pyval)
    (titles : gset string) : option (list pyval * gset string) :=
  match rows with
  | [] => Some (ids, titles)
  | row :: rows' =>
      if negb (any_truthy row) then scan_proposals rows' ids titles
      else
        id ← row !! 0%nat;
        t ← row !! 1%nat;
        scan_proposals rows' (ids ++ [PStr (py_str id)])
          (if truthy t then {[lower (strip (py_str t))]} ∪ titles else titles)
  end.

(** [[r[0] for r in rows if r and r[0]]] *)
Definition scan_task_ids (rows : list (list pyval)) : list pyval :=
  omap (λ r, match r with
             | c :: _ => if truthy c then Some c else None
             | [] => None
             end) rows.

(** The state with which the import loop starts. *)
Definition initial_state (proposals tasks : list (list pyval)) : option state :=
  '(ids, titles) ← scan_proposals proposals [] ∅;
  Some {|
    wsP := proposals;
    wsT := tasks;
    existing_titles := titles;
    existing_ids := ids;
    next_pid := next_id ids "GSU-P-";
    task_nums := next_task_id (scan_task_ids tasks);
    added := 0
  |}.

(** [main] from the loaded workbook to the workbook that is saved, for
    the items [chosen] by the [--all] or [--filter] selection. *)
Definition sync (cfg : config) (today : date)
    (proposals tasks : list (list pyval)) (chosen : list (gmap string pyval))
  : option state :=
  st ← initial_state proposals tasks;
  import_all cfg today st chosen.

(** [[s.strip().lower() for s in arg.split(",") if s.strip()]]: the
    filter list of [main] from the [--filter] argument. *)
Definition parse_filter (arg : string) : list string :=
  omap (λ k, if String.eqb (strip k) "" then None else Some (lower (strip k)))
    (split_on ","%char arg).

(** [(item.get("title") or "").strip().lower()]: the key under which
    [main] looks a chosen item up in [existing_titles]. *)
Definition item_title_key (item : gmap string pyval) : option string :=
  (λ s, lower (strip s)) <$> as_str (py_or (dict_get item "title") (PStr "")).

(** [str(row[1]).strip().lower()]: the key under which the scan of the
    Proposals sheet records a row (a missing cell reads as [None]). *)
Definition title_key (row : list pyval) : string :=
  lower (strip (py_str (default PNone (row !! 1%nat)))).

(** The text that [mechanism_from_source] searches. *)
Definition mechanism_text (item : gmap string pyval) : option string :=
  strip <$>
    as_str (py_or (py_or (dict_get item "source") (dict_get item "agency")) (PStr "")).

(** [f"TSK-{n:04d}"]: the task id that [next_task] formats. *)
Definition tsk (n : Z) : string := "TSK-" +:+ Py.fmt_0d 4 n.

End Sync.

(** ** Concrete inputs *)

Module Examples.

Import Date Sync.

Definition cfg0 : config := {|
  default_pi_id := PStr "PI-001";
  default_pi_name := PStr "A. Researcher";
  default_pi_dept := PStr "Biology";
  default_pi_college := PStr "Arts and Sciences";
  internal_deadline_offset_days := None;
  default_proposal_type := None;
  default_status := None;
  mechanism_map := Some [("NIH", PStr "ASSIST")]
|}.

Definition item0 : gmap string pyval :=
  {[ "title" := PStr "Test HBCU Grant"; "source" := PStr "NIH Guide";
     "close_date" := PStr "2025-06-30" ]}.

Definition item1 : gmap string pyval :=
  {[ "title" := PStr "Tribal College Award"; "agency" := PStr "Ford Foundation";
     "url" := PStr "https://example.org/award" ]}.

Definition proposals0 : list (list pyval) :=
  [ [PStr "GSU-P-0001"; PStr "Old proposal"];
    [PStr "GSU-P-0003"; PStr "Older proposal"] ].

Definition today0 : date := mk 2025 1 15.

(** Noon of the day [d]. *)
Definition noon (d : date) : datetime := mkdt d (12 * 3600 * 1000000).

(** 2025-06-15, 08:00. *)
Definition now0 : datetime := mkdt (mk 2025 6 15) (8 * 3600 * 1000000).

End Examples.
(** ** Strings *)

Module PyFacts.

Import Py.

Lemma sapp_nil_l (a : string) : "" +:+ a = a.
Proof. reflexivity. Qed.

Lemma sapp_cons (x : ascii) (a b : string) : String x a +:+ b = String x (a +:+ b).
Proof. reflexivity. Qed.

Ltac app_simpl :=
  simpl; rewrite ?sapp_cons, ?sapp_nil_l; simpl; rewrite ?sapp_cons, ?sapp_nil_l.

Lemma sapp_assoc (a b c : string) : (a +:+ b) +:+ c = a +:+ b +:+ c.
Proof. induction a as [|x a IH]; app_simpl; [done | by f_equal]. Qed.

Lemma sapp_nil_r (a : string) : a +:+ "" = a.
Proof. induction a as [|x a IH]; app_simpl; [done | by f_equal]. Qed.

Lemma slength_app (a b : string) :
  String.length (a +:+ b) = (String.length a + String.length b)%nat.
Proof. induction a as [|x a IH]; app_simpl; [done | by f_equal]. Qed.

Lemma lower_app (a b : string) : lower (a +:+ b) = lower a +:+ lower b.
Proof. induction a as [|x a IH]; app_simpl; [done | by f_equal]. Qed.

(** *** Substrings *)

Lemma startswith_spec (p s : string) :
  startswith p s = true <-> exists post, s = p +:+ post.
Proof.
  revert s. induction p as [|a p IH]; intros s; simpl.
  - split; [intros _; by exists s | done].
  - setoid_rewrite sapp_cons. destruct s as [|b s].
    + split; [done | intros [post Hp]; discriminate].
    + destruct (decide (a = b)) as [->|Hne].
      * rewrite IH. split; intros [post Hp]; exists post; congruence.
      * split; [done | intros [post Hp]; congruence].
Qed.

Lemma contains_spec (needle hay : string) :
  contains needle hay = true <-> exists pre post, hay = pre +:+ needle +:+ post.
Proof.
  induction hay as [|c hay IH]; simpl.
  - rewrite orb_false_r, startswith_spec. split.
    + intros [post Hp]. by exists "", post.
    + intros [pre [post Hp]]. destruct pre; [by exists post | discriminate].
  - rewrite orb_true_iff, startswith_spec, IH. split.
    + intros [[post Hp] | [pre [post Hp]]].
      * by exists "", post.
      * exists (String c pre), post. rewrite sapp_cons. by rewrite Hp.
    + intros [pre [post Hp]]. destruct pre as [|x pre]; rewrite ?sapp_cons, ?sapp_nil_l in Hp.
      * left. by exists post.
      * right. exists pre, post. congruence.
Qed.

Lemma contains_app_l (needle a b : string) :
  contains needle a = true -> contains needle (a +:+ b) = true.
Proof.
  rewrite !contains_spec. intros [pre [post ->]].
  exists pre, (post +:+ b). by rewrite !sapp_assoc.
Qed.

(** *** Decimal numerals *)

Lemma code_chr (z : Z) : 0 <= z < 256 -> code (chr z) = z.
Proof.
  intros Hz. unfold code, chr. rewrite N_ascii_embedding; lia.
Qed.

Lemma digit_char_val (d : Z) : 0 <= d < 10 -> digit_val (digit_char d) = d.
Proof.
  intros Hd. unfold digit_val, digit_char. rewrite code_chr; lia.
Qed.

Lemma digit_char_is_digit (d : Z) : 0 <= d < 10 -> is_digit (digit_char d) = true.
Proof.
  intros Hd. unfold is_digit, between, digit_char. rewrite code_chr by lia.
  apply andb_true_iff. split; apply Z.leb_le; lia.
Qed.

Lemma all_digits_app (a b : string) :
  all_digits (a +:+ b) = all_digits a && all_digits b.
Proof. induction a as [|x a IH]; app_simpl; [done | by rewrite IH, andb_assoc]. Qed.

Lemma int_of_digits_app (a b : string) (acc : Z) :
  int_of_digits acc (a +:+ b) = int_of_digits (int_of_digits acc a) b.
Proof. revert acc. induction a as [|x a IH]; intros acc; app_simpl; [done | apply IH]. Qed.

Lemma digits_go_spec (fuel : nat) (n : Z) (acc : string) :
  0 <= n < 2 ^ Z.of_nat fuel -> (0 < fuel)%nat ->
  exists ds, digits_go fuel n acc = ds +:+ acc
             /\ ds <> "" /\ all_digits ds = true
             /\ forall a, int_of_digits a ds = a * 10 ^ Z.of_nat (String.length ds) + n.
Proof.
  revert n acc. induction fuel as [|fuel IH]; intros n acc Hn Hf; [lia |].
  clear Hf.
  simpl. destruct (n <? 10) eqn:Hlt.
  - apply Z.ltb_lt in Hlt. rewrite Z.mod_small by lia.
    exists (String (digit_char n) ""). simpl. repeat split; [done | |].
    + rewrite digit_char_is_digit by lia. done.
    + intros a. rewrite digit_char_val by lia. lia.
  - apply Z.ltb_ge in Hlt.
    rewrite Nat2Z.inj_succ, Z.pow_succ_r in Hn by lia.
    destruct fuel as [|fuel]; [simpl in Hn; lia |].
    destruct (IH (n / 10) (String (digit_char (n mod 10)) acc))
      as (ds & Hds & Hne & Hall & Hval); [| lia |].
    { split; [apply Z.div_pos; lia |].
      apply Z.div_lt_upper_bound; lia. }
    exists (ds +:+ String (digit_char (n mod 10)) "").
    assert (0 <= n mod 10 < 10) as Hm by (apply Z.mod_pos_bound; lia).
    repeat split.
    + rewrite Hds, sapp_assoc. done.
    + destruct ds; [done | discriminate].
    + rewrite all_digits_app, Hall. simpl. by rewrite digit_char_is_digit.
    + intros a. rewrite int_of_digits_app, Hval. simpl.
      rewrite digit_char_val by lia. rewrite slength_app. simpl.
      rewrite Nat2Z.inj_add, Z.pow_add_r by lia. simpl (Z.of_nat 1).
      rewrite Z.pow_1_r. pose proof (Z.div_mod n 10). lia.
Qed.

Lemma digits_spec (n : Z) :
  0 <= n ->
  digits n <> "" /\ all_digits (digits n) = true
  /\ forall a, int_of_digits a (digits n)
               = a * 10 ^ Z.of_nat (String.length (digits n)) + n.
Proof.
  intros Hn. unfold digits.
  destruct (digits_go_spec (S (Z.to_nat (Z.log2 n))) n "")
    as (ds & Hds & Hne & Hall & Hval); [| lia |].
  { split; [done |]. rewrite Nat2Z.inj_succ, Z2Nat.id by apply Z.log2_nonneg.
    destruct (decide (n = 0)) as [->|]; [by vm_compute |].
    apply Z.log2_spec. lia. }
  rewrite Hds, sapp_nil_r. done.
Qed.

Lemma zeros_spec (k : nat) :
  all_digits (zeros k) = true /\ forall a, int_of_digits a (zeros k) = a * 10 ^ Z.of_nat k.
Proof.
  induction k as [|k [IH1 IH2]].
  - split; [done | intros; simpl; lia].
  - split; [done |]. intros a. cbn [zeros int_of_digits]. rewrite IH2.
    rewrite Nat2Z.inj_succ, Z.pow_succ_r by lia.
    change (digit_val "0") with 0. lia.
Qed.

Lemma fmt_0d_spec (w : nat) (n : Z) :
  0 <= n ->
  fmt_0d w n <> "" /\ all_digits (fmt_0d w n) = true
  /\ int_of_digits 0 (fmt_0d w n) = n.
Proof.
  intros Hn. unfold fmt_0d.
  destruct (Z.ltb_spec n 0) as [?|_]; [lia |].
  destruct (digits_spec n Hn) as (Hne & Hall & Hval).
  destruct (zeros_spec (w - String.length (digits n))) as [Hz1 Hz2].
  repeat split.
  - destruct (zeros _); [done | discriminate].
  - by rewrite all_digits_app, Hz1, Hall.
  - rewrite int_of_digits_app, Hz2, Hval. lia.
Qed.

Lemma take_digits_all (ds : string) : all_digits ds = true -> take_digits ds = ds.
Proof.
  induction ds as [|c ds IH]; simpl; [done |].
  intros [Hc Hds]%andb_true_iff. rewrite Hc. by rewrite IH.
Qed.

Lemma strip_prefix_app (p s : string) : strip_prefix p (p +:+ s) = Some s.
Proof.
  induction p as [|a p IH]; simpl; [done |]. by rewrite decide_True.
Qed.

(** Reading back an identifier that was written with [fmt_0d]. *)
Lemma match_int_fmt (prefix : string) (w : nat) (n : Z) :
  0 <= n -> match_int prefix (prefix +:+ fmt_0d w n) = Some n.
Proof.
  intros Hn. unfold match_int. rewrite strip_prefix_app. simpl.
  destruct (fmt_0d_spec w n Hn) as (Hne & Hall & Hval).
  rewrite take_digits_all by done.
  destruct (fmt_0d w n) eqn:E; [done |]. by rewrite <- Hval.
Qed.

End PyFacts.

(** ** Further facts on strings *)

Module StringFacts.

Import Py PyFacts.

Lemma lower_char_idem (c : ascii) : lower_char (lower_char c) = lower_char c.
Proof.
  destruct c as [b0 b1 b2 b3 b4 b5 b6 b7].
  destruct b0, b1, b2, b3, b4, b5, b6, b7; reflexivity.
Qed.

Lemma lower_idem (s : string) : lower (lower s) = lower s.
Proof.
  induction s as [|c s IH]; simpl; [done |]. by rewrite lower_char_idem, IH.
Qed.

Lemma lower_empty (s : string) : lower s = "" <-> s = "".
Proof. by destruct s. Qed.

Lemma lstrip_head (s : string) :
  match lstrip s with
  | EmptyString => True
  | String c _ => is_space c = false
  end.
Proof.
  induction s as [|c s IH]; simpl; [done |].
  destruct (is_space c) eqn:E; [done | simpl; done].
Qed.

Lemma rstrip_idem (s : string) : rstrip (rstrip s) = rstrip s.
Proof.
  induction s as [|c s IH]; simpl; [done |].
  destruct (rstrip s) as [|d r] eqn:E.
  - destruct (is_space c) eqn:Ec; simpl; [done |]. by rewrite Ec.
  - cbn [rstrip]. cbn [rstrip] in IH. by rewrite IH.
Qed.

Lemma lstrip_rstrip (s : string) :
  match s with
  | EmptyString => True
  | String c _ => is_space c = false
  end ->
  lstrip (rstrip s) = rstrip s.
Proof.
  destruct s as [|c s]; [done |]. intros Hc. simpl.
  destruct (rstrip s); rewrite ?Hc; simpl; by rewrite Hc.
Qed.

Lemma strip_idem (s : string) : strip (strip s) = strip s.
Proof.
  unfold strip. rewrite (lstrip_rstrip (lstrip s)) by apply lstrip_head.
  apply rstrip_idem.
Qed.

(** *** Splitting and joining *)

Lemma split_on_plain (sep : ascii) (w : string) :
  sep ∉ chars w -> split_on sep w = [w].
Proof.
  induction w as [|c w IH]; simpl; [done |].
  intros Hn. apply not_elem_of_cons in Hn as [Hc Hw].
  rewrite decide_False by done. by rewrite IH.
Qed.

Lemma split_on_app (sep : ascii) (w rest : string) :
  sep ∉ chars w ->
  split_on sep (w +:+ String sep rest) = w :: split_on sep rest.
Proof.
  induction w as [|c w IH]; intros Hn.
  - rewrite sapp_nil_l. simpl. by rewrite decide_True.
  - apply not_elem_of_cons in Hn as [Hc Hw].
    rewrite sapp_cons. cbn [split_on]. rewrite decide_False by done.
    by rewrite IH.
Qed.

Lemma split_on_join (sep : ascii) (ws : list string) :
  ws <> [] -> Forall (λ w, sep ∉ chars w) ws ->
  split_on sep (join (String sep "") ws) = ws.
Proof.
  induction ws as [|w ws IH]; [done |]. intros _ Hall.
  apply Forall_cons in Hall as [Hw Hws].
  destruct ws as [|w' ws]; [by apply split_on_plain |].
  cbn [join]. cbn [join] in IH. rewrite sapp_cons, sapp_nil_l.
  rewrite split_on_app by done. by rewrite IH.
Qed.

Lemma split_on_no_sep (sep : ascii) (s w : string) :
  w ∈ split_on sep s -> sep ∉ chars w.
Proof.
  revert w. induction s as [|c s IH]; intros w; simpl.
  - intros ->%list_elem_of_singleton. apply not_elem_of_nil.
  - destruct (decide (c = sep)) as [->|Hc].
    + intros [->|Hw]%elem_of_cons; [apply not_elem_of_nil | by apply IH].
    + destruct (split_on sep s) as [|w0 ws] eqn:E.
      * intros ->%list_elem_of_singleton. simpl.
        apply not_elem_of_cons. split; [done | apply not_elem_of_nil].
      * intros [->|Hw]%elem_of_cons.
        -- simpl. apply not_elem_of_cons. split; [done |].
           apply IH, list_elem_of_here.
        -- by apply IH, list_elem_of_further.
Qed.

(** The characters of a stripped string are characters of the string. *)
Lemma lstrip_chars (s : string) (c : ascii) : c ∈ chars (lstrip s) -> c ∈ chars s.
Proof.
  induction s as [|d s IH]; simpl; [done |].
  destruct (is_space d); [| done]. intros H. by apply list_elem_of_further, IH.
Qed.

Lemma rstrip_chars (s : string) (c : ascii) : c ∈ chars (rstrip s) -> c ∈ chars s.
Proof.
  revert c. induction s as [|d s IH]; intros c; simpl; [done |].
  destruct (rstrip s) as [|e r] eqn:E.
  - destruct (is_space d); simpl.
    + by intros ?%elem_of_nil.
    + intros ->%list_elem_of_singleton. apply list_elem_of_here.
  - simpl. intros [->|H]%elem_of_cons; [apply list_elem_of_here |].
    apply list_elem_of_further, IH. exact H.
Qed.

Lemma strip_chars (s : string) (c : ascii) : c ∈ chars (strip s) -> c ∈ chars s.
Proof. unfold strip. intros H. by apply lstrip_chars, rstrip_chars. Qed.

End StringFacts.

(** ** Calendar arithmetic *)

Module DateFacts.

Import Date.

Lemma month_day_all_ok :
  forallb (λ r, month_day_ok true r && month_day_ok false r) (seqZ 0 365) = true.
Proof. by vm_compute. Qed.

Lemma month_day_spec (leap : bool) (r : Z) :
  0 <= r < 365 ->
  let '(m, d) := month_day leap r in
  table DAYS_BEFORE_MONTH m + (if (2 <? m) && leap then 1 else 0) + d = r + 1
  /\ 1 <= m <= 12 /\ 1 <= d.
Proof.
  intros Hr. pose proof month_day_all_ok as Hall.
  rewrite forallb_forall in Hall. specialize (Hall r).
  assert (month_day_ok leap r = true) as Hok.
  { assert (In r (seqZ 0 365)) as Hin by (apply list_elem_of_In, elem_of_seqZ; lia).
    apply Hall in Hin. apply andb_true_iff in Hin as [? ?]. by destruct leap. }
  unfold month_day_ok in Hok. destruct (month_day leap r) as [m d].
  rewrite !andb_true_iff in Hok. destruct Hok as [[[H1 H2] H3] H4].
  apply Z.eqb_eq in H1. apply Z.leb_le in H2, H3, H4. lia.
Qed.

Lemma days_before_year_parts (n400 n100 n4 n1 : Z) :
  0 <= n400 -> 0 <= n100 <= 3 -> 0 <= n4 <= 24 -> 0 <= n1 <= 3 ->
  days_before_year (n400 * 400 + 1 + n100 * 100 + n4 * 4 + n1)
  = n400 * 146097 + n100 * 36524 + n4 * 1461 + n1 * 365.
Proof.
  intros H400 H100 H4 H1. unfold days_before_year.
  Z.div_mod_to_equations. lia.
Qed.

Lemma is_leap_parts (n400 n100 n4 n1 : Z) :
  0 <= n400 -> 0 <= n100 <= 3 -> 0 <= n4 <= 24 -> 0 <= n1 <= 3 ->
  is_leap (n400 * 400 + 1 + n100 * 100 + n4 * 4 + n1)
  = (n1 =? 3) && (negb (n4 =? 24) || (n100 =? 3)).
Proof.
  intros H400 H100 H4 H1. unfold is_leap.
  destruct (Z.eqb_spec n1 3), (Z.eqb_spec n4 24), (Z.eqb_spec n100 3);
    destruct (Z.eqb_spec ((n400 * 400 + 1 + n100 * 100 + n4 * 4 + n1) mod 4) 0);
    destruct (Z.eqb_spec ((n400 * 400 + 1 + n100 * 100 + n4 * 4 + n1) mod 100) 0);
    destruct (Z.eqb_spec ((n400 * 400 + 1 + n100 * 100 + n4 * 4 + n1) mod 400) 0);
    simpl; try reflexivity; exfalso; Z.div_mod_to_equations; lia.
Qed.

(** The ordinal of the date computed from an ordinal is that ordinal. *)
Lemma toordinal_ord2ymd (o : Z) : 0 < o -> toordinal (ord2ymd o) = o.
Proof.
  intros Ho. unfold ord2ymd, DI400Y, DI100Y, DI4Y.
  set (n := o - 1).
  set (n400 := n / 146097). set (r1 := n mod 146097).
  set (n100 := r1 / 36524). set (r2 := r1 mod 36524).
  set (n4 := r2 / 1461). set (r3 := r2 mod 1461).
  set (n1 := r3 / 365). set (r4 := r3 mod 365).
  assert (n = n400 * 146097 + n100 * 36524 + n4 * 1461 + n1 * 365 + r4
          /\ 0 <= n400 /\ 0 <= n100 <= 4 /\ 0 <= n4 <= 24 /\ 0 <= n1 <= 4
          /\ 0 <= r4 < 365
          /\ (n100 = 4 -> n4 = 0 /\ n1 = 0 /\ r4 = 0)
          /\ (n1 = 4 -> r4 = 0 /\ n4 <= 23)) as Hparts.
  { unfold n400, n100, n4, n1, r4, r3, r2, r1. assert (0 <= n) by (unfold n; lia).
    clearbody n. Z.div_mod_to_equations. lia. }
  destruct Hparts as (Hn & H400 & H100 & H4 & H1 & Hr4 & Hc & Hy).
  clearbody n400 n100 n4 n1 r4. clear r1 r2 r3.
  assert (o = n + 1) as Ho' by (unfold n; lia).
  clearbody n. subst o. subst n.
  destruct (Z.eqb_spec n1 4) as [E1|E1]; simpl orb.
  - destruct (Hy E1) as [-> Hn4]. subst n1. unfold toordinal, ymd2ord. simpl.
    assert (n100 <> 4) by (intros E; destruct (Hc E); lia).
    replace (n400 * 400 + 1 + n100 * 100 + n4 * 4 + 4 - 1)
      with (n400 * 400 + 1 + n100 * 100 + n4 * 4 + 3) by lia.
    unfold days_before_month.
    rewrite is_leap_parts, days_before_year_parts by lia.
    destruct (Z.eqb_spec n4 24); [lia |]. simpl.
    change (table DAYS_BEFORE_MONTH 12) with 334. lia.
  - destruct (Z.eqb_spec n100 4) as [E100|E100].
    + destruct (Hc E100) as (-> & -> & ->). subst n100.
      unfold toordinal, ymd2ord. simpl.
      replace (n400 * 400 + 1 + 4 * 100 + 0 * 4 + 0 - 1)
        with (n400 * 400 + 1 + 3 * 100 + 24 * 4 + 3) by lia.
      unfold days_before_month.
      rewrite is_leap_parts, days_before_year_parts by lia. simpl.
      change (table DAYS_BEFORE_MONTH 12) with 334. lia.
    + pose proof (month_day_spec ((n1 =? 3) && (negb (n4 =? 24) || (n100 =? 3))) r4 Hr4)
        as Hmd.
      destruct (month_day _ r4) as [m d]. destruct Hmd as (Hsum & Hm & Hd).
      unfold toordinal, ymd2ord, days_before_month. simpl.
      rewrite is_leap_parts, days_before_year_parts by lia. lia.
Qed.

Lemma add_days_ordinal (d d' : date) (n : Z) :
  add_days d n = Some d' -> toordinal d' = toordinal d + n.
Proof.
  unfold add_days.
  destruct (Z.ltb_spec 0 (toordinal d + n)); simpl; [| done].
  destruct (_ <=? _); [| done]. intros [= <-]. by apply toordinal_ord2ymd.
Qed.

Lemma sub_days_ordinal (d d' : date) (n : Z) :
  sub_days d n = Some d' -> toordinal d' = toordinal d - n.
Proof. unfold sub_days. intros H%add_days_ordinal. lia. Qed.

End DateFacts.

(** ** The ISO 8601 parser *)

Module IsoFacts.

Import Py Date PyFacts DateFacts.

Lemma is_digit_code (c : ascii) : is_digit c = true -> 48 <= code c <= 57.
Proof. unfold is_digit, between. rewrite andb_true_iff, !Z.leb_le. tauto. Qed.

Lemma utf8_char_digit (c : ascii) : is_digit c = true -> utf8_char c = [c].
Proof.
  intros H%is_digit_code. unfold utf8_char.
  destruct (Z.ltb_spec (code c) 128); [done | lia].
Qed.

Lemma digit_val_range (c : ascii) : is_digit c = true -> 0 <= digit_val c <= 9.
Proof. intros H%is_digit_code. unfold digit_val. lia. Qed.

Lemma digit_chars_cons (c : ascii) (cs : list ascii) :
  digit_chars (c :: cs) = true <-> is_digit c = true /\ digit_chars cs = true.
Proof. unfold digit_chars. simpl. apply andb_true_iff. Qed.

Lemma parse_isoformat_time_range (t : list ascii) (h : Z) :
  parse_isoformat_time t = Some h -> 0 <= h.
Proof.
  unfold parse_isoformat_time.
  destruct t as [|h1 [|h2 [|? ?]]]; try done.
  destruct (digit_chars [h1; h2]) eqn:E; [| done]. intros [= <-].
  apply digit_chars_cons in E as [H1 [H2 _]%digit_chars_cons].
  apply digit_val_range in H1, H2. unfold num. simpl. lia.
Qed.

(** An argument of fewer than seven characters is refused. *)
Lemma fromisoformat_short (s : string) :
  (String.length s < 7)%nat -> fromisoformat s = None.
Proof.
  intros H. unfold fromisoformat.
  destruct (Nat.ltb_spec (String.length s) 7); [done | lia].
Qed.

(** What is read is a date of the calendar and an hour of the day. *)
Lemma fromisoformat_wf (s : string) (t : datetime) :
  fromisoformat s = Some t ->
  wf_datetime t /\ exists h, 0 <= h <= 23 /\ dt_us t = h * US_PER_HOUR.
Proof.
  unfold fromisoformat. destruct (String.length s <? 7)%nat; [done |].
  cbn zeta.
  destruct (find_isoformat_datetime_separator (utf8 s)) as [sep|]; [simpl | done].
  destruct (parse_isoformat_date (utf8 s) sep) as [d|]; [simpl | done].
  destruct (if (sep <? length (utf8 s))%nat then _ else _) as [h|] eqn:Eh;
    [simpl | done].
  assert (0 <= h) as Hh.
  { destruct (sep <? length (utf8 s))%nat.
    - by apply parse_isoformat_time_range in Eh.
    - injection Eh as <-. lia. }
  unfold make. destruct (valid (year d) (month d) (day d)) eqn:Ev; [simpl | done].
  destruct (Z.leb_spec h 23); [| done]. intros [= <-].
  split; [| exists h; split; [lia | done]].
  split; [done |]. simpl. unfold US_PER_HOUR, US_PER_DAY. lia.
Qed.

Lemma not_digit_eq (c k : ascii) :
  is_digit c = true -> is_digit k = false -> bool_decide (c = k) = false.
Proof. intros Hc Hk. apply bool_decide_eq_false_2. intros ->. congruence. Qed.

(** One step of the parser on a buffer [b] whose bytes are known by
    equations [byte_at b i = c]. *)
Ltac parse_step :=
  first
    [ match goal with
      | HB : byte_at ?b ?i = _ |- context [byte_at ?b ?i] => rewrite HB
      | HL : length ?b = _ |- context [length ?b] => rewrite HL
      | H : is_digit ?c = true |- context [is_digit ?c] => rewrite H
      | H : is_digit ?c = true |- context [bool_decide (?c = ?k)] =>
          rewrite (not_digit_eq c k H) by reflexivity
      | |- context [bool_decide (?c = ?c)] =>
          rewrite (bool_decide_eq_true_2 (c = c)) by reflexivity
      end
    | progress cbn [parse_digits mbind option_bind fmap option_fmap option_map
                    andb negb Nat.ltb Nat.leb Nat.eqb fst] ].

Ltac split_digits H :=
  repeat match type of H with
         | digit_chars (_ :: _) = true =>
             let H1 := fresh "Hd" in
             apply digit_chars_cons in H as [H1 H]
         end.

(** The extended calendar format [YYYY-MM-DD]. *)
Lemma fromisoformat_ymd (y1 y2 y3 y4 m1 m2 d1 d2 : ascii) :
  digit_chars [y1; y2; y3; y4; m1; m2; d1; d2] = true ->
  fromisoformat
    (String y1 (String y2 (String y3 (String y4 (String "-" (String m1
       (String m2 (String "-" (String d1 (String d2 ""))))))))))
  = midnight <$> make (num [y1; y2; y3; y4]) (num [m1; m2]) (num [d1; d2]).
Proof.
  intros H. split_digits H.
  unfold fromisoformat. cbn [String.length Nat.ltb Nat.leb].
  unfold utf8. cbn [list_ascii_of_string flat_map].
  change (utf8_char "-") with ["-"%char].
  rewrite !utf8_char_digit by done. cbn [app].
  remember [y1; y2; y3; y4; "-"%char; m1; m2; "-"%char; d1; d2] as b eqn:Eb.
  assert (length b = 10%nat) as Hlen by (by subst).
  assert (byte_at b 0 = y1) as B0 by (by subst).
  assert (byte_at b 1 = y2) as B1 by (by subst).
  assert (byte_at b 2 = y3) as B2 by (by subst).
  assert (byte_at b 3 = y4) as B3 by (by subst).
  assert (byte_at b 4 = "-"%char) as B4 by (by subst).
  assert (byte_at b 5 = m1) as B5 by (by subst).
  assert (byte_at b 6 = m2) as B6 by (by subst).
  assert (byte_at b 7 = "-"%char) as B7 by (by subst).
  assert (byte_at b 8 = d1) as B8 by (by subst).
  assert (byte_at b 9 = d2) as B9 by (by subst).
  clear Eb. cbn zeta.
  unfold find_isoformat_datetime_separator, parse_isoformat_date.
  repeat parse_step.
  cbn [year month day]. unfold num. cbn [string_of_list_ascii int_of_digits].
  by destruct (make _ _ _).
Qed.

(** The basic calendar format [YYYYMMDD]. *)
Lemma fromisoformat_basic (y1 y2 y3 y4 m1 m2 d1 d2 : ascii) :
  digit_chars [y1; y2; y3; y4; m1; m2; d1; d2] = true ->
  fromisoformat
    (String y1 (String y2 (String y3 (String y4 (String m1
       (String m2 (String d1 (String d2 ""))))))))
  = midnight <$> make (num [y1; y2; y3; y4]) (num [m1; m2]) (num [d1; d2]).
Proof.
  intros H. split_digits H.
  unfold fromisoformat. cbn [String.length Nat.ltb Nat.leb].
  unfold utf8. cbn [list_ascii_of_string flat_map].
  rewrite !utf8_char_digit by done. cbn [app].
  remember [y1; y2; y3; y4; m1; m2; d1; d2] as b eqn:Eb.
  assert (length b = 8%nat) as Hlen by (by subst).
  assert (byte_at b 0 = y1) as B0 by (by subst).
  assert (byte_at b 1 = y2) as B1 by (by subst).
  assert (byte_at b 2 = y3) as B2 by (by subst).
  assert (byte_at b 3 = y4) as B3 by (by subst).
  assert (byte_at b 4 = m1) as B4 by (by subst).
  assert (byte_at b 5 = m2) as B5 by (by subst).
  assert (byte_at b 6 = d1) as B6 by (by subst).
  assert (byte_at b 7 = d2) as B7 by (by subst).
  clear Eb. cbn zeta.
  unfold find_isoformat_datetime_separator, parse_isoformat_date.
  repeat parse_step.
  cbn [year month day]. unfold num. cbn [string_of_list_ascii int_of_digits].
  by destruct (make _ _ _).
Qed.

(** *** Dates written by [isoformat] *)

Lemma fmt4_all :
  forallb (λ y, match fmt_0d 4 y with
                | String a (String b (String c (String e EmptyString))) =>
                    digit_chars [a; b; c; e] && (num [a; b; c; e] =? y)
                | _ => false
                end) (seqZ 1 9999) = true.
Proof. by vm_compute. Qed.

Lemma fmt4_spec (y : Z) :
  1 <= y <= 9999 ->
  exists a b c e,
    fmt_0d 4 y = String a (String b (String c (String e "")))
    /\ digit_chars [a; b; c; e] = true /\ num [a; b; c; e] = y.
Proof.
  intros Hy. pose proof fmt4_all as Hall. rewrite forallb_forall in Hall.
  specialize (Hall y). 
  assert (In y (seqZ 1 9999)) as Hin by (apply list_elem_of_In, elem_of_seqZ; lia).
  apply Hall in Hin.
  destruct (fmt_0d 4 y) as [|a [|b [|c [|e [|? ?]]]]]; try done.
  apply andb_true_iff in Hin as [Hd Hn]. apply Z.eqb_eq in Hn.
  by exists a, b, c, e.
Qed.

Lemma fmt2_spec (v : Z) :
  1 <= v <= 31 ->
  exists p q,
    fmt_0d 2 v = String p (String q "")
    /\ digit_chars [p; q] = true /\ num [p; q] = v
    /\ (forall R, dir_d (String p (String q R)) = Some (v, R))
    /\ (v <= 12 -> forall R, dir_m (String p (String q R)) = Some (v, R)).
Proof.
  intros Hv.
  assert (In v (seqZ 1 31)) as Hin by (apply list_elem_of_In, elem_of_seqZ; lia).
  vm_compute in Hin.
  repeat (destruct Hin as [<- | Hin];
          [eexists _, _; split; [reflexivity |]; split; [reflexivity |];
           split; [reflexivity |]; split; [reflexivity |];
           intros Hle R; first [reflexivity | exfalso; lia] |]).
  done.
Qed.

Lemma valid_bounds (y m d : Z) :
  valid y m d = true -> 1 <= y <= 9999 /\ 1 <= m <= 12 /\ 1 <= d <= 31.
Proof.
  unfold valid. rewrite !andb_true_iff, !Z.leb_le.
  intros [[[[[? ?] ?] Hm] ?] Hd]. split; [lia |]. split; [lia |].
  split; [lia |].
  assert (days_in_month y m <= 31); [| lia].
  unfold days_in_month. destruct (_ && _); [lia |].
  assert (In m (seqZ 1 12)) as Hin by (apply list_elem_of_In, elem_of_seqZ; lia).
  vm_compute in Hin.
  repeat (destruct Hin as [<- | Hin]; [vm_compute; discriminate |]). done.
Qed.

(** The ISO form of a date of the calendar: ten characters, digits and
    two hyphens. *)
Lemma isoformat_chars (d : date) :
  valid (year d) (month d) (day d) = true ->
  exists a b c e p q r t,
    isoformat d
    = String a (String b (String c (String e (String "-" (String p
        (String q (String "-" (String r (String t "")))))))))
    /\ digit_chars [a; b; c; e; p; q; r; t] = true
    /\ num [a; b; c; e] = year d /\ num [p; q] = month d /\ num [r; t] = day d
    /\ (forall R, dir_m (String p (String q R)) = Some (month d, R))
    /\ (forall R, dir_d (String r (String t R)) = Some (day d, R)).
Proof.
  destruct d as [y m dd]. simpl. intros Hvalid.
  destruct (valid_bounds y m dd Hvalid) as (Hy & Hm & Hd).
  destruct (fmt4_spec y Hy) as (a & b & c & e & Ey & Hdy & Hny).
  destruct (fmt2_spec m ltac:(lia)) as (p & q & Em & Hdm & Hnm & _ & Hdirm).
  destruct (fmt2_spec dd Hd) as (r & t & Ed & Hdd & Hnd & Hdird & _).
  exists a, b, c, e, p, q, r, t.
  unfold isoformat. cbn [year month day]. rewrite Ey, Em, Ed.
  repeat (rewrite sapp_cons || rewrite sapp_nil_l).
  split; [done |]. split.
  { unfold digit_chars in *. cbn [forallb] in *.
    rewrite !andb_true_iff in *. tauto. }
  split; [done |]. split; [done |]. split; [done |].
  split; [apply Hdirm; lia | done].
Qed.

(** The first ten characters of a text that starts with the ISO form of
    a date of the calendar are read as the midnight of that date. *)
Lemma fromisoformat_isoformat (d : date) (rest : string) :
  valid (year d) (month d) (day d) = true ->
  fromisoformat (take 10 (isoformat d +:+ rest)) = Some (midnight d).
Proof.
  intros Hvalid.
  destruct (isoformat_chars d Hvalid)
    as (a & b & c & e & p & q & r & t & -> & Hdig & Hy & Hm & Hd & _).
  repeat (rewrite sapp_cons || rewrite sapp_nil_l). cbn [take].
  rewrite fromisoformat_ymd by done. rewrite Hy, Hm, Hd.
  unfold make. rewrite Hvalid. by destruct d.
Qed.

End IsoFacts.

(** ** The workbook sync *)

Module SyncFacts.

Import Py Date Sync PyFacts.

(** *** Sponsor type *)

Lemma existsb_contains (keys : list string) (text : string) :
  existsb (λ k, contains k text) keys = true
  <-> exists k, k ∈ keys /\ substring k text.
Proof.
  rewrite existsb_exists. unfold substring. split.
  - intros (k & Hin & Hk). exists k. split; [by apply list_elem_of_In |].
    by apply contains_spec.
  - intros (k & Hin & Hk). exists k. split; [by apply list_elem_of_In |].
    by apply contains_spec.
Qed.

(** *** Identifier scanning *)

Lemma list_max_ge (x : Z) (xs : list Z) :
  x <= list_max x xs /\ forall y, y ∈ xs -> y <= list_max x xs.
Proof.
  unfold list_max. revert x. induction xs as [|z xs IH]; intros x; simpl.
  - split; [lia | intros y Hy; by apply elem_of_nil in Hy].
  - destruct (IH (Z.max x z)) as [H1 H2]. split; [lia |].
    intros y [->|Hy]%elem_of_cons; [lia | by apply H2].
Qed.

Lemma list_max_in (x : Z) (xs : list Z) : list_max x xs ∈ x :: xs.
Proof.
  unfold list_max. revert x. induction xs as [|z xs IH]; intros x; simpl.
  - apply list_elem_of_here.
  - specialize (IH (Z.max x z)). apply elem_of_cons in IH as [IH|IH].
    + rewrite IH. destruct (Z.max_spec x z) as [[_ ->]|[_ ->]].
      * apply list_elem_of_further, list_elem_of_here.
      * apply list_elem_of_here.
    + by do 2 apply list_elem_of_further.
Qed.

Lemma next_number_spec (nums : list Z) :
  (nums = [] -> next_number nums = 1)
  /\ (nums <> [] -> next_number nums - 1 ∈ nums)
  /\ (forall m, m ∈ nums -> m < next_number nums).
Proof.
  destruct nums as [|x xs]; simpl.
  - split; [done |]. split; [done |]. intros m Hm. by apply elem_of_nil in Hm.
  - split; [done |]. split.
    + intros _. replace (list_max x xs + 1 - 1) with (list_max x xs) by lia.
      apply list_max_in.
    + intros m Hm. destruct (list_max_ge x xs) as [H1 H2].
      apply elem_of_cons in Hm as [->|Hm]; [lia |]. specialize (H2 m Hm). lia.
Qed.

Lemma match_int_nonneg (prefix s : string) (n : Z) :
  match_int prefix s = Some n -> 0 <= n.
Proof.
  unfold match_int. destruct (strip_prefix prefix s) as [rest|]; [simpl | done].
  assert (forall ds a, 0 <= a -> all_digits ds = true -> 0 <= int_of_digits a ds) as Hpos.
  { induction ds as [|c ds IH]; simpl; intros a Ha Hd; [done |].
    apply andb_true_iff in Hd as [Hc Hd]. apply IH; [| done].
    unfold is_digit, between in Hc. unfold digit_val.
    apply andb_true_iff in Hc as [Hc1 Hc2]. apply Z.leb_le in Hc1. lia. }
  assert (all_digits (take_digits rest) = true) as Hall.
  { clear. induction rest as [|c rest IH]; simpl; [done |].
    destruct (is_digit c) eqn:E; simpl; [by rewrite E | done]. }
  destruct (take_digits rest); [done |]. intros [= <-]. by apply (Hpos (String _ _) 0).
Qed.

Lemma scan_ids_nonneg (prefix : string) (ids : list pyval) (n : Z) :
  n ∈ scan_ids prefix ids -> 0 <= n.
Proof.
  unfold scan_ids. rewrite list_elem_of_omap. intros (i & _ & Hi).
  by eapply match_int_nonneg.
Qed.

Lemma next_number_pos (prefix : string) (ids : list pyval) :
  1 <= next_number (scan_ids prefix ids).
Proof.
  destruct (next_number_spec (scan_ids prefix ids)) as (H1 & H2 & H3).
  destruct (scan_ids prefix ids) as [|x xs] eqn:E; [rewrite H1; done |].
  assert (0 <= x) by (apply (scan_ids_nonneg prefix ids); rewrite E; apply list_elem_of_here).
  specialize (H3 x (list_elem_of_here _ _)). lia.
Qed.

(** *** [prepare_rows] *)

Lemma prepare_rows_inv item cfg pid today row tasks :
  prepare_rows item cfg pid today = Some (row, tasks) ->
  exists close posted anchor d10 d9 d8 d7,
    parse_date (dict_get_or item "close_date" (PStr "")) = Some close
    /\ parse_date (dict_get_or item "posted_date" (PStr "")) = Some posted
    /\ (let due := match close with Some d => Some d | None => posted end in
        match due with
        | Some d => anchor = d
        | None => add_days today 30 = Some anchor
        end
        /\ row !! 11%nat = Some (PStr (opt_iso due)))
    /\ head row = Some (PStr pid)
    /\ (sub_days anchor 10 = Some d10 /\ sub_days anchor 9 = Some d9
        /\ sub_days anchor 8 = Some d8 /\ sub_days anchor 7 = Some d7)
    /\ task_due <$> tasks = isoformat <$> [d10; d9; d8; d8; d7; d7; d7].
Proof.
  unfold prepare_rows. intros H.
  destruct (strip <$> as_str (dict_get_or item "title" (PStr ""))) as [title|]; [simpl in H | done].
  destruct (strip <$> as_str _) as [sponsor|]; [simpl in H | done].
  destruct (parse_date (dict_get_or item "close_date" (PStr ""))) as [close|]; [simpl in H | done].
  destruct (parse_date (dict_get_or item "posted_date" (PStr ""))) as [posted|]; [simpl in H | done].
  set (due := match close with Some d => Some d | None => posted end) in *.
  destruct (match due with Some d => _ | None => Some None end) as [internal|]; [simpl in H | done].
  destruct (mechanism_from_source item cfg) as [mech|]; [simpl in H | done].
  destruct (match due with Some d => Some d | None => add_days today 30 end)
    as [anchor|] eqn:Ha; [simpl in H | done].
  destruct (sub_days anchor 10) as [d10|] eqn:E10; [simpl in H | done].
  destruct (sub_days anchor 9) as [d9|] eqn:E9; [simpl in H | done].
  destruct (sub_days anchor 8) as [d8|] eqn:E8; [simpl in H | done].
  destruct (sub_days anchor 7) as [d7|] eqn:E7; [simpl in H | done].
  injection H as <- <-.
  exists close, posted, anchor, d10, d9, d8, d7. repeat split; try done.
  fold due. destruct due; congruence.
Qed.

Lemma prepare_rows_head item cfg pid today row tasks :
  prepare_rows item cfg pid today = Some (row, tasks) ->
  head row = Some (PStr pid).
Proof.
  intros H. destruct (prepare_rows_inv _ _ _ _ _ _ H)
    as (? & ? & ? & ? & ? & ? & ? & _ & _ & _ & Hhead & _). done.
Qed.

End SyncFacts.

Module SyncRun.

Import Py Date Sync PyFacts SyncFacts.

Lemma import_item_inv cfg today st item st' :
  import_item cfg today st item = Some st' ->
  st' = st \/
  exists row tasks,
    prepare_rows item cfg (next_pid st) today = Some (row, tasks)
    /\ wsP st' = wsP st ++ [row]
    /\ (wsT st', task_nums st')
       = append_tasks (PStr (next_pid st)) tasks (wsT st) (task_nums st)
    /\ next_pid st'
       = pid_of (match match_int "GSU-P-" (next_pid st) with
                 | Some n => n + 1
                 | None => 1
                 end)
    /\ added st' = added st + 1.
Proof.
  unfold import_item. intros H.
  destruct (_ <$> as_str _) as [title|]; [simpl in H | done].
  destruct (_ || _); [left; congruence |].
  destruct (prepare_rows item cfg (next_pid st) today) as [[row tasks]|] eqn:Hprep;
    [simpl in H | done].
  rewrite (prepare_rows_head _ _ _ _ _ _ Hprep) in H. simpl in H.
  destruct (append_tasks _ tasks (wsT st) (task_nums st)) as [wsT' nums'] eqn:Happ.
  injection H as <-. right. exists row, tasks. simpl. by rewrite Happ.
Qed.

Lemma import_all_pids cfg today chosen : forall st st' n,
  0 <= n -> next_pid st = pid_of n ->
  import_all cfg today st chosen = Some st' ->
  exists rows,
    wsP st' = wsP st ++ rows
    /\ added st' = added st + Z.of_nat (length rows)
    /\ next_pid st' = pid_of (n + Z.of_nat (length rows))
    /\ forall (k : nat) row, rows !! k = Some row ->
         head row = Some (PStr (pid_of (n + Z.of_nat k))).
Proof.
  induction chosen as [|item chosen IH]; intros st st' n Hn Hpid H; simpl in H.
  - injection H as <-. exists []. rewrite List.app_nil_r. simpl length.
    change (Z.of_nat 0) with 0. rewrite !Z.add_0_r.
    split; [done |]. split; [done |]. split; [done |].
    intros k row Hk. by destruct k.
  - destruct (import_item cfg today st item) as [st1|] eqn:Hstep; [simpl in H | done].
    apply import_item_inv in Hstep as [->|(row & tasks & Hprep & HwsP & _ & Hnext & Hadd)].
    + by apply (IH st st' n).
    + rewrite Hpid in Hnext. unfold pid_of in Hnext at 2.
      rewrite match_int_fmt in Hnext by done.
      destruct (IH st1 st' (n + 1)) as (rows & H1 & H2 & H3 & H4); [lia | done | done |].
      exists (row :: rows). rewrite H1, HwsP, <- List.app_assoc. simpl length.
      rewrite Nat2Z.inj_succ. split; [done |]. split; [| split].
      * rewrite H2, Hadd. lia.
      * rewrite H3. f_equal. lia.
      * intros [|k] r Hr; simpl in Hr.
        -- injection Hr as <-. rewrite Z.add_0_r, <- Hpid.
           by apply (prepare_rows_head _ _ _ _ _ _ Hprep).
        -- rewrite (H4 k r Hr). do 3 f_equal. lia.
Qed.

Lemma append_tasks_length pid tasks ws nums :
  length (append_tasks pid tasks ws nums).1 = (length ws + length tasks)%nat.
Proof.
  revert ws nums. induction tasks as [|[[[[name due] owner] status] notes] tasks IH];
    intros ws nums; simpl; [lia |].
  destruct (next_task nums) as [tid nums']. rewrite IH, length_app. simpl. lia.
Qed.

(** An imported item adds one row to the Proposals sheet and seven to the
    Tasks sheet. *)
Lemma import_item_rows cfg today st item st' :
  import_item cfg today st item = Some st' ->
  st' = st
  \/ (length (wsP st') = S (length (wsP st))
      /\ length (wsT st') = (length (wsT st) + 7)%nat).
Proof.
  intros [->|(row & tasks & Hprep & HwsP & Happ & _)]%import_item_inv; [by left |].
  right. rewrite HwsP, length_app. simpl. split; [lia |].
  replace (wsT st') with (append_tasks (PStr (next_pid st)) tasks (wsT st) (task_nums st)).1
    by (by rewrite <- Happ).
  rewrite append_tasks_length.
  destruct (prepare_rows_inv _ _ _ _ _ _ Hprep)
    as (? & ? & ? & ? & ? & ? & ? & _ & _ & _ & _ & _ & Hdues).
  apply (f_equal length) in Hdues. rewrite length_fmap in Hdues. simpl in Hdues. lia.
Qed.

Lemma strip_all_space (s : string) : all_space s = true -> strip s = "".
Proof.
  unfold strip. induction s as [|c s IH]; simpl; [done |].
  intros [Hc Hs]%andb_true_iff. rewrite Hc. by apply IH.
Qed.

End SyncRun.

(** ** Further facts on the workbook sync *)

Module SyncMore.

#[local] Set Warnings "-clear-no-such-hyp".

Import Py Date Sync Examples PyFacts DateFacts SyncFacts SyncRun StringFacts.

(** *** The cells of a new proposal row *)

Lemma prepare_rows_cells item cfg pid today row tasks :
  prepare_rows item cfg pid today = Some (row, tasks) ->
  exists s rest,
    dict_get_or item "title" (PStr "") = PStr s
    /\ row = PStr pid :: PStr (strip s) :: rest
    /\ length row = 32%nat.
Proof.
  unfold prepare_rows. intros H.
  destruct (dict_get_or item "title" (PStr "")) as [|s|] eqn:Et; try done.
  cbn [as_str fmap option_fmap option_map mbind option_bind] in H.
  destruct (strip <$> as_str _) as [sponsor|]; [simpl in H | done].
  destruct (parse_date (dict_get_or item "close_date" (PStr ""))) as [close|]; [simpl in H | done].
  destruct (parse_date (dict_get_or item "posted_date" (PStr ""))) as [posted|]; [simpl in H | done].
  set (due := match close with Some d => Some d | None => posted end) in *.
  destruct (match due with Some d => _ | None => Some None end) as [internal|]; [simpl in H | done].
  destruct (mechanism_from_source item cfg) as [mech|]; [simpl in H | done].
  destruct (match due with Some d => Some d | None => add_days today 30 end)
    as [anchor|]; [simpl in H | done].
  destruct (sub_days anchor 10); [simpl in H | done].
  destruct (sub_days anchor 9); [simpl in H | done].
  destruct (sub_days anchor 8); [simpl in H | done].
  destruct (sub_days anchor 7); [simpl in H | done].
  injection H as <- _. by eexists s, _.
Qed.

Lemma item_title_key_get item t s :
  item_title_key item = Some t ->
  dict_get_or item "title" (PStr "") = PStr s ->
  t = lower (strip s).
Proof.
  unfold item_title_key, dict_get_or, dict_get, py_or.
  destruct (item !! "title") as [[|s'|n]|]; simpl.
  - by intros _ [=].
  - intros H [= Es]. rewrite <- Es. clear Es. revert H.
    destruct (String.eqb_spec s' "") as [E|E]; simpl; intros [= <-];
      [by rewrite E | done].
  - by intros _ [=].
  - by intros [= <-] [= <-].
Qed.

(** The body of the import loop, case by case. *)
Lemma import_item_cases cfg today st item st' :
  import_item cfg today st item = Some st' ->
  exists t,
    item_title_key item = Some t
    /\ (((t = "" \/ (t ∈ existing_titles st)) /\ st' = st)
        \/ (t <> "" /\ (t ∉ existing_titles st)
            /\ exists row tasks,
                 prepare_rows item cfg (next_pid st) today = Some (row, tasks)
                 /\ title_key row = t
                 /\ st' = mkState (wsP st ++ [row])
                            (append_tasks (PStr (next_pid st)) tasks (wsT st)
                               (task_nums st)).1
                            ({[t]} ∪ existing_titles st)
                            (existing_ids st ++ [PStr (next_pid st)])
                            (pid_of (match match_int "GSU-P-" (next_pid st) with
                                     | Some n => n + 1
                                     | None => 1
                                     end))
                            (append_tasks (PStr (next_pid st)) tasks (wsT st)
                               (task_nums st)).2
                            (added st + 1))).
Proof.
  unfold import_item. fold (item_title_key item). intros H.
  destruct (item_title_key item) as [t|] eqn:Et; [simpl in H | done].
  exists t. split; [done |].
  destruct (String.eqb_spec t "") as [->|Hne]; simpl in H.
  { left. split; [by left | congruence]. }
  destruct (bool_decide_reflect (t ∈ existing_titles st)) as [Hin|Hnin]; simpl in H.
  { left. split; [by right | congruence]. }
  right. split; [done |]. split; [done |].
  destruct (prepare_rows item cfg (next_pid st) today) as [[row tasks]|] eqn:Hprep;
    [simpl in H | done].
  destruct (prepare_rows_cells _ _ _ _ _ _ Hprep) as (s & rest & Hs & Hrow & _).
  rewrite Hrow in H. simpl in H.
  destruct (append_tasks _ tasks (wsT st) (task_nums st)) as [wsT' nums'] eqn:Happ.
  injection H as <-. exists row, tasks. split; [done |]. split.
  - rewrite Hrow. unfold title_key. simpl.
    rewrite strip_idem. symmetry. by apply (item_title_key_get item).
  - by rewrite Happ, Hrow.
Qed.

Lemma lower_strip_nonempty (s : string) : lower (strip s) <> "" -> strip s <> "".
Proof. intros H E. apply H. by rewrite E. Qed.

(** *** Titles in a run *)

Lemma import_all_titles cfg today chosen : forall st st',
  import_all cfg today st chosen = Some st' ->
  exists rows,
    wsP st' = wsP st ++ rows
    /\ NoDup (title_key <$> rows)
    /\ (forall r, r ∈ rows -> title_key r <> "" /\ title_key r ∉ existing_titles st)
    /\ existing_titles st' = list_to_set (title_key <$> rows) ∪ existing_titles st
    /\ (forall item, item ∈ chosen ->
          exists t, item_title_key item = Some t
                    /\ (t = "" \/ (t ∈ existing_titles st')))
    /\ (forall r, r ∈ rows ->
          exists item, item ∈ chosen /\ item_title_key item = Some (title_key r)).
Proof.
  induction chosen as [|item chosen IH]; intros st st' H; simpl in H.
  - injection H as <-. exists []. rewrite app_nil_r. simpl.
    split; [done |]. split; [constructor |].
    split; [by intros r ?%elem_of_nil |]. split; [set_solver |].
    split; [by intros i ?%elem_of_nil | by intros r ?%elem_of_nil].
  - destruct (import_item cfg today st item) as [st1|] eqn:Hstep; [simpl in H | done].
    destruct (IH st1 st' H) as (rows & HwsP & Hnd & Hnew & Htitles & Hall & Hfrom).
    apply import_item_cases in Hstep
      as (t & Ht & [[Hskip ->] | (Hne & Hnin & row & tasks & Hprep & Hkey & ->)]).
    + exists rows. split; [done |]. split; [done |]. split; [done |].
      split; [done |]. split.
      * intros i [->|Hi]%elem_of_cons; [| by apply Hall].
        exists t. split; [done |]. destruct Hskip as [?|?]; [by left | right].
        rewrite Htitles. set_solver.
      * intros r Hr. destruct (Hfrom r Hr) as (i & Hi & Hk).
        exists i. split; [by apply elem_of_cons; right | done].
    + simpl in *. exists (row :: rows). rewrite HwsP, <- app_assoc. simpl.
      split; [done |]. rewrite Hkey. split; [| split; [| split; [| split]]].
      * apply NoDup_cons. split; [| done].
        intros (r & Hr & Hin)%list_elem_of_fmap. apply (Hnew r Hin).
        rewrite <- Hr. set_solver.
      * intros r [->|Hr]%elem_of_cons; [by rewrite Hkey |].
        destruct (Hnew r Hr) as [? Hn]. split; [done |]. set_solver.
      * rewrite Htitles. set_solver.
      * intros i [->|Hi]%elem_of_cons; [| by apply Hall].
        exists t. split; [done |]. right. rewrite Htitles. set_solver.
      * intros r [->|Hr]%elem_of_cons.
        -- exists item. split; [apply list_elem_of_here | by rewrite Hkey].
        -- destruct (Hfrom r Hr) as (i & Hi & Hk).
           exists i. split; [by apply elem_of_cons; right | done].
Qed.

(** The scan of the Proposals sheet. *)
Lemma scan_proposals_app a b ids titles :
  scan_proposals (a ++ b) ids titles
  = '(i, t) ← scan_proposals a ids titles; scan_proposals b i t.
Proof.
  revert ids titles. induction a as [|row a IH]; intros ids titles; simpl; [done |].
  destruct (any_truthy row); simpl; [| apply IH].
  destruct (row !! 0%nat) as [id|]; [simpl | done].
  destruct (row !! 1%nat) as [t|]; [simpl | done]. apply IH.
Qed.

Lemma scan_proposals_spec rows : forall ids titles ids' titles',
  scan_proposals rows ids titles = Some (ids', titles') ->
  titles ⊆ titles'
  /\ (forall i, i ∈ ids -> i ∈ ids')
  /\ (forall p, p ∈ rows -> any_truthy p = true ->
        exists c, p !! 0%nat = Some c /\ PStr (py_str c) ∈ ids'
                  /\ (truthy (default PNone (p !! 1%nat)) = true ->
                      title_key p ∈ titles')).
Proof.
  induction rows as [|row rows IH]; intros ids titles ids' titles'; simpl.
  - intros [= <- <-]. split; [done |]. split; [done |]. by intros p ?%elem_of_nil.
  - destruct (any_truthy row) eqn:Eany; simpl.
    + destruct (row !! 0%nat) as [id|] eqn:E0; [simpl | done].
      destruct (row !! 1%nat) as [t|] eqn:E1; [simpl | done].
      intros H. destruct (IH _ _ _ _ H) as (Hsub & Hids & Hrows).
      split; [destruct (truthy t); set_solver |].
      split; [intros i Hi; apply Hids, elem_of_app; by left |].
      intros p [->|Hp]%elem_of_cons Hany; [| by apply Hrows].
      exists id. split; [done |]. split.
      * apply Hids, elem_of_app. right. apply list_elem_of_here.
      * rewrite E1. simpl. intros Ht. rewrite Ht in Hsub. unfold title_key.
        rewrite E1. simpl. set_solver.
    + intros H. destruct (IH _ _ _ _ H) as (Hsub & Hids & Hrows).
      split; [done |]. split; [done |].
      intros p [->|Hp]%elem_of_cons Hany; [congruence | by apply Hrows].
Qed.

(** X12.  An appended proposal row never has the title of a proposal that is
    already in the sheet, nor the title of another appended row, titles
    being compared without their case and surrounding white space. *)
Theorem sync_titles_unique cfg today proposals tasks chosen st :
  sync cfg today proposals tasks chosen = Some st ->
  exists rows,
    wsP st = proposals ++ rows
    /\ NoDup (title_key <$> rows)
    /\ (forall r p, r ∈ rows -> p ∈ proposals -> any_truthy p = true ->
          truthy (default PNone (p !! 1%nat)) = true ->
          title_key p <> title_key r).
Proof.
  unfold sync, initial_state.
  destruct (scan_proposals proposals [] ∅) as [[ids titles]|] eqn:Hscan;
    [simpl | done].
  intros Hrun. apply import_all_titles in Hrun as (rows & HwsP & Hnd & Hnew & _).
  simpl in *. exists rows. split; [done |]. split; [done |].
  intros r p Hr Hp Hany Ht Heq.
  destruct (scan_proposals_spec _ _ _ _ _ Hscan) as (_ & _ & Hrows).
  destruct (Hrows p Hp Hany) as (c & _ & _ & Hin).
  destruct (Hnew r Hr) as [_ Hn]. apply Hn. rewrite <- Heq. by apply Hin.
Qed.

Lemma sync_titles_unique_witness :
  let chosen := [item0; <["title" := PStr " TEST hbcu grant "]> item0] in
  exists st,
    sync cfg0 today0 proposals0 [] chosen = Some st
    /\ exists rows,
         wsP st = proposals0 ++ rows
         /\ NoDup (title_key <$> rows)
         /\ (forall r p, r ∈ rows -> p ∈ proposals0 -> any_truthy p = true ->
               truthy (default PNone (p !! 1%nat)) = true ->
               title_key p <> title_key r).
Proof.
  intros chosen. eexists. split; [vm_compute; reflexivity |].
  apply (sync_titles_unique cfg0 today0 proposals0 [] chosen).
  vm_compute. reflexivity.
Defined.

End SyncMore.

(** ** Properties of the workbook sync *)

Module SyncSpec.

Import Py Date Sync Examples PyFacts DateFacts SyncFacts SyncRun SyncMore.

(** C4.  Proposal identifiers: [next_id] returns [GSU-P-0001] for no
    existing identifier and [GSU-P-0004] for [GSU-P-0001], [GSU-P-0003];
    in general it returns the greatest numeric suffix among the matching
    identifiers plus one (one when none matches), zero-padded to four
    digits.  In a run of the sync every chosen item with a non-empty
    title that is not yet in the sheet gets a proposal row, once; the
    [k]-th row appended carries the number of [next_id] plus [k], and the
    counter ends at that number plus the number of rows appended.  One
    import writes the current identifier into the new row and moves the
    counter to the next number. *)
Theorem proposal_ids_sequential :
  next_id [] "GSU-P-" = "GSU-P-0001"
  /\ next_id [PStr "GSU-P-0001"; PStr "GSU-P-0003"] "GSU-P-" = "GSU-P-0004"
  /\ (forall ids,
        let nums := scan_ids "GSU-P-" ids in
        next_id ids "GSU-P-" = pid_of (next_number nums)
        /\ (nums = [] -> next_number nums = 1)
        /\ (nums <> [] -> next_number nums - 1 ∈ nums)
        /\ (forall m, m ∈ nums -> m < next_number nums))
  /\ (forall cfg today proposals tasks chosen st,
        sync cfg today proposals tasks chosen = Some st ->
        exists ids titles rows,
          scan_proposals proposals [] ∅ = Some (ids, titles)
          /\ wsP st = proposals ++ rows
          /\ added st = Z.of_nat (length rows)
          /\ (forall (k : nat) row, rows !! k = Some row ->
                head row
                = Some (PStr (pid_of (next_number (scan_ids "GSU-P-" ids)
                                      + Z.of_nat k))))
          /\ next_pid st
             = pid_of (next_number (scan_ids "GSU-P-" ids)
                       + Z.of_nat (length rows))
          /\ NoDup (title_key <$> rows)
          /\ (forall r, r ∈ rows ->
                title_key r <> "" /\ (title_key r ∉ titles)
                /\ exists item, item ∈ chosen
                                /\ item_title_key item = Some (title_key r))
          /\ (forall item t, item ∈ chosen -> item_title_key item = Some t ->
                t <> "" -> (t ∉ titles) -> t ∈ title_key <$> rows))
  /\ (forall cfg today st item t st' n,
        item_title_key item = Some t -> t <> "" -> (t ∉ existing_titles st) ->
        0 <= n -> next_pid st = pid_of n ->
        import_item cfg today st item = Some st' ->
        exists row,
          wsP st' = wsP st ++ [row]
          /\ head row = Some (PStr (pid_of n))
          /\ next_pid st' = pid_of (n + 1)
          /\ added st' = added st + 1).
Proof.
  split; [by vm_compute |]. split; [by vm_compute |]. split; [| split].
  - intros ids nums. split; [done |]. apply next_number_spec.
  - intros cfg today proposals tasks chosen st. unfold sync, initial_state.
    destruct (scan_proposals proposals [] ∅) as [[ids titles]|]; [simpl | done].
    intros Hrun. pose proof Hrun as Hrun'.
    eapply (import_all_pids _ _ _ _ _ (next_number (scan_ids "GSU-P-" ids)))
      in Hrun as (rows & H1 & H2 & H3 & H4);
      try (pose proof (next_number_pos "GSU-P-" ids); simpl; lia); try done.
    apply import_all_titles in Hrun'
      as (rows' & H1' & Hnd & Hnew & Htitles & Hall & Hfrom).
    simpl in *. rewrite H1 in H1'. apply app_inv_head in H1' as <-.
    exists ids, titles, rows.
    split; [done |]. split; [done |]. split; [lia |]. split; [done |].
    split; [done |]. split; [done |]. split.
    + intros r Hr. destruct (Hnew r Hr) as [? ?]. split; [done |].
      split; [done |]. by apply Hfrom.
    + intros item t Hitem Ht Hne Hnin.
      destruct (Hall item Hitem) as (t' & Ht' & [->|Hin]).
      * congruence.
      * assert (t' = t) as -> by congruence. rewrite Htitles in Hin.
        apply elem_of_union in Hin as [Hin|Hin]; [| done].
        by apply elem_of_list_to_set in Hin.
  - intros cfg today st item t st' n Ht Hne Hnin Hn Hpid Hstep.
    apply import_item_cases in Hstep
      as (t' & Ht' & [[Hskip _] | (_ & _ & row & tasks & Hprep & _ & ->)]).
    + assert (t' = t) as -> by congruence. by destruct Hskip.
    + exists row. simpl. split; [done |]. split; [| split; [| done]].
      * rewrite <- Hpid. by apply (prepare_rows_head _ _ _ _ _ _ Hprep).
      * rewrite Hpid. unfold pid_of at 2. by rewrite match_int_fmt.
Qed.

Lemma proposal_ids_sequential_witness :
  exists st,
    sync cfg0 today0 proposals0 [] [item0; item1] = Some st
    /\ head <$> drop (length proposals0) (wsP st)
       = [Some (PStr "GSU-P-0004"); Some (PStr "GSU-P-0005")]
    /\ next_pid st = "GSU-P-0006"
    /\ added st = 2
    /\ exists ids titles rows,
         scan_proposals proposals0 [] ∅ = Some (ids, titles)
         /\ wsP st = proposals0 ++ rows
         /\ added st = Z.of_nat (length rows)
         /\ (forall (k : nat) row, rows !! k = Some row ->
               head row
               = Some (PStr (pid_of (next_number (scan_ids "GSU-P-" ids)
                                     + Z.of_nat k))))
         /\ next_pid st
            = pid_of (next_number (scan_ids "GSU-P-" ids)
                      + Z.of_nat (length rows))
         /\ NoDup (title_key <$> rows)
         /\ (forall r, r ∈ rows ->
               title_key r <> "" /\ (title_key r ∉ titles)
               /\ exists item, item ∈ [item0; item1]
                               /\ item_title_key item = Some (title_key r))
         /\ (forall item t, item ∈ [item0; item1] ->
               item_title_key item = Some t ->
               t <> "" -> (t ∉ titles) -> t ∈ title_key <$> rows).
Proof.
  eexists. split; [vm_compute; reflexivity |].
  split; [vm_compute; reflexivity |]. split; [vm_compute; reflexivity |].
  split; [vm_compute; reflexivity |].
  apply (proj1 (proj2 (proj2 (proj2 proposal_ids_sequential))) cfg0 today0
           proposals0 [] [item0; item1]).
  vm_compute. reflexivity.
Defined.

(** C1.  Task identifiers for a Tasks sheet holding [TSK-0005] and
    [TSK-0002], in this order: the greatest number plus one is 6, but the
    generator continues from the last number scanned and yields
    [TSK-0003], [TSK-0004] and then [TSK-0005], which is already in the
    sheet. *)
Theorem task_ids_continue_from_last :
  let sheet := [[PStr "TSK-0005"; PStr "GSU-P-0001"]; [PStr "TSK-0002"; PStr "GSU-P-0001"]] in
  let existing := scan_task_ids sheet in
  let nums0 := next_task_id existing in
  let r1 := next_task nums0 in
  let r2 := next_task r1.2 in
  let r3 := next_task r2.2 in
  existing = [PStr "TSK-0005"; PStr "TSK-0002"]
  /\ task_nums <$> initial_state [] sheet = Some nums0
  /\ next_number (scan_ids "TSK-" existing) = 6
  /\ r1.1 = "TSK-0003" /\ r2.1 = "TSK-0004" /\ r3.1 = "TSK-0005"
  /\ PStr r3.1 ∈ existing.
Proof.
  vm_compute. repeat split. apply list_elem_of_here.
Qed.

(** C10.  A chosen item whose title is missing, [None], empty or made of
    white space only is skipped: the state of the run, with both sheets
    and both identifier counters, is unchanged. *)
Theorem blank_title_skipped cfg today st item :
  (item !! "title" = None \/ item !! "title" = Some PNone
   \/ exists s, item !! "title" = Some (PStr s) /\ all_space s = true) ->
  import_item cfg today st item = Some st
  /\ forall rest,
       import_all cfg today st (item :: rest) = import_all cfg today st rest.
Proof.
  intros Htitle.
  assert (import_item cfg today st item = Some st) as Hskip.
  { unfold import_item, dict_get.
    destruct Htitle as [-> | [-> | (s & -> & Hs)]]; simpl; try done.
    unfold py_or. simpl. destruct (String.eqb_spec s "") as [->|Hne]; simpl; [done |].
    by rewrite (strip_all_space s Hs). }
  split; [done |]. intros rest. simpl. by rewrite Hskip.
Qed.

Lemma blank_title_skipped_witness :
  let st := mkState proposals0 [] ∅ [] "GSU-P-0004" [] 0 in
  let item : gmap string pyval := {[ "title" := PStr "   "; "id" := PStr "X-1" ]} in
  import_item cfg0 today0 st item = Some st
  /\ forall rest,
       import_all cfg0 today0 st (item :: rest) = import_all cfg0 today0 st rest.
Proof.
  apply blank_title_skipped. right. right. exists "   ". split; reflexivity.
Defined.

(** C5.  Whenever [prepare_rows] returns, it returns seven tasks whose due
    dates are, in this order, the dates 10, 9, 8, 8, 7, 7 and 7 days
    before the anchor, in ISO format; the anchor is the due date of the
    proposal (the close date, else the posted date) when there is one and
    today plus 30 days otherwise.  For the due date 2025-06-30 the due
    dates of the tasks are 2025-06-20, 21, 22, 22, 23, 23, 23. *)
Theorem seven_tasks_before_anchor item cfg pid today row tasks :
  prepare_rows item cfg pid today = Some (row, tasks) ->
  exists close posted anchor ds,
    parse_date (dict_get_or item "close_date" (PStr "")) = Some close
    /\ parse_date (dict_get_or item "posted_date" (PStr "")) = Some posted
    /\ (let due := match close with Some d => Some d | None => posted end in
        match due with
        | Some d => anchor = d
        | None => add_days today 30 = Some anchor
        end
        /\ row !! 11%nat = Some (PStr (opt_iso due)))
    /\ length tasks = 7%nat
    /\ task_due <$> tasks = isoformat <$> ds
    /\ Some <$> ds = sub_days anchor <$> [10; 9; 8; 8; 7; 7; 7]
    /\ toordinal <$> ds = (λ n, toordinal anchor - n) <$> [10; 9; 8; 8; 7; 7; 7]
    /\ (anchor = mk 2025 6 30 ->
        task_due <$> tasks
        = ["2025-06-20"; "2025-06-21"; "2025-06-22"; "2025-06-22";
           "2025-06-23"; "2025-06-23"; "2025-06-23"]).
Proof.
  intros H.
  destruct (prepare_rows_inv _ _ _ _ _ _ H)
    as (close & posted & anchor & d10 & d9 & d8 & d7
        & Hc & Hp & Hdue & _ & (E10 & E9 & E8 & E7) & Hdues).
  exists close, posted, anchor, [d10; d9; d8; d8; d7; d7; d7].
  split; [done |]. split; [done |]. split; [done |].
  split; [by rewrite <- (length_fmap task_due), Hdues |].
  split; [done |].
  split; [simpl; by rewrite E10, E9, E8, E7 |].
  split.
  - simpl. by rewrite (sub_days_ordinal _ _ _ E10), (sub_days_ordinal _ _ _ E9),
      (sub_days_ordinal _ _ _ E8), (sub_days_ordinal _ _ _ E7).
  - intros ->. rewrite Hdues.
    vm_compute in E10, E9, E8, E7.
    injection E10 as <-. injection E9 as <-. injection E8 as <-. injection E7 as <-.
    by vm_compute.
Qed.

Lemma seven_tasks_before_anchor_witness :
  exists row tasks,
    prepare_rows item0 cfg0 "GSU-P-0004" today0 = Some (row, tasks)
    /\ task_due <$> tasks
       = ["2025-06-20"; "2025-06-21"; "2025-06-22"; "2025-06-22";
          "2025-06-23"; "2025-06-23"; "2025-06-23"].
Proof.
  eexists _, _. split; [vm_compute; reflexivity |].
  destruct (seven_tasks_before_anchor item0 cfg0 "GSU-P-0004" today0 _ _ eq_refl)
    as (close & posted & anchor & ds & Hc & _ & [Hdue _] & _ & _ & _ & _ & H630).
  vm_compute in Hc. injection Hc as <-. simpl in Hdue. subst anchor.
  exact (H630 eq_refl).
Defined.

(** C8, as the program has it.  For a non-empty agency string the sponsor
    type is "Federal" when a federal keyword occurs in the lower-cased
    string, otherwise "State" when "board of regents" or "state" occurs,
    and "Nonprofit" otherwise; for the empty string it is the empty
    string. *)
Theorem sponsor_type_rules agency :
  agency <> "" ->
  let low := lower agency in
  let federal := exists k, k ∈ FEDERAL_KEYS /\ substring k low in
  let state := substring "board of regents" low \/ substring "state" low in
  (federal -> sponsor_type_from_agency agency = "Federal")
  /\ (~ federal -> state -> sponsor_type_from_agency agency = "State")
  /\ (~ federal -> ~ state -> sponsor_type_from_agency agency = "Nonprofit")
  /\ sponsor_type_from_agency "" = "".
Proof.
  intros Hne low federal state.
  assert (sponsor_type_from_agency "" = "") as Hempty by done.
  unfold sponsor_type_from_agency.
  apply String.eqb_neq in Hne. rewrite Hne. fold low.
  pose proof (existsb_contains FEDERAL_KEYS low) as Hfed. fold federal in Hfed.
  assert (contains "board of regents" low || contains "state" low = true <-> state)
    as Hstate.
  { rewrite orb_true_iff, !contains_spec. done. }
  destruct (existsb _ FEDERAL_KEYS).
  - assert federal as Hf by (by apply Hfed).
    split; [done |]. split; [done |]. split; [done |]. exact Hempty.
  - assert (~ federal) as Hnf by (intros Hf; by apply Hfed in Hf).
    destruct (_ || _).
    + assert state as Hs by (by apply Hstate).
      split; [done |]. split; [done |]. split; [done |]. exact Hempty.
    + assert (~ state) as Hns by (intros Hs; by apply Hstate in Hs).
      split; [done |]. split; [done |]. split; [done |]. exact Hempty.
Qed.

Lemma sponsor_type_rules_witness :
  sponsor_type_from_agency "Ford Foundation" = "Nonprofit"
  /\ sponsor_type_from_agency "Georgia State University" = "State"
  /\ sponsor_type_from_agency "Department of Energy" = "Federal".
Proof.
  split; [| split].
  - apply (sponsor_type_rules "Ford Foundation"); [discriminate | |].
    + intros (k & Hk & Hs). apply contains_spec in Hs.
      apply list_elem_of_In in Hk. simpl in Hk.
      repeat (destruct Hk as [<- | Hk]; [by vm_compute in Hs |]). done.
    + intros [Hs | Hs]; apply contains_spec in Hs; by vm_compute in Hs.
  - apply (sponsor_type_rules "Georgia State University"); [discriminate | |].
    + intros (k & Hk & Hs). apply contains_spec in Hs.
      apply list_elem_of_In in Hk. simpl in Hk.
      repeat (destruct Hk as [<- | Hk]; [by vm_compute in Hs |]). done.
    + right. apply contains_spec. by vm_compute.
  - apply (sponsor_type_rules "Department of Energy"); [discriminate |].
    exists "department of". split.
    + apply list_elem_of_In. simpl. tauto.
    + apply contains_spec. by vm_compute.
Defined.

(** C8 as stated fails at the empty agency string, for which the program
    returns the empty string and not "Nonprofit". *)
Lemma sponsor_type_empty_agency :
  ~ (exists k, k ∈ FEDERAL_KEYS /\ substring k (lower ""))
  /\ ~ (substring "board of regents" (lower "") \/ substring "state" (lower ""))
  /\ sponsor_type_from_agency "" <> "Nonprofit".
Proof.
  split; [| split].
  - intros (k & Hk & Hs). apply contains_spec in Hs.
    apply list_elem_of_In in Hk. simpl in Hk.
    repeat (destruct Hk as [<- | Hk]; [by vm_compute in Hs |]). done.
  - intros [Hs | Hs]; apply contains_spec in Hs; by vm_compute in Hs.
  - by vm_compute.
Qed.

End SyncSpec.

(** ** The harvester *)

Module HarvestFacts.

Import Py Date Harvest PyFacts.

(** *** Instants *)

Lemma delta_days_until (d : date) (now : datetime) :
  0 <= dt_us now < US_PER_DAY ->
  delta_days (midnight d) now
  = toordinal d - toordinal (dt_date now) - (if dt_us now =? 0 then 0 else 1).
Proof.
  intros Hus. unfold delta_days, to_us, midnight. simpl.
  unfold US_PER_DAY in *.
  destruct (Z.eqb_spec (dt_us now) 0) as [E|E].
  - rewrite E. symmetry. apply Z.div_unique with (r := 0); lia.
  - symmetry. apply Z.div_unique with (r := 86400 * 1000000 - dt_us now); lia.
Qed.

Lemma delta_days_since (d : date) (now : datetime) :
  0 <= dt_us now < US_PER_DAY ->
  delta_days now (midnight d) = toordinal (dt_date now) - toordinal d.
Proof.
  intros Hus. unfold delta_days, to_us, midnight. simpl.
  unfold US_PER_DAY in *. symmetry.
  apply Z.div_unique with (r := dt_us now); lia.
Qed.

Lemma delta_days_between (a b : datetime) :
  0 <= dt_us a < US_PER_DAY -> 0 <= dt_us b < US_PER_DAY ->
  delta_days a b
  = toordinal (dt_date a) - toordinal (dt_date b)
    - (if dt_us b <=? dt_us a then 0 else 1).
Proof.
  intros Ha Hb. unfold delta_days, to_us. unfold US_PER_DAY in *.
  destruct (Z.leb_spec (dt_us b) (dt_us a)).
  - symmetry. apply Z.div_unique with (r := dt_us a - dt_us b); lia.
  - symmetry.
    apply Z.div_unique with (r := 86400 * 1000000 + dt_us a - dt_us b); lia.
Qed.

(** *** The score as a sum *)

Lemma fold_hits (text : string) (keywords : list string) (a : Z) :
  fold_left (λ score kw, if contains (lower kw) text then score + 10 else score)
    keywords a
  = a + 10 * keyword_hits keywords text.
Proof.
  unfold keyword_hits. revert a.
  induction keywords as [|kw kws IH]; intros a; simpl; [lia |].
  rewrite IH. rewrite filter_cons.
  destruct (contains (lower kw) text) eqn:E.
  - rewrite decide_True by done. simpl length. lia.
  - rewrite decide_False by done. lia.
Qed.

Lemma score_item_sum item keywords now :
  score_item item keywords now
  = 10 * keyword_hits keywords (item_text item)
    + (if search_word "HBCU" (item_text item) then 20 else 0)
    + (if search_word "MSI" (item_text item) then 15 else 0)
    + close_date_boost item now.
Proof.
  unfold score_item. rewrite fold_hits.
  destruct (search_word "HBCU" _), (search_word "MSI" _); lia.
Qed.

Lemma keyword_hits_mono (keywords : list string) (text text' : string) :
  (forall kw, kw ∈ keywords ->
     contains (lower kw) text = true -> contains (lower kw) text' = true) ->
  keyword_hits keywords text <= keyword_hits keywords text'.
Proof.
  unfold keyword_hits. induction keywords as [|kw kws IH]; intros H; [done |].
  rewrite !filter_cons.
  assert (Z.of_nat (length (filter (λ kw, contains (lower kw) text = true) kws))
          <= Z.of_nat (length (filter (λ kw, contains (lower kw) text' = true) kws)))
    as IH'.
  { apply IH. intros k Hk. apply H. by apply list_elem_of_further. }
  specialize (H kw (list_elem_of_here _ _)).
  destruct (decide (contains (lower kw) text = true)) as [E|E].
  - rewrite decide_True by by apply H. simpl length. lia.
  - destruct (decide (contains (lower kw) text' = true)); simpl length; lia.
Qed.

Lemma keyword_hits_nonneg keywords text : 0 <= keyword_hits keywords text.
Proof. unfold keyword_hits. lia. Qed.

Lemma urgency_boost_range d : 0 <= urgency_boost d <= 10.
Proof.
  unfold urgency_boost.
  destruct (_ && _); [lia |]. destruct (_ && _); lia.
Qed.

(** The text blob and the de-duplication key do not depend on the fields
    [close_date] and [hbcu_msi_score]. *)
Lemma item_text_delete_close_date item :
  item_text (delete "close_date" item) = item_text item.
Proof.
  unfold item_text, dict_get_or. simpl.
  by rewrite !lookup_delete_ne.
Qed.

Lemma close_date_boost_delete item now :
  close_date_boost (delete "close_date" item) now = 0.
Proof.
  unfold close_date_boost, dict_get. by rewrite lookup_delete_eq.
Qed.

(** *** De-duplication *)

Lemma dedup_loop_acc seen acc l :
  dedup_loop seen acc l = acc ++ dedup_loop seen [] l.
Proof.
  revert seen acc. induction l as [|i l IH]; intros seen acc; simpl.
  - by rewrite app_nil_r.
  - destruct (decide (dedup_key i ∈ seen)); [apply IH |].
    rewrite (IH _ (acc ++ [i])), (IH _ [i]). by rewrite <- app_assoc.
Qed.

Lemma dedup_loop_filter (k : pyval) seen l :
  filter (λ x, dedup_key x = k) (dedup_loop seen [] l)
  = if decide (k ∈ seen) then []
    else firstn 1 (filter (λ x, dedup_key x = k) l).
Proof.
  revert seen. induction l as [|i l IH]; intros seen; simpl.
  - by destruct (decide (k ∈ seen)).
  - destruct (decide (dedup_key i ∈ seen)) as [Hi|Hi].
    + rewrite IH. destruct (decide (k ∈ seen)) as [Hk|Hk]; [done |].
      rewrite filter_cons, decide_False; [done |]. congruence.
    + rewrite dedup_loop_acc, filter_app, IH, filter_cons, (filter_cons _ i l).
      destruct (decide (dedup_key i = k)) as [<-|Hne].
      * rewrite decide_True
          by (apply elem_of_union; left; by apply elem_of_singleton).
        rewrite (decide_False (P := _ ∈ seen)) by done. done.
      * rewrite filter_nil. simpl.
        destruct (decide (k ∈ seen)) as [Hk|Hk].
        -- rewrite decide_True by (apply elem_of_union; by right). done.
        -- rewrite decide_False; [done |].
           intros [Hin|Hin]%elem_of_union; [| done].
           apply elem_of_singleton in Hin. congruence.
Qed.

Lemma dedup_loop_sublist seen l : dedup_loop seen [] l `sublist_of` l.
Proof.
  revert seen. induction l as [|i l IH]; intros seen; simpl; [constructor |].
  destruct (decide (dedup_key i ∈ seen)).
  - apply sublist_cons, IH.
  - rewrite dedup_loop_acc. simpl. apply sublist_skip, IH.
Qed.

(** *** The stable descending sort *)

Section sort.
Context {A : Type} (key : A -> Z).

Lemma insert_desc_perm x l : insert_desc key x l ≡ₚ x :: l.
Proof.
  induction l as [|y l IH]; simpl; [done |].
  destruct (key x <? key y); [| done].
  rewrite IH. apply Permutation_swap.
Qed.

Lemma sort_desc_perm l : sort_desc key l ≡ₚ l.
Proof.
  induction l as [|x l IH]; simpl; [done |].
  by rewrite insert_desc_perm, IH.
Qed.

Lemma insert_desc_sorted x l :
  StronglySorted (λ a b, key b <= key a) l ->
  StronglySorted (λ a b, key b <= key a) (insert_desc key x l).
Proof.
  induction 1 as [|y l Hl IH Hy]; simpl.
  - repeat constructor.
  - destruct (Z.ltb_spec (key x) (key y)) as [Hlt|Hge].
    + constructor; [done |]. rewrite insert_desc_perm.
      constructor; [lia | done].
    + constructor; [by constructor |].
      constructor; [done |].
      eapply Forall_impl; [exact Hy |]. simpl. intros z Hz. lia.
Qed.

Lemma sort_desc_sorted l :
  StronglySorted (λ a b, key b <= key a) (sort_desc key l).
Proof.
  induction l as [|x l IH]; simpl; [constructor |].
  by apply insert_desc_sorted.
Qed.

Lemma insert_desc_filter (s : Z) x l :
  filter (λ a, key a = s) (insert_desc key x l)
  = filter (λ a, key a = s) (x :: l).
Proof.
  induction l as [|y l IH]; simpl; [done |].
  destruct (Z.ltb_spec (key x) (key y)) as [Hlt|Hge]; [| done].
  rewrite (filter_cons _ y), IH, !filter_cons.
  destruct (decide (key y = s)), (decide (key x = s)); try done. lia.
Qed.

Lemma sort_desc_stable (s : Z) l :
  filter (λ a, key a = s) (sort_desc key l) = filter (λ a, key a = s) l.
Proof.
  induction l as [|x l IH]; simpl; [done |].
  by rewrite insert_desc_filter, !filter_cons, IH.
Qed.
End sort.

(** *** Appending text at the end of the blob *)

Lemma startswith_nocase_app (w a x rest : string) :
  startswith_nocase w a = Some rest ->
  startswith_nocase w (a +:+ x) = Some (rest +:+ x).
Proof.
  revert a. induction w as [|c w IH]; intros a; simpl.
  - by intros [= ->].
  - destruct a as [|d a]; [done |]. rewrite sapp_cons.
    destruct (decide (lower_char c = lower_char d)); [apply IH | done].
Qed.

Lemma boundary_after_app (rest b : string) :
  boundary_after rest = true -> boundary_after (rest +:+ String " " b) = true.
Proof. destruct rest; [done |]. by rewrite sapp_cons. Qed.

Lemma search_word_from_app (prev : bool) (w a b : string) :
  search_word_from prev w a = true ->
  search_word_from prev w (a +:+ " " +:+ b) = true.
Proof.
  revert prev. induction a as [|c a IH]; intros prev.
  - simpl. rewrite orb_false_r. intros H.
    apply andb_true_iff in H as [Hp H].
    destruct (startswith_nocase w "") as [rest|] eqn:E; [| done].
    rewrite sapp_nil_l. cbn [search_word_from].
    rewrite Hp. change (String " " b) with ("" +:+ String " " b).
    rewrite (startswith_nocase_app w "" _ rest E).
    by rewrite boundary_after_app.
  - rewrite sapp_cons. cbn [search_word_from].
    intros [H|H]%orb_true_iff; apply orb_true_iff.
    + left. apply andb_true_iff in H as [Hp H]. rewrite Hp. simpl.
      destruct (startswith_nocase w (String c a)) as [rest|] eqn:E; [| done].
      rewrite <- sapp_cons. rewrite (startswith_nocase_app w _ _ rest E).
      by apply boundary_after_app.
    + right. by apply IH.
Qed.

End HarvestFacts.

(** ** Properties of the harvester *)

Module HarvestSpec.

Import Py Date Harvest Examples PyFacts DateFacts IsoFacts HarvestFacts.

Lemma take_length_le (n : nat) (s : string) :
  (String.length (take n s) <= String.length s)%nat.
Proof.
  revert s. induction n as [|n IH]; intros [|c s]; simpl; try lia.
  specialize (IH s). lia.
Qed.

Lemma urgency_boost_spec (d : Z) :
  (0 <= d <= 30 -> urgency_boost d = 10)
  /\ (31 <= d <= 60 -> urgency_boost d = 5)
  /\ (d < 0 \/ 60 < d -> urgency_boost d = 0).
Proof.
  unfold urgency_boost.
  destruct (Z.leb_spec 0 d), (Z.leb_spec d 30), (Z.leb_spec 31 d),
    (Z.leb_spec d 60); simpl; lia.
Qed.

Lemma close_date_boost_parsed item now s cdt :
  dict_get item "close_date" = PStr s ->
  fromisoformat (take 10 s) = Some cdt ->
  close_date_boost item now = urgency_boost (delta_days cdt now).
Proof.
  intros Hcd Hparse. unfold close_date_boost. rewrite Hcd.
  unfold truthy, as_str.
  destruct (String.eqb_spec s "") as [->|_]; [done |].
  cbn [negb]. by rewrite Hparse.
Qed.

(** C2, as the program has it.  For a close date whose first ten
    characters [datetime.fromisoformat] reads, the scorer adds the boost
    of [days_left], the number of whole days from the current instant to
    the instant read: with [D] the difference of the two calendar dates,
    [days_left] is [D] when the time of the day now is not after the time
    read, and [D - 1] otherwise.  The boost is 10 for
    [0 <= days_left <= 30], 5 for [31 <= days_left <= 60] and 0 otherwise;
    for [D] equal to 15, 45, 90 and -5 it is 10, 5, 0 and 0 at every time
    of the day.  A close date that starts with the ISO form [YYYY-MM-DD]
    of a date of the calendar is read as the midnight of that date:
    [days_left] is then [D] at midnight sharp and [D - 1] otherwise. *)
Theorem urgency_boost_by_instant item keywords now s :
  wf_datetime now ->
  dict_get item "close_date" = PStr s ->
  (forall cdt, fromisoformat (take 10 s) = Some cdt ->
     let D := toordinal (dt_date cdt) - toordinal (dt_date now) in
     let days_left := if dt_us now <=? dt_us cdt then D else D - 1 in
     delta_days cdt now = days_left
     /\ score_item item keywords now
        = score_item (delete "close_date" item) keywords now
          + urgency_boost days_left
     /\ (0 <= days_left <= 30 -> urgency_boost days_left = 10)
     /\ (31 <= days_left <= 60 -> urgency_boost days_left = 5)
     /\ (days_left < 0 \/ 60 < days_left -> urgency_boost days_left = 0)
     /\ (D = 15 -> urgency_boost days_left = 10)
     /\ (D = 45 -> urgency_boost days_left = 5)
     /\ (D = 90 -> urgency_boost days_left = 0)
     /\ (D = -5 -> urgency_boost days_left = 0))
  /\ (forall d rest,
        valid (year d) (month d) (day d) = true -> s = isoformat d +:+ rest ->
        let D := toordinal d - toordinal (dt_date now) in
        score_item item keywords now
        = score_item (delete "close_date" item) keywords now
          + urgency_boost (if dt_us now =? 0 then D else D - 1)).
Proof.
  intros [_ Hus] Hcd.
  assert (forall cdt, fromisoformat (take 10 s) = Some cdt ->
            delta_days cdt now
            = (if dt_us now <=? dt_us cdt
               then toordinal (dt_date cdt) - toordinal (dt_date now)
               else toordinal (dt_date cdt) - toordinal (dt_date now) - 1)
            /\ score_item item keywords now
               = score_item (delete "close_date" item) keywords now
                 + urgency_boost (delta_days cdt now)) as Hgen.
  { intros cdt Hparse.
    destruct (fromisoformat_wf _ _ Hparse) as [[_ Hc] _]. split.
    - rewrite (delta_days_between cdt now Hc Hus).
      destruct (dt_us now <=? dt_us cdt); lia.
    - rewrite !score_item_sum, item_text_delete_close_date, close_date_boost_delete.
      rewrite (close_date_boost_parsed item now s cdt Hcd Hparse). lia. }
  split.
  - intros cdt Hparse D days_left.
    destruct (Hgen cdt Hparse) as [Hdelta Hsum]. fold D in Hdelta.
    fold days_left in Hdelta. rewrite Hdelta in Hsum.
    destruct (urgency_boost_spec days_left) as (H10 & H5 & H0).
    split; [done |]. split; [done |]. split; [done |]. split; [done |].
    split; [done |].
    unfold days_left in *. destruct (dt_us now <=? dt_us cdt).
    + split; [intros; apply H10; lia |]. split; [intros; apply H5; lia |].
      split; intros; apply H0; lia.
    + split; [intros; apply H10; lia |]. split; [intros; apply H5; lia |].
      split; intros; apply H0; lia.
  - intros d rest Hvalid -> D.
    destruct (Hgen (midnight d)) as [Hdelta ->];
      [by apply fromisoformat_isoformat |].
    rewrite Hdelta. simpl. fold D. do 2 f_equal.
    destruct (Z.leb_spec (dt_us now) 0), (Z.eqb_spec (dt_us now) 0); lia.
Qed.

Lemma urgency_boost_by_instant_witness :
  let item : gmap string pyval :=
    {[ "title" := PStr "Research grants"; "close_date" := PStr "2025-06-30T17:00:00" ]} in
  let basic : gmap string pyval := {[ "close_date" := PStr "20250630" ]} in
  let week : gmap string pyval := {[ "close_date" := PStr "2025W27T07" ]} in
  score_item item ["grants"] now0
  = score_item (delete "close_date" item) ["grants"] now0 + 10
  /\ score_item basic [] now0 = score_item (delete "close_date" basic) [] now0 + 10
  /\ delta_days (mkdt (mk 2025 6 30) (7 * US_PER_HOUR)) now0 = 14
  /\ score_item week [] now0 = score_item (delete "close_date" week) [] now0 + 10.
Proof.
  intros item basic week.
  assert (wf_datetime now0) as Hwf by (split; [reflexivity | unfold US_PER_DAY; simpl; lia]).
  split; [| split].
  - destruct (urgency_boost_by_instant item ["grants"] now0 "2025-06-30T17:00:00"
                Hwf eq_refl) as [_ Hiso].
    rewrite (Hiso (mk 2025 6 30) "T17:00:00" eq_refl eq_refl). reflexivity.
  - destruct (urgency_boost_by_instant basic [] now0 "20250630" Hwf eq_refl)
      as [Hgen _].
    destruct (Hgen (midnight (mk 2025 6 30)) ltac:(vm_compute; reflexivity))
      as (_ & Hsum & _ & _ & _ & H15 & _).
    rewrite Hsum. rewrite H15 by reflexivity. reflexivity.
  - destruct (urgency_boost_by_instant week [] now0 "2025W27T07" Hwf eq_refl)
      as [Hgen _].
    destruct (Hgen (mkdt (mk 2025 6 30) (7 * US_PER_HOUR))
                ltac:(vm_compute; reflexivity))
      as (Hdelta & Hsum & _ & _ & _ & H15 & _).
    split; [rewrite Hdelta; reflexivity |].
    rewrite Hsum. rewrite H15 by reflexivity. reflexivity.
Defined.

(** C2 as stated fails on the boundaries: with the close date equal to
    today's date (a calendar difference of 0 days) the scorer adds no
    boost at noon, and with a calendar difference of 31 days it adds 10,
    not 5. *)
Lemma urgency_boundary_counterexample :
  let now := noon (mk 2025 6 15) in
  let item0 : gmap string pyval := {[ "close_date" := PStr "2025-06-15" ]} in
  let item31 : gmap string pyval := {[ "close_date" := PStr "2025-07-16" ]} in
  fromisoformat (take 10 "2025-06-15") = Some (midnight (mk 2025 6 15))
  /\ toordinal (mk 2025 6 15) - toordinal (dt_date now) = 0
  /\ score_item item0 [] now = score_item (delete "close_date" item0) [] now
  /\ fromisoformat (take 10 "2025-07-16") = Some (midnight (mk 2025 7 16))
  /\ toordinal (mk 2025 7 16) - toordinal (dt_date now) = 31
  /\ score_item item31 [] now = score_item (delete "close_date" item31) [] now + 10.
Proof. by vm_compute. Qed.

(** C9, as the program has it.  The window check never raises on a
    string or on [None]; it answers "within range" for [None], for the
    empty string, for a string of fewer than seven characters and for a
    string whose first ten characters [datetime.fromisoformat] does not
    read; it answers "out of range" exactly when they are read and the
    instant read lies more than [days] whole days before the current
    instant.  A string that starts with the ISO form [YYYY-MM-DD] of a
    date of the calendar is read as that date, and so is the eight-digit
    form [YYYYMMDD], which has fewer than ten characters: such a string
    is out of range when the date lies more than [days] days before
    today's date. *)
Theorem within_days_lenient (s : string) (days : Z) (now : datetime) :
  wf_datetime now ->
  within_days PNone days now = Some true
  /\ within_days (PStr "") days now = Some true
  /\ ((String.length s < 7)%nat -> within_days (PStr s) days now = Some true)
  /\ (fromisoformat (take 10 s) = None -> within_days (PStr s) days now = Some true)
  /\ is_Some (within_days (PStr s) days now)
  /\ (within_days (PStr s) days now = Some false <->
      exists dt, fromisoformat (take 10 s) = Some dt /\ days < delta_days now dt)
  /\ (forall dt, fromisoformat (take 10 s) = Some dt ->
        delta_days now dt
        = toordinal (dt_date now) - toordinal (dt_date dt)
          - (if dt_us dt <=? dt_us now then 0 else 1))
  /\ (forall d rest,
        valid (year d) (month d) (day d) = true -> s = isoformat d +:+ rest ->
        within_days (PStr s) days now
        = Some (toordinal (dt_date now) - toordinal d <=? days))
  /\ (forall y1 y2 y3 y4 m1 m2 d1 d2 d,
        digit_chars [y1; y2; y3; y4; m1; m2; d1; d2] = true ->
        make (num [y1; y2; y3; y4]) (num [m1; m2]) (num [d1; d2]) = Some d ->
        s = string_of_list_ascii [y1; y2; y3; y4; m1; m2; d1; d2] ->
        within_days (PStr s) days now
        = Some (toordinal (dt_date now) - toordinal d <=? days)).
Proof.
  intros [_ Hus].
  assert (within_days (PStr s) days now
          = match fromisoformat (take 10 s) with
            | None => Some true
            | Some dt => Some (delta_days now dt <=? days)
            end) as Hw.
  { unfold within_days, truthy, as_str.
    destruct (String.eqb_spec s "") as [->|_]; [done |].
    cbn [negb mbind option_bind]. by destruct (fromisoformat (take 10 s)). }
  split; [done |]. split; [done |].
  split; [| split; [| split; [| split; [| split; [| split]]]]].
  - intros Hlen. rewrite Hw, fromisoformat_short; [done |].
    pose proof (take_length_le 10 s). lia.
  - intros E. by rewrite Hw, E.
  - rewrite Hw. destruct (fromisoformat (take 10 s)); by eexists.
  - rewrite Hw. destruct (fromisoformat (take 10 s)) as [d|]; split.
    + intros [= H]. exists d. split; [done |]. apply Z.leb_gt in H. lia.
    + intros (d' & [= <-] & H). f_equal. apply Z.leb_gt. lia.
    + done.
    + by intros (d' & ? & _).
  - intros dt Hparse. destruct (fromisoformat_wf _ _ Hparse) as [[_ Hc] _].
    by apply delta_days_between.
  - intros d rest Hvalid ->. rewrite Hw, fromisoformat_isoformat by done.
    by rewrite delta_days_since.
  - intros y1 y2 y3 y4 m1 m2 d1 d2 d Hdig Hmake ->. rewrite Hw.
    cbn [string_of_list_ascii take]. rewrite fromisoformat_basic by done.
    rewrite Hmake. simpl. by rewrite delta_days_since.
Qed.

Lemma within_days_lenient_witness :
  within_days (PStr "06/30/2025") 60 now0 = Some true
  /\ within_days (PStr "2025-6") 60 now0 = Some true
  /\ within_days (PStr "2025-01-01T00:00:00") 60 now0 = Some false
  /\ within_days (PStr "2025-06-01") 60 now0 = Some true.
Proof.
  assert (wf_datetime now0) as Hwf by (split; [reflexivity | unfold US_PER_DAY; simpl; lia]).
  split; [| split; [| split]].
  - destruct (within_days_lenient "06/30/2025" 60 now0 Hwf)
      as (_ & _ & _ & Hnone & _).
    apply Hnone. vm_compute. reflexivity.
  - destruct (within_days_lenient "2025-6" 60 now0 Hwf) as (_ & _ & Hshort & _).
    apply Hshort. simpl. lia.
  - destruct (within_days_lenient "2025-01-01T00:00:00" 60 now0 Hwf)
      as (_ & _ & _ & _ & _ & _ & _ & Hiso & _).
    rewrite (Hiso (mk 2025 1 1) "T00:00:00" eq_refl eq_refl). reflexivity.
  - destruct (within_days_lenient "2025-06-01" 60 now0 Hwf)
      as (_ & _ & _ & _ & _ & _ & _ & Hiso & _).
    rewrite (Hiso (mk 2025 6 1) "" eq_refl eq_refl). reflexivity.
Defined.

(** C9 as stated fails on dates of fewer than ten characters that
    [datetime.fromisoformat] reads: the eight characters [20250101] and
    the seven characters [2025W01] are read as dates, and both are out
    of a window of 60 days on 2025-06-15. *)
Lemma short_date_excluded :
  String.length "20250101" = 8%nat
  /\ fromisoformat (take 10 "20250101") = Some (midnight (mk 2025 1 1))
  /\ within_days (PStr "20250101") 60 now0 = Some false
  /\ String.length "2025W01" = 7%nat
  /\ fromisoformat (take 10 "2025W01") = Some (midnight (mk 2024 12 30))
  /\ within_days (PStr "2025W01") 60 now0 = Some false.
Proof. by vm_compute. Qed.

End HarvestSpec.

(** ** Properties of the scorer and of the ranking *)

Module RankSpec.

Import Py Date Harvest Examples PyFacts HarvestFacts HarvestSpec.

Lemma close_date_boost_ext item item' now :
  dict_get item' "close_date" = dict_get item "close_date" ->
  close_date_boost item' now = close_date_boost item now.
Proof. intros H. unfold close_date_boost. by rewrite H. Qed.

(** C6, as the program has it.  A change of the text of a record that
    keeps the close date, every keyword match and the whole-word matches
    of HBCU and MSI that the text already had, never decreases the score:
    the score is ten times the number of keywords that occur in the text,
    plus the flat boosts. *)
Theorem score_item_monotone item item' keywords now :
  dict_get item' "close_date" = dict_get item "close_date" ->
  (forall kw, kw ∈ keywords ->
     contains (lower kw) (item_text item) = true ->
     contains (lower kw) (item_text item') = true) ->
  (search_word "HBCU" (item_text item) = true ->
   search_word "HBCU" (item_text item') = true) ->
  (search_word "MSI" (item_text item) = true ->
   search_word "MSI" (item_text item') = true) ->
  score_item item keywords now <= score_item item' keywords now
  /\ score_item item' keywords now - score_item item keywords now
     >= 10 * (keyword_hits keywords (item_text item')
              - keyword_hits keywords (item_text item)).
Proof.
  intros Hcd Hkw Hh Hm. rewrite !score_item_sum.
  rewrite (close_date_boost_ext item item' now Hcd).
  pose proof (keyword_hits_mono keywords _ _ Hkw) as Hhits.
  destruct (search_word "HBCU" (item_text item)) eqn:E1;
    [rewrite (Hh eq_refl) | destruct (search_word "HBCU" (item_text item'))];
    (destruct (search_word "MSI" (item_text item)) eqn:E2;
       [rewrite (Hm eq_refl) | destruct (search_word "MSI" (item_text item'))]);
    lia.
Qed.

(** Text appended after a space to the last field of the blob keeps all
    the matches. *)
Lemma item_text_append_source item src extra :
  item !! "source" = Some (PStr src) ->
  item_text (<["source" := PStr (src +:+ " " +:+ extra)]> item)
  = item_text item +:+ " " +:+ lower extra.
Proof.
  intros Hsrc. unfold item_text, dict_get_or. simpl.
  rewrite !lookup_insert_ne by done. rewrite lookup_insert_eq, Hsrc. simpl.
  rewrite !lower_app, !sapp_assoc. done.
Qed.

Lemma score_item_monotone_witness :
  let item : gmap string pyval :=
    {[ "title" := PStr "Support for HBCU faculty"; "source" := PStr "NSF Funding" ]} in
  let item' := <["source" := PStr ("NSF Funding" +:+ " " +:+ "Tribal colleges")]> item in
  score_item item ["HBCU"; "Tribal"] now0 <= score_item item' ["HBCU"; "Tribal"] now0.
Proof.
  intros item item'.
  assert (item_text item' = item_text item +:+ " " +:+ lower "Tribal colleges") as Ht
    by (apply item_text_append_source; reflexivity).
  apply (score_item_monotone item item' ["HBCU"; "Tribal"] now0).
  - reflexivity.
  - intros kw _ H. rewrite Ht. by apply contains_app_l.
  - intros H. rewrite Ht. by apply search_word_from_app.
  - intros H. rewrite Ht. by apply search_word_from_app.
Defined.

(** C6 as stated fails: appending " Tribal" to the title adds a match
    of the keyword "Tribal" and removes the matches of the two keywords
    that spanned the end of the title and the start of the description. *)
Lemma score_item_not_monotone :
  let keywords := ["minority serving"; "minority serving institutions"; "Tribal"] in
  let item : gmap string pyval :=
    {[ "title" := PStr "minority"; "description" := PStr "serving institutions" ]} in
  let item' := <["title" := PStr ("minority" +:+ " Tribal")]> item in
  contains (lower "Tribal") (item_text item) = false
  /\ contains (lower "Tribal") (item_text item') = true
  /\ score_item item keywords now0 = 20
  /\ score_item item' keywords now0 = 10.
Proof. by vm_compute. Qed.

(** C7, as the program has it.  A whole-word match of HBCU adds a flat 20
    and one of MSI a flat 15, whatever the keywords.  Hence a record whose
    text has the whole word HBCU scores at least 20 more than a variant
    with the same close date and without that word, provided the variant
    has no keyword match and no whole-word MSI match that the record has
    not. *)
Theorem score_item_hbcu_bonus item item' keywords now :
  search_word "HBCU" (item_text item) = true ->
  search_word "HBCU" (item_text item') = false ->
  dict_get item' "close_date" = dict_get item "close_date" ->
  (forall kw, kw ∈ keywords ->
     contains (lower kw) (item_text item') = true ->
     contains (lower kw) (item_text item) = true) ->
  (search_word "MSI" (item_text item') = true ->
   search_word "MSI" (item_text item) = true) ->
  score_item item' keywords now + 20 <= score_item item keywords now
  /\ score_item item keywords now
     = 10 * keyword_hits keywords (item_text item) + 20
       + (if search_word "MSI" (item_text item) then 15 else 0)
       + close_date_boost item now.
Proof.
  intros Hh Hh' Hcd Hkw Hm. rewrite !score_item_sum, Hh, Hh'.
  rewrite (close_date_boost_ext item item' now Hcd).
  pose proof (keyword_hits_mono keywords _ _ Hkw) as Hhits.
  split; [| done].
  destruct (search_word "MSI" (item_text item')) eqn:E2;
    [rewrite (Hm eq_refl) | destruct (search_word "MSI" (item_text item))]; lia.
Qed.

Lemma score_item_hbcu_bonus_witness :
  let item : gmap string pyval := {[ "title" := PStr "Awards for HBCU and MSI faculty" ]} in
  let item' : gmap string pyval :=
    {[ "title" := PStr (remove_all "HBCU" "Awards for HBCU and MSI faculty") ]} in
  score_item item' ["HBCU"; "faculty"] now0 + 20 <= score_item item ["HBCU"; "faculty"] now0.
Proof.
  intros item item'.
  apply (score_item_hbcu_bonus item item' ["HBCU"; "faculty"] now0).
  - reflexivity.
  - reflexivity.
  - reflexivity.
  - intros kw Hkw H. apply list_elem_of_In in Hkw. simpl in Hkw.
    destruct Hkw as [<- | [<- | []]]; [by vm_compute in H | reflexivity].
  - intros _. reflexivity.
Defined.

(** C7 as stated fails: removing "HBCU" from "minority HBCU serving"
    leaves "minority  serving", which the keyword with two spaces matches;
    the record with HBCU scores 20 and the record without it 10. *)
Lemma hbcu_removal_counterexample :
  let keywords := ["minority  serving"] in
  let item : gmap string pyval := {[ "title" := PStr "minority HBCU serving" ]} in
  let item' : gmap string pyval :=
    {[ "title" := PStr (remove_all "HBCU" "minority HBCU serving") ]} in
  search_word "HBCU" (item_text item) = true
  /\ remove_all "HBCU" "minority HBCU serving" = "minority  serving"
  /\ score_item item keywords now0 = 20
  /\ score_item item' keywords now0 = 10
  /\ ~ (score_item item keywords now0 >= score_item item' keywords now0 + 20).
Proof.
  split; [by vm_compute |]. split; [by vm_compute |].
  split; [by vm_compute |]. split; [by vm_compute |].
  intros H. vm_compute in H. by apply H.
Qed.

(** *** De-duplication and ranking *)

Lemma dedup_key_url (x : gmap string pyval) (u : string) :
  u <> "" -> dict_get x "url" = PStr u -> dedup_key x = PStr u.
Proof.
  intros Hu Hx. unfold dedup_key, py_or. rewrite Hx. simpl.
  by destruct (String.eqb_spec u "").
Qed.

Lemma score_all_keys all_items keywords now :
  sort_key <$> score_all all_items keywords now
  = (λ i, score_item i keywords now) <$> all_items
  /\ dedup_key <$> score_all all_items keywords now = dedup_key <$> all_items
  /\ (λ x, dict_get x "url") <$> score_all all_items keywords now
     = (λ x, dict_get x "url") <$> all_items.
Proof.
  unfold score_all. rewrite <- !list_fmap_compose.
  split; [| split]; apply list_fmap_ext; intros i x _; simpl.
  - unfold sort_key, dict_get_or. by rewrite lookup_insert_eq.
  - unfold dedup_key, dict_get. by rewrite !lookup_insert_ne.
  - unfold dict_get. by rewrite lookup_insert_ne.
Qed.

Lemma filter_ext_elem {A} (P Q : A -> Prop)
    `{!forall x, Decision (P x), !forall x, Decision (Q x)} (l : list A) :
  (forall x, x ∈ l -> P x <-> Q x) -> filter P l = filter Q l.
Proof.
  induction l as [|a l IH]; intros Hpq; [done |].
  rewrite !filter_cons.
  rewrite IH by (intros x Hx; apply Hpq; by apply list_elem_of_further).
  specialize (Hpq a (list_elem_of_here _ _)).
  destruct (decide (P a)), (decide (Q a)); tauto.
Qed.

Lemma filter_all {A} (P : A -> Prop) `{!forall x, Decision (P x)} (l : list A) :
  Forall P l -> filter P l = l.
Proof.
  induction 1 as [|a l Ha Hl IH]; [done |].
  by rewrite filter_cons, decide_True, IH.
Qed.

(** C3, as the program has it.  De-duplication keeps, for every key (the
    url when present, else the id), exactly the first record of the scored
    list with that key, in the order of the list.  So of the records with
    one and the same present url no other than the first encountered is
    written out, and that one is written out when no record without url
    has the same string as its id.  The survivors are then sorted by
    score, highest first, and records of equal score keep their relative
    order. *)
Theorem dedup_first_then_stable_sort all_items keywords now :
  let scored := score_all all_items keywords now in
  let deduped := dedup scored in
  let ranked := rank all_items keywords now in
  deduped `sublist_of` scored
  /\ (forall k, filter (λ x, dedup_key x = k) deduped
                = firstn 1 (filter (λ x, dedup_key x = k) scored))
  /\ (forall u r, u <> "" -> r ∈ ranked -> dict_get r "url" = PStr u ->
        head (filter (λ x, dict_get x "url" = PStr u) scored) = Some r
        /\ filter (λ x, dict_get x "url" = PStr u) ranked = [r])
  /\ (forall u, u <> "" ->
        (forall x, x ∈ scored -> dedup_key x = PStr u -> dict_get x "url" = PStr u) ->
        filter (λ x, dict_get x "url" = PStr u) ranked
        = firstn 1 (filter (λ x, dict_get x "url" = PStr u) scored))
  /\ ranked ≡ₚ deduped
  /\ StronglySorted (λ a b, sort_key b <= sort_key a) ranked
  /\ (forall s, filter (λ x, sort_key x = s) ranked
                = filter (λ x, sort_key x = s) deduped)
  /\ sort_key <$> scored = (λ i, score_item i keywords now) <$> all_items.
Proof.
  intros scored deduped ranked.
  assert (forall k, filter (λ x, dedup_key x = k) deduped
                    = firstn 1 (filter (λ x, dedup_key x = k) scored)) as Hfirst.
  { intros k. unfold deduped, dedup. rewrite dedup_loop_filter.
    rewrite decide_False; [done |]. apply not_elem_of_empty. }
  assert (ranked ≡ₚ deduped) as Hperm by apply sort_desc_perm.
  assert (forall u, u <> "" -> forall l : list (gmap string pyval),
            filter (λ x, dict_get x "url" = PStr u) l
            = filter (λ x, dict_get x "url" = PStr u)
                (filter (λ x, dedup_key x = PStr u) l)) as Hsub.
  { intros u Hu l. rewrite list_filter_filter. apply list_filter_iff.
    intros x. split; [| tauto]. intros Hx. split; [done |]. by apply dedup_key_url. }
  split; [apply dedup_loop_sublist |]. split; [done |].
  split; [| split; [| split; [done |]; split; [apply sort_desc_sorted |];
            split; [intros s; apply sort_desc_stable | apply score_all_keys]]].
  - intros u r Hu Hr Hurl.
    pose proof (dedup_key_url r u Hu Hurl) as Hkey.
    assert (r ∈ deduped) as Hrd by (by rewrite <- Hperm).
    assert (filter (λ x, dedup_key x = PStr u) deduped = [r]) as Hone.
    { assert (r ∈ filter (λ x, dedup_key x = PStr u) deduped) as Hin
        by (by apply list_elem_of_filter).
      rewrite Hfirst in Hin |- *.
      destruct (filter (λ x, dedup_key x = PStr u) scored) as [|y ys]; simpl in *.
      - by apply elem_of_nil in Hin.
      - apply list_elem_of_singleton in Hin. by subst. }
    split.
    + rewrite (Hsub u Hu). rewrite Hfirst in Hone.
      destruct (filter (λ x, dedup_key x = PStr u) scored) as [|y ys];
        simpl in Hone; [done |].
      injection Hone as ->. rewrite filter_cons. by rewrite decide_True.
    + apply Permutation_singleton_r.
      by rewrite Hperm, (Hsub u Hu), Hone, filter_cons, decide_True.
  - intros u Hu Hid.
    assert (filter (λ x, dedup_key x = PStr u) scored
            = filter (λ x, dict_get x "url" = PStr u) scored) as Hsame.
    { apply filter_ext_elem. intros x Hx. split; [by apply Hid |].
      by apply dedup_key_url. }
    assert (filter (λ x, dict_get x "url" = PStr u) ranked
            ≡ₚ firstn 1 (filter (λ x, dict_get x "url" = PStr u) scored)) as Hp.
    { rewrite Hperm, (Hsub u Hu deduped), Hfirst, Hsame.
      rewrite filter_all; [done |]. apply Forall_take, Forall_forall.
      intros x Hx. by apply list_elem_of_filter in Hx as [? _]. }
    destruct (filter (λ x, dict_get x "url" = PStr u) scored) as [|y ys];
      simpl in Hp |- *.
    + by apply Permutation_nil_r.
    + by apply Permutation_singleton_r.
Qed.

(** C3 as stated fails when a record without url has, as its id, the url
    of a later record: the later record is the first, and the only one,
    with that url, and it is not written out. *)
Lemma first_url_record_dropped :
  let a : gmap string pyval :=
    {[ "title" := PStr "Notice of funding"; "url" := PStr "";
       "id" := PStr "https://example.org/n1" ]} in
  let b : gmap string pyval :=
    {[ "title" := PStr "Notice of funding (feed)";
       "url" := PStr "https://example.org/n1"; "id" := PStr "feed-17" ]} in
  (λ x, dict_get x "url") <$> score_all [a; b] [] now0
  = [PStr ""; PStr "https://example.org/n1"]
  /\ dedup_key <$> score_all [a; b] [] now0
     = [PStr "https://example.org/n1"; PStr "https://example.org/n1"]
  /\ (λ x, dict_get x "url") <$> rank [a; b] [] now0 = [PStr ""].
Proof. by vm_compute. Qed.

End RankSpec.

(** ** Further facts on the harvester *)

Module HarvestMore.

Import Py Date Harvest Examples PyFacts HarvestFacts StringFacts.

(** *** Keyword lists *)

Lemma contains_app_r (n a b : string) :
  contains n b = true -> contains n (a +:+ b) = true.
Proof.
  rewrite !contains_spec. intros (pre & post & ->).
  exists (a +:+ pre), post. by rewrite sapp_assoc.
Qed.

Lemma keyword_hits_le keywords text :
  keyword_hits keywords text <= Z.of_nat (length keywords).
Proof.
  unfold keyword_hits.
  pose proof (length_filter (λ kw, contains (lower kw) text = true) keywords). lia.
Qed.

Lemma keyword_hits_lower keywords text :
  keyword_hits (lower <$> keywords) text = keyword_hits keywords text.
Proof.
  unfold keyword_hits. induction keywords as [|kw kws IH]; [done |].
  rewrite fmap_cons, !filter_cons, lower_idem.
  destruct (decide (contains (lower kw) text = true)); simpl length; lia.
Qed.

Lemma keyword_hits_exists keywords text :
  existsb (λ kw, contains (lower kw) text) keywords = true ->
  1 <= keyword_hits keywords text.
Proof.
  unfold keyword_hits. induction keywords as [|kw kws IH]; simpl; [done |].
  rewrite filter_cons. intros [H|H]%orb_true_iff.
  - rewrite decide_True by done. simpl length. lia.
  - specialize (IH H). destruct (decide _); simpl length; lia.
Qed.

(** X1.  The score is between 0 and ten times the number of keywords plus the
    three flat boosts. *)
Theorem score_item_bounds item keywords now :
  0 <= score_item item keywords now <= 10 * Z.of_nat (length keywords) + 45.
Proof.
  rewrite score_item_sum.
  pose proof (keyword_hits_nonneg keywords (item_text item)).
  pose proof (keyword_hits_le keywords (item_text item)).
  assert (0 <= close_date_boost item now <= 10) as Hb.
  { unfold close_date_boost. destruct (truthy _); [| lia].
    destruct (as_str _); [| lia]. destruct (fromisoformat _); [| lia].
    apply urgency_boost_range. }
  destruct (search_word "HBCU" _), (search_word "MSI" _); lia.
Qed.

(** X2.  The case of the keywords does not matter. *)
Theorem score_item_keyword_case item keywords now :
  score_item item (lower <$> keywords) now = score_item item keywords now.
Proof. by rewrite !score_item_sum, keyword_hits_lower. Qed.

(** *** Fields that the scorer does not read *)

Lemma item_text_insert_other item k v :
  k ∉ TEXT_FIELDS -> item_text (<[k := v]> item) = item_text item.
Proof.
  intros Hk. unfold item_text. f_equal. f_equal.
  apply Forall_fmap_ext, Forall_forall. intros f Hf.
  unfold dict_get_or. rewrite lookup_insert_ne; [done |]. by intros ->.
Qed.

Lemma close_date_boost_insert_other item k v now :
  k <> "close_date" ->
  close_date_boost (<[k := v]> item) now = close_date_boost item now.
Proof.
  intros Hk. unfold close_date_boost, dict_get. by rewrite lookup_insert_ne.
Qed.

(** X3.  A field other than the five text fields and [close_date] has no
    influence on the score. *)
Theorem score_item_other_field item k v keywords now :
  k ∉ TEXT_FIELDS -> k <> "close_date" ->
  score_item (<[k := v]> item) keywords now = score_item item keywords now.
Proof.
  intros Hk Hc.
  by rewrite !score_item_sum, item_text_insert_other, close_date_boost_insert_other.
Qed.

Lemma score_item_other_field_witness :
  score_item (<["url" := PStr "https://example.org/x"]> item0) ["HBCU"] now0
  = score_item item0 ["HBCU"] now0.
Proof.
  apply score_item_other_field.
  - intros H. apply list_elem_of_In in H. simpl in H.
    repeat (destruct H as [H | H]; [discriminate |]). done.
  - discriminate.
Defined.

Lemma score_key_not_text : "hbcu_msi_score" ∉ TEXT_FIELDS.
Proof.
  intros H. apply list_elem_of_In in H. simpl in H.
  repeat (destruct H as [H | H]; [discriminate |]). done.
Qed.

Lemma score_fixed item keywords now :
  let f := λ itm : gmap string pyval,
             <["hbcu_msi_score" := PInt (score_item itm keywords now)]> itm in
  f (f item) = f item.
Proof.
  intros f. unfold f.
  rewrite !score_item_sum, item_text_insert_other by apply score_key_not_text.
  rewrite close_date_boost_insert_other by done.
  by rewrite insert_insert_eq.
Qed.

Lemma fmap_fixed {A} (f : A -> A) (l : list A) :
  Forall (λ x, f x = x) l -> f <$> l = l.
Proof. induction 1 as [|x l Hx Hl IH]; [done |]. by rewrite fmap_cons, Hx, IH. Qed.

Lemma score_all_fixed l keywords now :
  Forall (λ x, <["hbcu_msi_score" := PInt (score_item x keywords now)]> x = x)
    (score_all l keywords now).
Proof.
  unfold score_all. apply Forall_fmap, Forall_forall. intros x _. simpl.
  apply (score_fixed x keywords now).
Qed.

(** *** Keys of the de-duplicated list *)

Lemma dedup_loop_keys seen l (k : pyval) :
  k ∈ dedup_key <$> dedup_loop seen [] l <-> k ∈ dedup_key <$> l /\ k ∉ seen.
Proof.
  revert seen. induction l as [|i l IH]; intros seen; simpl.
  - split; [by intros ?%elem_of_nil | by intros [?%elem_of_nil _]].
  - destruct (decide (dedup_key i ∈ seen)) as [Hi|Hi].
    + rewrite IH, elem_of_cons. split; [tauto |].
      intros [[->|?] ?]; [done | tauto].
    + rewrite dedup_loop_acc. simpl. rewrite !elem_of_cons, IH.
      rewrite elem_of_union, elem_of_singleton.
      split; [intros [->|[? ?]]; tauto |].
      intros [[->|?] ?]; [tauto |].
      destruct (decide (k = dedup_key i)); tauto.
Qed.

Lemma dedup_loop_nodup seen l : NoDup (dedup_key <$> dedup_loop seen [] l).
Proof.
  revert seen. induction l as [|i l IH]; intros seen; simpl; [constructor |].
  destruct (decide (dedup_key i ∈ seen)); [apply IH |].
  rewrite dedup_loop_acc. simpl. apply NoDup_cons. split; [| apply IH].
  rewrite dedup_loop_keys. intros [_ Hn]. apply Hn.
  apply elem_of_union. left. by apply elem_of_singleton.
Qed.

Lemma dedup_loop_id seen l :
  NoDup (dedup_key <$> l) -> (forall k, k ∈ dedup_key <$> l -> k ∉ seen) ->
  dedup_loop seen [] l = l.
Proof.
  revert seen. induction l as [|i l IH]; intros seen Hnd Hseen; simpl; [done |].
  rewrite fmap_cons in Hnd. apply NoDup_cons in Hnd as [Hi Hnd].
  rewrite decide_False by (apply Hseen, list_elem_of_here).
  rewrite dedup_loop_acc. simpl. f_equal. apply IH; [done |].
  intros k Hk [->%elem_of_singleton|Hs]%elem_of_union; [done |].
  by apply (Hseen k); [apply list_elem_of_further |].
Qed.

Lemma sort_desc_sorted_id {A} (key : A -> Z) (l : list A) :
  StronglySorted (λ a b, key b <= key a) l -> sort_desc key l = l.
Proof.
  induction 1 as [|x l Hl IH Hx]; simpl; [done |]. rewrite IH.
  destruct l as [|y l']; simpl; [done |].
  apply Forall_cons in Hx as [Hy _].
  destruct (Z.ltb_spec (key x) (key y)); [lia | done].
Qed.

Lemma rank_keys_nodup_aux all_items keywords now :
  NoDup (dedup_key <$> rank all_items keywords now).
Proof.
  unfold rank. rewrite (sort_desc_perm sort_key). apply dedup_loop_nodup.
Qed.

(** X4.  The output of the ranking has pairwise distinct keys, and its keys are
    the keys of the fetched items; it is never longer than the input. *)
Theorem rank_keys all_items keywords now :
  NoDup (dedup_key <$> rank all_items keywords now)
  /\ (forall k, k ∈ dedup_key <$> rank all_items keywords now
                <-> k ∈ dedup_key <$> all_items)
  /\ (length (rank all_items keywords now) <= length all_items)%nat.
Proof.
  unfold rank.
  assert (dedup_key <$> score_all all_items keywords now = dedup_key <$> all_items)
    as Hkeys.
  { unfold score_all. rewrite <- list_fmap_compose. apply list_fmap_ext.
    intros i x _. simpl. unfold dedup_key, dict_get. by rewrite !lookup_insert_ne. }
  split; [| split].
  - rewrite (sort_desc_perm sort_key). apply dedup_loop_nodup.
  - intros k. rewrite (sort_desc_perm sort_key). unfold dedup.
    rewrite dedup_loop_keys, Hkeys. split; [tauto |].
    intros H. split; [done | apply not_elem_of_empty].
  - rewrite (sort_desc_perm sort_key).
    pose proof (sublist_length _ _ (dedup_loop_sublist ∅ (score_all all_items keywords now)))
      as Hlen.
    unfold dedup. unfold score_all in Hlen at 2. rewrite length_fmap in Hlen. lia.
Qed.

(** X5.  Ranking the output of the ranking again gives the same list. *)
Theorem rank_idempotent all_items keywords now :
  rank (rank all_items keywords now) keywords now = rank all_items keywords now.
Proof.
  unfold rank at 1.
  assert (score_all (rank all_items keywords now) keywords now
          = rank all_items keywords now) as ->.
  { unfold score_all at 1. apply fmap_fixed.
    pose proof (score_all_fixed all_items keywords now) as Hfix.
    rewrite Forall_forall in Hfix |- *. intros x Hx. apply Hfix.
    unfold rank in Hx. rewrite (sort_desc_perm sort_key) in Hx.
    eapply elem_of_sublist; [exact Hx | apply dedup_loop_sublist]. }
  assert (dedup (rank all_items keywords now) = rank all_items keywords now) as ->.
  { apply dedup_loop_id; [apply rank_keys_nodup_aux | intros k _; apply not_elem_of_empty]. }
  apply sort_desc_sorted_id, sort_desc_sorted.
Qed.

End HarvestMore.

(** ** The keyword filter, the fetch order and the window *)

Module HarvestFlow.

Import Py Date Harvest Examples PyFacts HarvestFacts StringFacts HarvestMore.

(** *** The command-line keywords *)

Lemma parse_keywords_elem (arg k : string) :
  k ∈ parse_keywords arg ->
  exists w, w ∈ split_on ","%char arg /\ k = strip w /\ k <> "".
Proof.
  unfold parse_keywords. rewrite list_elem_of_omap. intros (w & Hw & Hk).
  exists w. destruct (String.eqb_spec (strip w) "") as [E|E]; [done |].
  injection Hk as <-. done.
Qed.

(** X6.  Every keyword read from the command line is non-empty, has no white
    space at its ends and contains no comma. *)
Theorem parse_keywords_clean (arg k : string) :
  k ∈ parse_keywords arg -> k <> "" /\ strip k = k /\ ","%char ∉ chars k.
Proof.
  intros (w & Hw & -> & Hne)%parse_keywords_elem.
  split; [done |]. split; [apply strip_idem |].
  intros Hc%strip_chars. by apply (split_on_no_sep _ _ _ Hw).
Qed.

Lemma parse_keywords_clean_witness :
  "minority serving" <> "" /\ strip "minority serving" = "minority serving"
  /\ ","%char ∉ chars "minority serving".
Proof.
  apply (parse_keywords_clean " HBCU , minority serving ,,MSI").
  vm_compute. apply list_elem_of_further, list_elem_of_here.
Defined.

Lemma omap_strip_clean (kws : list string) :
  Forall (λ k, k <> "" /\ strip k = k /\ ","%char ∉ chars k) kws ->
  omap (λ k, if String.eqb (strip k) "" then None else Some (strip k)) kws = kws.
Proof.
  induction 1 as [|k kws (Hne & Hs & _) _ IH]; [done |].
  set (f := λ k, if String.eqb (strip k) "" then None else Some (strip k)) in *.
  change (omap f (k :: kws))
    with (match f k with Some y => y :: omap f kws | None => omap f kws end).
  rewrite IH. unfold f. rewrite Hs.
  by destruct (String.eqb_spec k "") as [E|_].
Qed.

(** X7.  A list of non-empty keywords without commas and without white space
    at their ends is read back from its comma-separated form. *)
Theorem parse_keywords_join (kws : list string) :
  Forall (λ k, k <> "" /\ strip k = k /\ ","%char ∉ chars k) kws ->
  parse_keywords (join "," kws) = kws.
Proof.
  intros Hall. destruct (decide (kws = [])) as [->|Hne]; [done |].
  unfold parse_keywords. rewrite split_on_join; [by apply omap_strip_clean | done |].
  eapply Forall_impl; [exact Hall |]. simpl. tauto.
Qed.

Lemma parse_keywords_join_witness :
  parse_keywords (join "," DEFAULT_KEYWORDS) = DEFAULT_KEYWORDS.
Proof.
  apply parse_keywords_join.
  repeat (apply Forall_cons; split;
          [split; [discriminate | split; [reflexivity |]];
           intros H; apply list_elem_of_In in H; simpl in H;
           repeat (destruct H as [H | H]; [discriminate |]); done |]).
  apply Forall_nil_2.
Defined.

(** *** The keyword filter of the feeds *)

Lemma rss_text_prefix (i : gmap string pyval) (text : string) :
  rss_text i = Some text -> exists rest, item_text i = text +:+ rest.
Proof.
  unfold rss_text.
  destruct (i !! "title") as [[|t|]|] eqn:Et; try done. simpl.
  destruct (i !! "description") as [[|d|]|] eqn:Ed; try done. simpl.
  intros [= <-]. unfold item_text, TEXT_FIELDS, dict_get_or. simpl.
  rewrite Et, Ed. simpl.
  eexists. rewrite !lower_app, !sapp_assoc. reflexivity.
Qed.

Lemma rss_matches_hits keywords i :
  rss_matches keywords i = Some true ->
  1 <= keyword_hits keywords (item_text i).
Proof.
  unfold rss_matches. destruct keywords as [|kw kws]; [done |].
  destruct (rss_text i) as [text|] eqn:Et; [simpl | done]. intros [= Hex].
  destruct (rss_text_prefix i text Et) as [rest Hrest].
  pose proof (keyword_hits_exists (kw :: kws) text Hex) as H1.
  pose proof (keyword_hits_mono (kw :: kws) text (item_text i)) as Hm.
  assert (keyword_hits (kw :: kws) text <= keyword_hits (kw :: kws) (item_text i));
    [| lia].
  apply Hm. intros k _ Hk. rewrite Hrest. by apply contains_app_l.
Qed.

(** X8.  The items of a feed that pass the keyword filter are kept in their
    order, and each of them then scores at least 10; with no keyword the
    filter keeps nothing, and does not raise. *)
Theorem rss_filter_kept keywords items kept now :
  rss_filter keywords items = Some kept ->
  kept `sublist_of` items
  /\ (forall i, i ∈ kept -> 10 <= score_item i keywords now)
  /\ rss_filter [] items = Some [].
Proof.
  intros H. split; [| split].
  - revert kept H. induction items as [|i items IH]; intros kept; simpl.
    + intros [= <-]. constructor.
    + destruct (rss_matches keywords i) as [b|]; [simpl | done].
      destruct (rss_filter keywords items) as [kept'|]; [simpl | done].
      intros [= <-]. specialize (IH kept' eq_refl).
      destruct b; [by apply sublist_skip | by apply sublist_cons].
  - revert kept H. induction items as [|i items IH]; intros kept; simpl.
    + intros [= <-] j Hj. by apply elem_of_nil in Hj.
    + destruct (rss_matches keywords i) as [b|] eqn:Eb; [simpl | done].
      destruct (rss_filter keywords items) as [kept'|]; [simpl | done].
      intros [= <-] j Hj. specialize (IH kept' eq_refl).
      destruct b; [| by apply IH].
      apply elem_of_cons in Hj as [->|Hj]; [| by apply IH].
      pose proof (rss_matches_hits keywords i Eb).
      rewrite score_item_sum.
      assert (0 <= close_date_boost i now) as Hb.
      { unfold close_date_boost. destruct (truthy _); [| lia].
        destruct (as_str _); [| lia]. destruct (fromisoformat _); [| lia].
        apply urgency_boost_range. }
      destruct (search_word "HBCU" _), (search_word "MSI" _); lia.
  - clear. induction items as [|i items IH]; simpl; [done |]. by rewrite IH.
Qed.

Lemma rss_filter_kept_witness :
  let i1 : gmap string pyval :=
    {[ "title" := PStr "Tribal college grants"; "description" := PStr "NIH" ]} in
  let i2 : gmap string pyval :=
    {[ "title" := PStr "Other notice"; "description" := PStr "" ]} in
  [i1] `sublist_of` [i1; i2]
  /\ (forall i, i ∈ [i1] -> 10 <= score_item i ["tribal"] now0)
  /\ rss_filter [] [i1; i2] = Some [].
Proof.
  intros i1 i2. apply (rss_filter_kept ["tribal"] [i1; i2] [i1] now0).
  vm_compute. reflexivity.
Defined.

(** *** Grants.gov records come first *)

Lemma filter_sort_desc_single {A} (key : A -> Z) (P : A -> Prop)
    `{!forall x, Decision (P x)} (l : list A) :
  (length (filter P l) <= 1)%nat ->
  filter P (sort_desc key l) = filter P l.
Proof.
  intros Hlen.
  assert (filter P (sort_desc key l) ≡ₚ filter P l) as Hp
    by (by rewrite (sort_desc_perm key)).
  destruct (filter P l) as [|x [|y l']]; simpl in Hlen.
  - by apply Permutation_nil_r.
  - by apply Permutation_singleton_r.
  - lia.
Qed.

(** X9.  When a Grants.gov item has a given key, the record written out for
    that key is the first Grants.gov item with that key, whatever the
    feeds contain. *)
Theorem harvest_rest_first rest nih nsf keywords now x :
  x ∈ rest ->
  filter (λ y, dedup_key y = dedup_key x) (harvest rest nih nsf keywords now)
  = firstn 1 (filter (λ y, dedup_key y = dedup_key x) (score_all rest keywords now)).
Proof.
  intros Hx. unfold harvest, rank.
  set (feeds := rss_contribution keywords nih ++ rss_contribution keywords nsf).
  assert (filter (λ y, dedup_key y = dedup_key x)
            (dedup (score_all (rest ++ feeds) keywords now))
          = firstn 1 (filter (λ y, dedup_key y = dedup_key x)
                        (score_all rest keywords now))) as Hd.
  { unfold dedup. rewrite dedup_loop_filter.
    rewrite decide_False by apply not_elem_of_empty.
    unfold score_all. rewrite fmap_app, filter_app.
    set (f := λ itm : gmap string pyval,
                <["hbcu_msi_score" := PInt (score_item itm keywords now)]> itm).
    assert (f x ∈ filter (λ y, dedup_key y = dedup_key x) (f <$> rest)) as Hin.
    { apply list_elem_of_filter. split; [| by apply list_elem_of_fmap_2].
      unfold f, dedup_key, dict_get. by rewrite !lookup_insert_ne. }
    destruct (filter (λ y, dedup_key y = dedup_key x) (f <$> rest)) as [|y ys];
      [by apply elem_of_nil in Hin | done]. }
  rewrite filter_sort_desc_single; [done |].
  rewrite Hd. rewrite length_take. lia.
Qed.

Lemma harvest_rest_first_witness :
  let r : gmap string pyval :=
    {[ "title" := PStr "HBCU research"; "url" := PStr "https://example.org/a";
       "source" := PStr "Grants.gov" ]} in
  let f : gmap string pyval :=
    {[ "title" := PStr "HBCU research (feed)"; "description" := PStr "";
       "url" := PStr "https://example.org/a" ]} in
  filter (λ y, dedup_key y = dedup_key r) (harvest [r] [f] [] ["HBCU"] now0)
  = firstn 1 (filter (λ y, dedup_key y = dedup_key r) (score_all [r] ["HBCU"] now0)).
Proof.
  intros r f. apply harvest_rest_first. apply list_elem_of_here.
Defined.

(** *** The window *)

(** X10.  Widening the window never excludes an item that was within it. *)
Theorem within_days_widen date_str days days' now :
  within_days date_str days now = Some true -> days <= days' ->
  within_days date_str days' now = Some true.
Proof.
  unfold within_days. destruct (negb (truthy date_str)); [done |].
  destruct (as_str date_str) as [s|]; [cbn [mbind option_bind] | done].
  destruct (fromisoformat (take 10 s)); [| done].
  intros [= H] Hle. f_equal. apply Z.leb_le in H. apply Z.leb_le. lia.
Qed.

Lemma within_days_widen_witness :
  within_days (PStr "2025-05-01") 90 now0 = Some true.
Proof.
  apply (within_days_widen (PStr "2025-05-01") 60 90 now0); [reflexivity | lia].
Defined.

(** *** Null fields *)

Lemma contains_self_app (n rest : string) : contains n (n +:+ rest) = true.
Proof. apply contains_spec. by exists "", rest. Qed.

(** X11.  A text field that is [None] is searched as the word "None": the
    keyword "None" matches the record. *)
Theorem null_field_matches_none item k now :
  k ∈ TEXT_FIELDS -> item !! k = Some PNone ->
  contains "none" (item_text item) = true
  /\ 10 <= score_item item ["None"] now.
Proof.
  intros Hk Hnull.
  assert (contains "none" (item_text item) = true) as Hc.
  { unfold item_text, TEXT_FIELDS, dict_get_or. simpl.
    apply list_elem_of_In in Hk. simpl in Hk.
    destruct Hk as [<-|[<-|[<-|[<-|[<-|[]]]]]]; rewrite Hnull; simpl;
      rewrite ?lower_app; try change (lower "None") with "none";
      repeat first [ reflexivity
                   | apply contains_self_app
                   | apply contains_app_r ]. }
  split; [done |].
  rewrite score_item_sum.
  assert (1 <= keyword_hits ["None"] (item_text item)) as Hh.
  { apply keyword_hits_exists. cbn [existsb].
    change (lower "None") with "none". by rewrite Hc. }
  assert (0 <= close_date_boost item now) as Hb.
  { unfold close_date_boost. destruct (truthy _); [| lia].
    destruct (as_str _); [| lia]. destruct (fromisoformat _); [| lia].
    apply urgency_boost_range. }
  destruct (search_word "HBCU" _), (search_word "MSI" _); lia.
Qed.

Lemma null_field_matches_none_witness :
  let item : gmap string pyval :=
    {[ "title" := PStr "Research grants"; "agency" := PNone ]} in
  contains "none" (item_text item) = true /\ 10 <= score_item item ["None"] now0.
Proof.
  intros item. apply (null_field_matches_none item "agency").
  - apply list_elem_of_In. simpl. tauto.
  - reflexivity.
Defined.

End HarvestFlow.

(** ** A second run, the task rows and the identifiers *)

Module SyncRows.

#[local] Set Warnings "-clear-no-such-hyp".

Import Py Date Sync Examples PyFacts DateFacts SyncFacts SyncRun StringFacts SyncMore.

Lemma pid_of_nonempty (n : Z) : pid_of n <> "".
Proof.
  unfold pid_of. intros E. apply (f_equal String.length) in E.
  rewrite slength_app in E. simpl in E. lia.
Qed.

(** *** Running the sync twice *)

Lemma import_all_skip cfg today st chosen :
  (forall item, item ∈ chosen ->
     exists t, item_title_key item = Some t /\ (t = "" \/ (t ∈ existing_titles st))) ->
  import_all cfg today st chosen = Some st.
Proof.
  induction chosen as [|item chosen IH]; intros H; simpl; [done |].
  assert (import_item cfg today st item = Some st) as ->.
  { destruct (H item (list_elem_of_here _ _)) as (t & Ht & Hskip).
    unfold import_item. fold (item_title_key item). rewrite Ht. simpl.
    destruct Hskip as [->|Hin]; [done |].
    rewrite (bool_decide_eq_true_2 _ Hin). by rewrite orb_true_r. }
  simpl. apply IH. intros i Hi. by apply H, list_elem_of_further.
Qed.

(** The rows that a run appends to the Proposals sheet start with a
    non-empty identifier and a non-empty title. *)
Lemma import_all_new_rows cfg today chosen : forall st st' n,
  next_pid st = pid_of n ->
  import_all cfg today st chosen = Some st' ->
  exists rows,
    wsP st' = wsP st ++ rows
    /\ Forall (λ r, exists pid x rest,
                 r = PStr pid :: PStr x :: rest /\ pid <> "" /\ x <> "") rows.
Proof.
  induction chosen as [|item chosen IH]; intros st st' n Hpid H; simpl in H.
  - injection H as <-. exists []. by rewrite app_nil_r.
  - destruct (import_item cfg today st item) as [st1|] eqn:Hstep; [simpl in H | done].
    apply import_item_cases in Hstep
      as (t & Ht & [[Hskip ->] | (Hne & Hnin & row & tasks & Hprep & Hkey & ->)]).
    + by apply (IH st st' n).
    + eapply (IH _ st') in H as (rows & HwsP & Hrows); [| reflexivity].
      simpl in HwsP.
      exists (row :: rows). rewrite HwsP, <- app_assoc. split; [done |].
      apply Forall_cons. split; [| done].
      destruct (prepare_rows_cells _ _ _ _ _ _ Hprep) as (s & rest & Hs & Hrow & _).
      exists (next_pid st), (strip s), rest. split; [done |].
      split; [rewrite Hpid; apply pid_of_nonempty |].
      apply lower_strip_nonempty.
      by rewrite <- (item_title_key_get item t s Ht Hs).
Qed.

Lemma scan_new_rows rows : forall ids titles,
  Forall (λ r, exists pid x rest,
            r = PStr pid :: PStr x :: rest /\ pid <> "" /\ x <> "") rows ->
  exists ids',
    scan_proposals rows ids titles
    = Some (ids', list_to_set (title_key <$> rows) ∪ titles).
Proof.
  induction rows as [|r rows IH]; intros ids titles Hall; simpl.
  - exists ids. do 2 f_equal. set_solver.
  - apply Forall_cons in Hall as [(pid & x & rest & -> & Hpid & Hx) Hall].
    unfold any_truthy. simpl.
    destruct (String.eqb_spec pid "") as [?|_]; [done |]. simpl.
    destruct (String.eqb_spec x "") as [?|_]; [done |]. simpl.
    destruct (IH (ids ++ [PStr pid]) ({[lower (strip x)]} ∪ titles) Hall)
      as (ids' & ->).
    exists ids'. do 2 f_equal. unfold title_key at 2. simpl. set_solver.
Qed.

(** X13.  Running the sync again on the workbook that a run produced, with the
    same chosen items, imports nothing: both sheets are unchanged. *)
Theorem sync_twice cfg today cfg' today' proposals tasks chosen st :
  sync cfg today proposals tasks chosen = Some st ->
  exists st2,
    sync cfg' today' (wsP st) (wsT st) chosen = Some st2
    /\ wsP st2 = wsP st /\ wsT st2 = wsT st /\ added st2 = 0.
Proof.
  unfold sync, initial_state.
  destruct (scan_proposals proposals [] ∅) as [[ids titles]|] eqn:Hscan;
    [simpl | done].
  intros Hrun.
  destruct (import_all_titles _ _ _ _ _ Hrun)
    as (rows & HwsP & _ & _ & Htitles & Hall & _).
  pose proof Hrun as Hrun'.
  eapply (import_all_new_rows _ _ _ _ _ (next_number (scan_ids "GSU-P-" ids)))
    in Hrun' as (rows' & HwsP' & Hrows); [| reflexivity].
  simpl in HwsP, HwsP', Htitles.
  assert (rows' = rows) as -> by (apply (app_inv_head proposals); congruence).
  rewrite HwsP, scan_proposals_app, Hscan. simpl.
  destruct (scan_new_rows rows ids titles Hrows) as (ids' & ->). simpl.
  rewrite <- Htitles.
  eexists. split; [apply import_all_skip; simpl; exact Hall | done].
Qed.

Lemma sync_twice_witness :
  exists st st2,
    sync cfg0 today0 proposals0 [] [item0; item1] = Some st
    /\ sync cfg0 (mk 2025 2 1) (wsP st) (wsT st) [item0; item1] = Some st2
    /\ wsP st2 = wsP st /\ wsT st2 = wsT st /\ added st2 = 0.
Proof.
  eexists. 
  assert (forall st, sync cfg0 today0 proposals0 [] [item0; item1] = Some st ->
            exists st2,
              sync cfg0 (mk 2025 2 1) (wsP st) (wsT st) [item0; item1] = Some st2
              /\ wsP st2 = wsP st /\ wsT st2 = wsT st /\ added st2 = 0) as H
    by (intros st; apply sync_twice).
  destruct (H _ ltac:(vm_compute; reflexivity)) as (st2 & H2).
  exists st2. split; [vm_compute; reflexivity | exact H2].
Defined.

(** *** Task rows *)


Lemma append_tasks_spec pid tasks : forall ws nums,
  exists rows,
    (append_tasks pid tasks ws nums).1 = ws ++ rows
    /\ length rows = length tasks
    /\ default 0 (last (append_tasks pid tasks ws nums).2)
       = default 0 (last nums) + Z.of_nat (length tasks)
    /\ (forall (k : nat) t, rows !! k = Some t ->
          length t = 7%nat
          /\ t !! 0%nat = Some (PStr (tsk (default 0 (last nums) + 1 + Z.of_nat k)))
          /\ t !! 1%nat = Some pid).
Proof.
  induction tasks as [|[[[[name due] owner] status] notes] tasks IH];
    intros ws nums.
  - exists []. simpl. rewrite app_nil_r. split; [done |]. split; [done |].
    split; [lia |]. by intros k t ?.
  - set (base := default 0 (last nums)).
    assert (next_task nums = (tsk (base + 1), nums ++ [base + 1])) as Hnext.
    { unfold next_task, base. by destruct (last nums). }
    cbn [append_tasks]. rewrite Hnext.
    destruct (IH (ws ++ [[PStr (tsk (base + 1)); pid; PStr name; PStr due;
                          PStr owner; PStr status; PStr notes]])
                 (nums ++ [base + 1])) as (rows & H1 & H2 & H3 & H4).
    rewrite last_snoc in H3, H4. simpl in H3, H4.
    eexists (_ :: rows). rewrite H1, <- app_assoc. split; [done |].
    split; [simpl; lia |]. split; [rewrite H3; simpl length; lia |].
    intros [|k] t Hk; simpl in Hk.
    + injection Hk as <-. split; [done |]. split; [| done].
      simpl. do 3 f_equal. lia.
    + destruct (H4 k t Hk) as (? & Hid & ?). split; [done |]. split; [| done].
      rewrite Hid. do 3 f_equal. lia.
Qed.

Lemma import_all_tasks cfg today chosen : forall st st',
  import_all cfg today st chosen = Some st' ->
  exists rowsP rowsT,
    wsP st' = wsP st ++ rowsP
    /\ wsT st' = wsT st ++ rowsT
    /\ added st' = added st + Z.of_nat (length rowsP)
    /\ length rowsT = (7 * length rowsP)%nat
    /\ (forall (k : nat) t, rowsT !! k = Some t ->
          length t = 7%nat
          /\ t !! 0%nat
             = Some (PStr (tsk (default 0 (last (task_nums st)) + 1 + Z.of_nat k)))
          /\ exists p pid, rowsP !! (k / 7)%nat = Some p
                           /\ p !! 0%nat = Some pid /\ t !! 1%nat = Some pid)
    /\ default 0 (last (task_nums st'))
       = default 0 (last (task_nums st)) + Z.of_nat (length rowsT).
Proof.
  induction chosen as [|item chosen IH]; intros st st' H; simpl in H.
  - injection H as <-. exists [], []. rewrite !app_nil_r. simpl.
    split; [done |]. split; [done |]. split; [lia |]. split; [done |].
    split; [by intros k t ? | lia].
  - destruct (import_item cfg today st item) as [st1|] eqn:Hstep; [simpl in H | done].
    destruct (IH st1 st' H) as (rowsP & rowsT & HP & HT & Hadd & Hlen & Hrows & Hlast).
    apply import_item_cases in Hstep
      as (t & Ht & [[Hskip ->] | (Hne & Hnin & row & tasks & Hprep & Hkey & ->)]).
    + by exists rowsP, rowsT.
    + cbn [wsP wsT added task_nums] in *.
      destruct (append_tasks_spec (PStr (next_pid st)) tasks (wsT st) (task_nums st))
        as (rows7 & H1 & H2 & H3 & H4).
      assert (length tasks = 7%nat) as Hseven.
      { destruct (prepare_rows_inv _ _ _ _ _ _ Hprep)
          as (? & ? & ? & ? & ? & ? & ? & _ & _ & _ & _ & _ & Hdues).
        apply (f_equal length) in Hdues. by rewrite length_fmap in Hdues. }
      rewrite Hseven in H2, H3.
      destruct (prepare_rows_cells _ _ _ _ _ _ Hprep) as (s & rest & _ & Hrow & _).
      exists (row :: rowsP), (rows7 ++ rowsT).
      rewrite HP, HT, H1, <- !app_assoc. simpl length.
      split; [done |]. split; [done |]. split; [lia |].
      split; [rewrite length_app; lia |].
      split; [| rewrite Hlast, H3, length_app; lia].
      intros k tr Hk. destruct (decide (k < 7)%nat) as [Hlt|Hge].
      * rewrite lookup_app_l in Hk by lia.
        destruct (H4 k tr Hk) as (? & Hid & Hpid). split; [done |]. split; [done |].
        exists row, (PStr (next_pid st)). rewrite Nat.div_small by lia.
        split; [done |]. split; [by rewrite Hrow | done].
      * rewrite lookup_app_r in Hk by lia. rewrite H2 in Hk.
        destruct (Hrows (k - 7)%nat tr Hk) as (? & Hid & p & pid & Hp & Hp0 & Hp1).
        split; [done |]. split.
        -- rewrite Hid, H3. do 3 f_equal. lia.
        -- exists p, pid. split; [| done].
           replace (k / 7)%nat with (S ((k - 7) / 7)); [done |].
           replace k with ((k - 7) + 1 * 7)%nat at 2 by lia.
           rewrite Nat.div_add by lia. lia.
Qed.

(** X14.  Every imported proposal gets seven rows in the Tasks sheet: the run
    appends seven task rows per appended proposal row, in the order of the
    proposals; each task row has seven cells and carries, in its second
    cell, the identifier of its proposal. *)
Theorem task_rows_per_proposal cfg today proposals tasks chosen st :
  sync cfg today proposals tasks chosen = Some st ->
  exists rowsP rowsT,
    wsP st = proposals ++ rowsP
    /\ wsT st = tasks ++ rowsT
    /\ added st = Z.of_nat (length rowsP)
    /\ length rowsT = (7 * length rowsP)%nat
    /\ (forall (k : nat) t, rowsT !! k = Some t ->
          length t = 7%nat
          /\ exists p pid, rowsP !! (k / 7)%nat = Some p
                           /\ p !! 0%nat = Some pid /\ t !! 1%nat = Some pid).
Proof.
  unfold sync, initial_state.
  destruct (scan_proposals proposals [] ∅) as [[ids titles]|]; [simpl | done].
  intros Hrun.
  destruct (import_all_tasks _ _ _ _ _ Hrun)
    as (rowsP & rowsT & HP & HT & Hadd & Hlen & Hrows & _).
  simpl in *. exists rowsP, rowsT.
  split; [done |]. split; [done |]. split; [lia |]. split; [done |].
  intros k t Hk. destruct (Hrows k t Hk) as (? & _ & ?). done.
Qed.

Lemma task_rows_per_proposal_witness :
  exists st,
    sync cfg0 today0 proposals0 [] [item0; item1] = Some st
    /\ exists rowsP rowsT,
         wsP st = proposals0 ++ rowsP
         /\ wsT st = [] ++ rowsT
         /\ added st = Z.of_nat (length rowsP)
         /\ length rowsT = (7 * length rowsP)%nat
         /\ (forall (k : nat) t, rowsT !! k = Some t ->
               length t = 7%nat
               /\ exists p pid, rowsP !! (k / 7)%nat = Some p
                                /\ p !! 0%nat = Some pid /\ t !! 1%nat = Some pid).
Proof.
  eexists. split; [vm_compute; reflexivity |].
  apply (task_rows_per_proposal cfg0 today0 proposals0 [] [item0; item1]).
  vm_compute. reflexivity.
Defined.

Lemma tsk_inj (m n : Z) : 0 <= m -> 0 <= n -> tsk m = tsk n -> m = n.
Proof.
  intros Hm Hn E. apply (f_equal (match_int "TSK-")) in E.
  unfold tsk in E. rewrite !match_int_fmt in E by done. congruence.
Qed.

Lemma task_base_nonneg (sheet : list (list pyval)) :
  0 <= default 0 (last (next_task_id (scan_task_ids sheet))).
Proof.
  unfold next_task_id.
  destruct (last (scan_ids "TSK-" (scan_task_ids sheet))) as [l|] eqn:E; simpl; [| lia].
  apply last_Some_elem_of in E. by eapply scan_ids_nonneg.
Qed.

(** X15.  The task identifiers of a run are consecutive: the [k]-th appended
    task row carries the number that follows the last number scanned from
    the sheet (1 when none was scanned) plus [k]; they are pairwise
    distinct. *)
Theorem task_ids_consecutive cfg today proposals tasks chosen st :
  sync cfg today proposals tasks chosen = Some st ->
  let base := default 0 (last (next_task_id (scan_task_ids tasks))) in
  exists rowsT,
    wsT st = tasks ++ rowsT
    /\ (forall (k : nat) t, rowsT !! k = Some t ->
          t !! 0%nat = Some (PStr ("TSK-" +:+ fmt_0d 4 (base + 1 + Z.of_nat k))))
    /\ (forall (j k : nat) tj tk, rowsT !! j = Some tj -> rowsT !! k = Some tk ->
          tj !! 0%nat = tk !! 0%nat -> j = k).
Proof.
  unfold sync, initial_state.
  destruct (scan_proposals proposals [] ∅) as [[ids titles]|]; [simpl | done].
  intros Hrun.
  destruct (import_all_tasks _ _ _ _ _ Hrun)
    as (rowsP & rowsT & _ & HT & _ & _ & Hrows & _).
  simpl in *. exists rowsT. split; [done |]. split.
  - intros k t Hk. by destruct (Hrows k t Hk) as (_ & ? & _).
  - intros j k tj tk Hj Hk E.
    destruct (Hrows j tj Hj) as (_ & Hjid & _).
    destruct (Hrows k tk Hk) as (_ & Hkid & _).
    rewrite Hjid, Hkid in E.
    pose proof (task_base_nonneg tasks).
    assert (forall a b, Some (PStr (tsk a)) = Some (PStr (tsk b)) -> tsk a = tsk b)
      as Hinj by (intros a b; congruence).
    apply Hinj, tsk_inj in E; lia.
Qed.

Lemma task_ids_consecutive_witness :
  let sheet := [[PStr "TSK-0002"; PStr "GSU-P-0001"]; [PStr "TSK-0005"; PStr "GSU-P-0001"]] in
  exists st,
    sync cfg0 today0 proposals0 sheet [item0] = Some st
    /\ exists rowsT,
         wsT st = sheet ++ rowsT
         /\ (forall (k : nat) t, rowsT !! k = Some t ->
               t !! 0%nat = Some (PStr ("TSK-" +:+ fmt_0d 4 (5 + 1 + Z.of_nat k))))
         /\ (forall (j k : nat) tj tk, rowsT !! j = Some tj -> rowsT !! k = Some tk ->
               tj !! 0%nat = tk !! 0%nat -> j = k).
Proof.
  intros sheet. eexists. split; [vm_compute; reflexivity |].
  apply (task_ids_consecutive cfg0 today0 proposals0 sheet [item0]).
  vm_compute. reflexivity.
Defined.

(** X16.  When the last task identifier of the sheet carries the greatest
    number, no appended task row has the identifier of a row that was
    already in the sheet. *)
Theorem task_ids_fresh cfg today proposals tasks chosen st :
  sync cfg today proposals tasks chosen = Some st ->
  let nums := next_task_id (scan_task_ids tasks) in
  (forall m, m ∈ nums -> m <= default 0 (last nums)) ->
  exists rowsT,
    wsT st = tasks ++ rowsT
    /\ forall t old, t ∈ rowsT -> old ∈ tasks -> old !! 0%nat <> t !! 0%nat.
Proof.
  unfold sync, initial_state.
  destruct (scan_proposals proposals [] ∅) as [[ids titles]|]; [simpl | done].
  intros Hrun Hmax.
  destruct (import_all_tasks _ _ _ _ _ Hrun)
    as (rowsP & rowsT & _ & HT & _ & _ & Hrows & _).
  simpl in *. exists rowsT. split; [done |].
  intros t old [k Hk]%list_elem_of_lookup Hold E.
  destruct (Hrows k t Hk) as (_ & Hid & _). rewrite Hid in E.
  pose proof (task_base_nonneg tasks) as Hbase.
  set (n := default 0 (last (next_task_id (scan_task_ids tasks))) + 1 + Z.of_nat k) in *.
  assert (n ∈ next_task_id (scan_task_ids tasks)) as Hin.
  { unfold next_task_id, scan_ids. apply list_elem_of_omap.
    exists (PStr (tsk n)). split.
    - unfold scan_task_ids. apply list_elem_of_omap. exists old. split; [done |].
      destruct old as [|c old']; [done |]. simpl in E. injection E as ->.
      unfold tsk. simpl.
      destruct (String.eqb_spec ("TSK-" +:+ fmt_0d 4 n) "") as [E|_]; [| done].
      apply (f_equal String.length) in E. rewrite slength_app in E. simpl in E. lia.
    - simpl. unfold tsk. apply match_int_fmt. lia. }
  apply Hmax in Hin. lia.
Qed.

Lemma task_ids_fresh_witness :
  let sheet := [[PStr "TSK-0002"; PStr "GSU-P-0001"]; [PStr "TSK-0005"; PStr "GSU-P-0001"]] in
  exists st,
    sync cfg0 today0 proposals0 sheet [item0] = Some st
    /\ exists rowsT,
         wsT st = sheet ++ rowsT
         /\ forall t old, t ∈ rowsT -> old ∈ sheet -> old !! 0%nat <> t !! 0%nat.
Proof.
  intros sheet. eexists. split; [vm_compute; reflexivity |].
  apply (task_ids_fresh cfg0 today0 proposals0 sheet [item0]).
  - vm_compute. reflexivity.
  - intros m Hm. vm_compute in Hm. apply list_elem_of_In in Hm. simpl in Hm.
    destruct Hm as [<- | [<- | []]]; vm_compute; discriminate.
Defined.

(** *** Proposal identifiers *)

(** X17.  No appended proposal row has the identifier of a row that was already
    in the sheet, and the appended rows have pairwise distinct
    identifiers. *)
Theorem proposal_ids_fresh cfg today proposals tasks chosen st :
  sync cfg today proposals tasks chosen = Some st ->
  exists rows,
    wsP st = proposals ++ rows
    /\ (forall r old, r ∈ rows -> old ∈ proposals -> old !! 0%nat <> r !! 0%nat)
    /\ (forall (j k : nat) rj rk, rows !! j = Some rj -> rows !! k = Some rk ->
          rj !! 0%nat = rk !! 0%nat -> j = k).
Proof.
  unfold sync, initial_state.
  destruct (scan_proposals proposals [] ∅) as [[ids titles]|] eqn:Hscan;
    [simpl | done].
  intros Hrun.
  pose proof (next_number_pos "GSU-P-" ids) as Hpos.
  eapply (import_all_pids _ _ _ _ _ (next_number (scan_ids "GSU-P-" ids)))
    in Hrun as (rows & H1 & _ & _ & H4); [| lia | done].
  simpl in *. exists rows. split; [done |].
  assert (forall (k : nat) r, rows !! k = Some r ->
            r !! 0%nat
            = Some (PStr (pid_of (next_number (scan_ids "GSU-P-" ids) + Z.of_nat k))))
    as Hhead.
  { intros k r Hk. rewrite <- head_lookup. by apply H4. }
  split.
  - intros r old [k Hk]%list_elem_of_lookup Hold E. rewrite (Hhead k r Hk) in E.
    set (n := next_number (scan_ids "GSU-P-" ids) + Z.of_nat k) in *.
    destruct (scan_proposals_spec _ _ _ _ _ Hscan) as (_ & _ & Hrows).
    destruct (Hrows old Hold) as (c & Hc & Hin & _).
    { destruct old as [|c old']; [done |]. simpl in E. injection E as ->.
      unfold any_truthy. simpl.
      by destruct (String.eqb_spec (pid_of n) "") as [?%pid_of_nonempty|_]. }
    rewrite E in Hc. injection Hc as <-. simpl in Hin.
    assert (n ∈ scan_ids "GSU-P-" ids) as Hn.
    { unfold scan_ids. apply list_elem_of_omap. exists (PStr (pid_of n)).
      split; [done |]. simpl. unfold pid_of. apply match_int_fmt. lia. }
    destruct (next_number_spec (scan_ids "GSU-P-" ids)) as (_ & _ & Hlt).
    apply Hlt in Hn. lia.
  - intros j k rj rk Hj Hk E. rewrite (Hhead j rj Hj), (Hhead k rk Hk) in E.
    assert (forall a b, Some (PStr (pid_of a)) = Some (PStr (pid_of b)) ->
              match_int "GSU-P-" (pid_of a) = match_int "GSU-P-" (pid_of b))
      as Hinj by (intros a b; congruence).
    apply Hinj in E. unfold pid_of in E. rewrite !match_int_fmt in E by lia.
    injection E as E. lia.
Qed.

Lemma proposal_ids_fresh_witness :
  exists st,
    sync cfg0 today0 proposals0 [] [item0; item1] = Some st
    /\ exists rows,
         wsP st = proposals0 ++ rows
         /\ (forall r old, r ∈ rows -> old ∈ proposals0 -> old !! 0%nat <> r !! 0%nat)
         /\ (forall (j k : nat) rj rk, rows !! j = Some rj -> rows !! k = Some rk ->
               rj !! 0%nat = rk !! 0%nat -> j = k).
Proof.
  eexists. split; [vm_compute; reflexivity |].
  apply (proposal_ids_fresh cfg0 today0 proposals0 [] [item0; item1]).
  vm_compute. reflexivity.
Defined.

End SyncRows.

(** ** Dates written and read back, deadlines, mechanisms *)

Module SyncDates.

Import Py Date Sync Harvest Examples PyFacts DateFacts IsoFacts SyncFacts SyncRun
  StringFacts SyncMore.

(** *** ISO dates are read back *)

(** X18.  A valid date written with [isoformat] is read back by [parse_date]
    and by [fromisoformat]: the posted dates that the feed reader writes
    and the due dates of the workbook denote, for the sync and for the
    harvester, the date that was written. *)
Theorem isoformat_read_back (d : date) :
  valid (year d) (month d) (day d) = true ->
  parse_date (PStr (isoformat d)) = Some (Some d)
  /\ fromisoformat (take 10 (isoformat d)) = Some (midnight d).
Proof.
  intros Hvalid. split.
  - destruct (isoformat_chars d Hvalid)
      as (a & b & c & e & p & q & r & t & -> & Hdig & Hy & Hm & Hd & Hdirm & Hdird).
    assert (digit_chars [a; b; c; e] = true) as Hdy.
    { unfold digit_chars in *. cbn [forallb] in *.
      rewrite !andb_true_iff in *. tauto. }
    assert (make (year d) (month d) (day d) = Some d) as Hmake.
    { unfold make. rewrite Hvalid. by destruct d. }
    unfold parse_date. cbn [truthy as_str String.eqb negb mbind option_bind take].
    replace (strptime3 dir_Y dir_m dir_d "-"
               (String a (String b (String c (String e (String "-" (String p
                 (String q (String "-" (String r (String t "")))))))))))
      with (Some (year d, month d, day d)); [by rewrite Hmake |].
    unfold strptime3. cbn [dir_Y]. rewrite Hdy, Hy.
    cbn [mbind option_bind lit]. rewrite decide_True by done.
    cbn [mbind option_bind]. rewrite Hdirm.
    cbn [mbind option_bind lit]. rewrite decide_True by done.
    cbn [mbind option_bind]. by rewrite Hdird.
  - rewrite <- (sapp_nil_r (isoformat d)) at 1. by apply fromisoformat_isoformat.
Qed.

Lemma isoformat_read_back_witness :
  parse_date (PStr (isoformat (mk 2024 2 29))) = Some (Some (mk 2024 2 29))
  /\ fromisoformat (take 10 (isoformat (mk 2024 2 29)))
     = Some (midnight (mk 2024 2 29)).
Proof. apply isoformat_read_back. reflexivity. Defined.

(** *** The internal deadline and the task dates *)

(** X19.  When the proposal has a due date, the internal deadline is the
    configured number of days (7 by default) before it, every task is due
    between 10 and 7 days before the due date, and with an offset of at
    most 7 days no task is due after the internal deadline.  Without a due
    date both cells are empty. *)
Theorem deadlines_before_due item cfg pid today row tasks :
  prepare_rows item cfg pid today = Some (row, tasks) ->
  let offset := default 7 (internal_deadline_offset_days cfg) in
  exists close posted,
    parse_date (dict_get_or item "close_date" (PStr "")) = Some close
    /\ parse_date (dict_get_or item "posted_date" (PStr "")) = Some posted
    /\ match (match close with Some d => Some d | None => posted end) with
       | Some due =>
           exists internal ds,
             row !! 10%nat = Some (PStr (isoformat internal))
             /\ row !! 11%nat = Some (PStr (isoformat due))
             /\ toordinal internal = toordinal due - offset
             /\ task_due <$> tasks = isoformat <$> ds
             /\ Forall (λ d, toordinal due - 10 <= toordinal d <= toordinal due - 7) ds
             /\ (offset <= 7 -> Forall (λ d, toordinal d <= toordinal internal) ds)
       | None =>
           row !! 10%nat = Some (PStr "") /\ row !! 11%nat = Some (PStr "")
       end.
Proof.
  intros H offset. unfold prepare_rows in H.
  destruct (strip <$> as_str (dict_get_or item "title" (PStr ""))) as [title|]; [simpl in H | done].
  destruct (strip <$> as_str _) as [sponsor|]; [simpl in H | done].
  destruct (parse_date (dict_get_or item "close_date" (PStr ""))) as [close|]; [simpl in H | done].
  destruct (parse_date (dict_get_or item "posted_date" (PStr ""))) as [posted|]; [simpl in H | done].
  exists close, posted. split; [done |]. split; [done |].
  destruct (match close with Some d => Some d | None => posted end) as [due|].
  - destruct (sub_days due (default 7 (internal_deadline_offset_days cfg)))
      as [internal|] eqn:Ei; [simpl in H | done].
    destruct (mechanism_from_source item cfg) as [mech|]; [simpl in H | done].
    destruct (sub_days due 10) as [d10|] eqn:E10; [simpl in H | done].
    destruct (sub_days due 9) as [d9|] eqn:E9; [simpl in H | done].
    destruct (sub_days due 8) as [d8|] eqn:E8; [simpl in H | done].
    destruct (sub_days due 7) as [d7|] eqn:E7; [simpl in H | done].
    injection H as <- <-.
    apply sub_days_ordinal in Ei, E10, E9, E8, E7.
    exists internal, [d10; d9; d8; d8; d7; d7; d7].
    split; [done |]. split; [done |]. split; [done |]. split; [done |].
    split; [repeat constructor; lia |].
    intros Hoff. fold offset in Ei. repeat constructor; lia.
  - simpl in H.
    destruct (mechanism_from_source item cfg) as [mech|]; [simpl in H | done].
    destruct (add_days today 30) as [anchor|]; [simpl in H | done].
    destruct (sub_days anchor 10); [simpl in H | done].
    destruct (sub_days anchor 9); [simpl in H | done].
    destruct (sub_days anchor 8); [simpl in H | done].
    destruct (sub_days anchor 7); [simpl in H | done].
    by injection H as <- <-.
Qed.

Lemma deadlines_before_due_witness :
  exists row tasks,
    prepare_rows item0 cfg0 "GSU-P-0004" today0 = Some (row, tasks)
    /\ row !! 10%nat = Some (PStr "2025-06-23")
    /\ row !! 11%nat = Some (PStr "2025-06-30").
Proof.
  eexists _, _. split; [vm_compute; reflexivity |].
  destruct (deadlines_before_due item0 cfg0 "GSU-P-0004" today0 _ _ eq_refl)
    as (close & posted & Hc & Hp & Hdue).
  vm_compute in Hc, Hp. injection Hc as <-. injection Hp as <-.
  split; reflexivity.
Defined.

(** *** A null url *)

Lemma prepare_rows_no_mechanism item cfg pid today :
  mechanism_from_source item cfg = None -> prepare_rows item cfg pid today = None.
Proof.
  intros Hm. unfold prepare_rows.
  destruct (strip <$> as_str (dict_get_or item "title" (PStr ""))); [simpl | done].
  destruct (strip <$> as_str _); [simpl | done].
  destruct (parse_date (dict_get_or item "close_date" (PStr ""))) as [close|]; [simpl | done].
  destruct (parse_date (dict_get_or item "posted_date" (PStr ""))) as [posted|]; [simpl | done].
  destruct (match match close with Some d => Some d | None => posted end with
            | Some d => _ | None => Some None end); [simpl | done].
  by rewrite Hm.
Qed.

(** X20.  An item to import whose url is not a string (the harvester writes
    [None] when the API gives none) makes the run raise, unless a key of
    the mechanism map occurs in its source text: the workbook is not
    saved. *)
Theorem null_url_raises cfg today st item t rest :
  item_title_key item = Some t -> t <> "" -> t ∉ existing_titles st ->
  as_str (dict_get_or item "url" (PStr "")) = None ->
  (forall src, mechanism_text item = Some src ->
     Forall (λ kv : string * pyval, contains (lower kv.1) (lower src) = false)
       (default [] (mechanism_map cfg))) ->
  import_all cfg today st (item :: rest) = None.
Proof.
  intros Ht Hne Hnin Hurl Hmap.
  assert (mechanism_from_source item cfg = None) as Hm.
  { unfold mechanism_from_source. fold (mechanism_text item).
    destruct (mechanism_text item) as [src|]; [simpl | done].
    specialize (Hmap src eq_refl).
    assert (find (λ kv : string * pyval, contains (lower kv.1) (lower src))
              (default [] (mechanism_map cfg)) = None) as ->.
    { induction Hmap as [|kv l Hkv _ IH]; [done |]. simpl. by rewrite Hkv. }
    by rewrite Hurl. }
  simpl. unfold import_item. fold (item_title_key item). rewrite Ht. simpl.
  destruct (String.eqb_spec t "") as [?|_]; [done |].
  rewrite bool_decide_eq_false_2 by done. simpl.
  by rewrite (prepare_rows_no_mechanism _ _ _ _ Hm).
Qed.

Lemma null_url_raises_witness :
  let item : gmap string pyval :=
    {[ "title" := PStr "Energy frontier research"; "source" := PStr "Grants.gov";
       "agency" := PStr "DOE"; "url" := PNone ]} in
  let st := mkState proposals0 [] ∅ [] "GSU-P-0004" [] 0 in
  import_all cfg0 today0 st [item; item0] = None.
Proof.
  intros item st.
  apply (null_url_raises cfg0 today0 st item "energy frontier research").
  - reflexivity.
  - discriminate.
  - apply not_elem_of_empty.
  - reflexivity.
  - intros src [= <-]. repeat constructor.
Defined.

(** *** Submission mechanism *)

Lemma find_first {A} (P : A -> bool) (pre post : list A) (x : A) :
  Forall (λ y, P y = false) pre -> P x = true ->
  find P (pre ++ x :: post) = Some x.
Proof.
  induction 1 as [|y pre Hy _ IH]; intros Hx; simpl; [by rewrite Hx |].
  rewrite Hy. by apply IH.
Qed.

Lemma find_none {A} (P : A -> bool) (l : list A) :
  Forall (λ y, P y = false) l -> find P l = None.
Proof. induction 1 as [|y l Hy _ IH]; simpl; [done |]. by rewrite Hy. Qed.

(** X21.  The label of the first entry of the mechanism map whose key occurs,
    without regard to case, in the source text (the agency when there is
    no source) is returned, whatever the url; when no key occurs the
    result is "Grants.gov" for a url that contains [grants.gov] and
    "Other" for any other url string. *)
Theorem mechanism_rules item cfg src :
  mechanism_text item = Some src ->
  let occurs := λ kv : string * pyval, substring (lower kv.1) (lower src) in
  (forall pre k v post,
     default [] (mechanism_map cfg) = pre ++ (k, v) :: post ->
     Forall (λ kv, ~ occurs kv) pre -> occurs (k, v) ->
     mechanism_from_source item cfg = Some v)
  /\ (forall url,
        Forall (λ kv, ~ occurs kv) (default [] (mechanism_map cfg)) ->
        dict_get_or item "url" (PStr "") = PStr url ->
        (substring "grants.gov" (lower url) ->
         mechanism_from_source item cfg = Some (PStr "Grants.gov"))
        /\ (~ substring "grants.gov" (lower url) ->
            mechanism_from_source item cfg = Some (PStr "Other"))).
Proof.
  intros Hsrc occurs.
  assert (forall l : list (string * pyval),
            Forall (λ kv, ~ occurs kv) l ->
            Forall (λ kv : string * pyval,
                      contains (lower kv.1) (lower src) = false) l) as Hno.
  { intros l Hl. eapply Forall_impl; [exact Hl |]. intros kv Hn. simpl.
    destruct (contains (lower kv.1) (lower src)) eqn:E; [| done].
    destruct Hn. by apply contains_spec. }
  unfold mechanism_from_source. fold (mechanism_text item). rewrite Hsrc. simpl.
  split.
  - intros pre k v post -> Hpre Hk.
    rewrite (find_first _ pre post (k, v)); [done | by apply Hno |].
    by apply contains_spec.
  - intros url Hall Hurl. rewrite (find_none _ _ (Hno _ Hall)), Hurl. simpl.
    split; intros Hu.
    + apply contains_spec in Hu. by rewrite Hu.
    + destruct (contains "grants.gov" (lower url)) eqn:E; [| done].
      destruct Hu. by apply contains_spec.
Qed.

Lemma mechanism_rules_witness :
  mechanism_from_source item0 cfg0 = Some (PStr "ASSIST").
Proof.
  apply (proj1 (mechanism_rules item0 cfg0 "NIH Guide" eq_refl)
           [] "NIH" (PStr "ASSIST") []).
  - reflexivity.
  - constructor.
  - apply contains_spec. reflexivity.
Defined.

(** *** Case *)

(** X22.  The sponsor type does not depend on the case of the agency text. *)
Theorem sponsor_type_case agency :
  sponsor_type_from_agency (lower agency) = sponsor_type_from_agency agency.
Proof.
  unfold sponsor_type_from_agency. rewrite lower_idem.
  destruct (String.eqb_spec agency "") as [->|Hne]; [done |].
  destruct (String.eqb_spec (lower agency) "") as [E|_]; [| done].
  destruct Hne. by destruct agency.
Qed.

(** X23.  The filter list of the sync is the keyword list that the harvester
    reads from the same argument, in lower case; its entries are non-empty
    and in lower case. *)
Theorem parse_filter_lower arg :
  parse_filter arg = lower <$> parse_keywords arg
  /\ (forall k, k ∈ parse_filter arg -> k <> "" /\ lower k = k).
Proof.
  assert (parse_filter arg = lower <$> parse_keywords arg) as Heq.
  { unfold parse_filter, parse_keywords.
    induction (split_on ","%char arg) as [|w ws IH]; [done |].
    cbn [omap list_omap]. rewrite IH.
    by destruct (String.eqb_spec (strip w) ""). }
  split; [done |]. intros k. rewrite Heq, list_elem_of_fmap.
  intros (k' & -> & Hk'). split; [| apply lower_idem].
  unfold parse_keywords in Hk'. apply list_elem_of_omap in Hk' as (w & _ & Hw).
  destruct (String.eqb_spec (strip w) "") as [?|Hne]; [done |].
  injection Hw as <-. intros E. apply Hne. by destruct (strip w).
Qed.

End SyncDates.
